(** * DocFlow HR: document lifecycle, audit trail, retention and legal holds

    A shallow embedding of the DocFlow HR front end (Next.js pages talking to
    a hosted Postgres through the supabase client) and of its database schema
    (the SQL migration), followed by the properties of the document
    lifecycle that the specification states.

    Layout: JavaScript strings; the tables of the migration; the database
    client with its call trace; the three pages that write to the database
    (upload wizard, HR document review, new legal hold); the system as a
    whole; the retention and hold rules; then the theorems. *)

From Stdlib Require Import List ZArith NArith Bool Lia String Ascii.
Import ListNotations.
Local Open Scope Z_scope.

(* ===================================================================== *)
(** ** JavaScript strings *)
(* ===================================================================== *)

(** A JavaScript string is a sequence of UTF-16 code units. *)
Definition jsstring : Type := list N.

(** An ASCII literal of the source, as code units. *)
Definition lit (s : string) : jsstring :=
  List.map N_of_ascii (list_ascii_of_string s).

Fixpoint str_eqb (a b : jsstring) : bool :=
  match a, b with
  | [], [] => true
  | x :: a', y :: b' => N.eqb x y && str_eqb a' b'
  | _, _ => false
  end.

(** [a === b] on two values that may be [null]. *)
Definition opt_str_eqb (a b : option jsstring) : bool :=
  match a, b with
  | Some x, Some y => str_eqb x y
  | None, None => true
  | _, _ => false
  end.

(** [s.startsWith(p)] *)
Fixpoint startsWith (s p : jsstring) : bool :=
  match p, s with
  | [], _ => true
  | y :: p', x :: s' => N.eqb x y && startsWith s' p'
  | _ :: _, [] => false
  end.

(** ECMAScript WhiteSpace and LineTerminator code points, the ones
    [String.prototype.trim] strips. All of them are in the basic plane, so a
    code point is one code unit. *)
Definition isWhiteSpace (c : N) : bool :=
  (N.eqb c 9 || N.eqb c 10 || N.eqb c 11 || N.eqb c 12 || N.eqb c 13
   || N.eqb c 32 || N.eqb c 160 || N.eqb c 5760
   || (N.leb 8192 c && N.leb c 8202)
   || N.eqb c 8232 || N.eqb c 8233 || N.eqb c 8239 || N.eqb c 8287
   || N.eqb c 12288 || N.eqb c 65279)%N.

Fixpoint trimStart (s : jsstring) : jsstring :=
  match s with
  | [] => []
  | c :: s' => if isWhiteSpace c then trimStart s' else s
  end.

Definition trimEnd (s : jsstring) : jsstring := rev (trimStart (rev s)).

(** [s.trim()] *)
Definition trim (s : jsstring) : jsstring := trimEnd (trimStart s).

(** Truthiness of a string: only the empty string is falsy. *)
Definition truthy (s : jsstring) : bool :=
  match s with [] => false | _ :: _ => true end.

(** [a || b] on strings. *)
Definition str_or (a b : jsstring) : jsstring := if truthy a then a else b.

(** [a || b] where [b] may be [null]. *)
Definition str_or_null (a : jsstring) (b : option jsstring) : option jsstring :=
  if truthy a then Some a else b.

(** The claim's wording: empty, or whitespace only. *)
Definition blank (s : jsstring) : Prop := Forall (fun c => isWhiteSpace c = true) s.

(* ===================================================================== *)
(** ** The tables of the migration *)
(* ===================================================================== *)

Definition text : Type := jsstring.
(** A [uuid] value, as the text the database prints for it and the client
    receives: 32 lower-case hexadecimal digits in groups of 8, 4, 4, 4 and
    12 with a hyphen between the groups. *)
Definition uuid : Type := jsstring.
(** [timestamptz] and [date] values on one time axis. *)
Definition timestamp : Type := Z.
Definition date : Type := Z.

(** The value of a hexadecimal digit, in either case. *)
Definition hexValue (c : N) : option N :=
  (if (48 <=? c) && (c <=? 57) then Some (c - 48)
   else if (97 <=? c) && (c <=? 102) then Some (c - 87)
   else if (65 <=? c) && (c <=? 70) then Some (c - 55)
   else None)%N.

(** The lower-case digit of a value below 16. *)
Definition hexDigit (v : N) : N := (if v <? 10 then v + 48 else v + 87)%N.

Definition hyphen : N := 45%N.

(** How the database reads a text as a [uuid]. It reads [n] bytes, the
    next one being byte number [i] of the sixteen: a byte is two
    hexadecimal digits, and a hyphen may follow a byte with an odd number
    that is not the last, that is, any group of four digits. The value is
    the digits read and the text that is remaining. *)
Fixpoint uuid_bytes (n i : nat) (src : jsstring) : option (list N * jsstring) :=
  match n with
  | O => Some ([], src)
  | S n' =>
      match src with
      | a :: b :: src' =>
          match hexValue a, hexValue b with
          | Some x, Some y =>
              let src'' :=
                match src' with
                | c :: rest =>
                    if N.eqb c hyphen && Nat.odd i && Nat.ltb i 15 then rest else src'
                | [] => src'
                end in
              match uuid_bytes n' (S i) src'' with
              | Some (digits, remaining) => Some (x :: y :: digits, remaining)
              | None => None
              end
          | _, _ => None
          end
      | _ => None
      end
  end.

(** The 32 digits of a text that is a uuid: braces may surround it, and
    nothing may follow it. *)
Definition uuid_digits (source : jsstring) : option (list N) :=
  let braces :=
    match source with c :: _ => N.eqb c 123 | [] => false end in
  let src := if braces then tl source else source in
  match uuid_bytes 16 0 src with
  | Some (digits, remaining) =>
      if braces
      then match remaining with
           | [c] => if N.eqb c 125 then Some digits else None
           | _ => None
           end
      else match remaining with [] => Some digits | _ :: _ => None end
  | None => None
  end.

(** The text the database prints for the digits of a uuid. *)
Definition uuid_out (digits : list N) : uuid :=
  let hex from count := List.map hexDigit (firstn count (skipn from digits)) in
  hex 0%nat 8%nat ++ [hyphen] ++ hex 8%nat 4%nat ++ [hyphen] ++ hex 12%nat 4%nat
  ++ [hyphen] ++ hex 16%nat 4%nat ++ [hyphen] ++ hex 20%nat 12%nat.

(** A text sent for a [uuid] column: the value it denotes, or none when it
    is not the text of a uuid (the request then fails with "invalid input
    syntax for type uuid"). Upper-case digits, braces and other hyphens
    denote the same value as the standard form. *)
Definition uuid_in (source : jsstring) : option uuid :=
  option_map uuid_out (uuid_digits source).

(** A column without NOT NULL is an [option]. *)
Module Employee.
Record t : Type := mk {
  id : uuid;
  email : text;
  name : text;
  phone : option text;
  department : option text;
  state : option text;
  status : option text;
  created_at : option timestamp;
  updated_at : option timestamp
}.
End Employee.

Module Document.
Record t : Type := mk {
  id : uuid;
  employee_id : option uuid;
  type : option text;
  status : option text;
  source : option text;
  file_url : option text;
  file_name : option text;
  file_size : option Z;
  issue_date : option date;
  expiration_date : option date;
  priority : option text;
  notes : option text;
  reviewed_by : option text;
  reviewed_at : option timestamp;
  version : option Z;
  original_document_id : option uuid;
  created_at : option timestamp;
  updated_at : option timestamp
}.

(** One [column: value] pair of an insert or update payload. Only the
    columns that some page writes have a constructor. *)
Inductive assignment : Type :=
| set_employee_id (v : option uuid)
| set_type (v : option text)
| set_status (v : option text)
| set_source (v : option text)
| set_file_name (v : option text)
| set_file_size (v : option Z)
| set_notes (v : option text)
| set_reviewed_by (v : option text)
| set_reviewed_at (v : option timestamp).

Definition assign (a : assignment) (d : t) : t :=
  match a with
  | set_employee_id v =>
      mk (id d) v (type d) (status d) (source d) (file_url d) (file_name d)
         (file_size d) (issue_date d) (expiration_date d) (priority d) (notes d)
         (reviewed_by d) (reviewed_at d) (version d) (original_document_id d)
         (created_at d) (updated_at d)
  | set_type v =>
      mk (id d) (employee_id d) v (status d) (source d) (file_url d) (file_name d)
         (file_size d) (issue_date d) (expiration_date d) (priority d) (notes d)
         (reviewed_by d) (reviewed_at d) (version d) (original_document_id d)
         (created_at d) (updated_at d)
  | set_status v =>
      mk (id d) (employee_id d) (type d) v (source d) (file_url d) (file_name d)
         (file_size d) (issue_date d) (expiration_date d) (priority d) (notes d)
         (reviewed_by d) (reviewed_at d) (version d) (original_document_id d)
         (created_at d) (updated_at d)
  | set_source v =>
      mk (id d) (employee_id d) (type d) (status d) v (file_url d) (file_name d)
         (file_size d) (issue_date d) (expiration_date d) (priority d) (notes d)
         (reviewed_by d) (reviewed_at d) (version d) (original_document_id d)
         (created_at d) (updated_at d)
  | set_file_name v =>
      mk (id d) (employee_id d) (type d) (status d) (source d) (file_url d) v
         (file_size d) (issue_date d) (expiration_date d) (priority d) (notes d)
         (reviewed_by d) (reviewed_at d) (version d) (original_document_id d)
         (created_at d) (updated_at d)
  | set_file_size v =>
      mk (id d) (employee_id d) (type d) (status d) (source d) (file_url d) (file_name d)
         v (issue_date d) (expiration_date d) (priority d) (notes d)
         (reviewed_by d) (reviewed_at d) (version d) (original_document_id d)
         (created_at d) (updated_at d)
  | set_notes v =>
      mk (id d) (employee_id d) (type d) (status d) (source d) (file_url d) (file_name d)
         (file_size d) (issue_date d) (expiration_date d) (priority d) v
         (reviewed_by d) (reviewed_at d) (version d) (original_document_id d)
         (created_at d) (updated_at d)
  | set_reviewed_by v =>
      mk (id d) (employee_id d) (type d) (status d) (source d) (file_url d) (file_name d)
         (file_size d) (issue_date d) (expiration_date d) (priority d) (notes d)
         v (reviewed_at d) (version d) (original_document_id d)
         (created_at d) (updated_at d)
  | set_reviewed_at v =>
      mk (id d) (employee_id d) (type d) (status d) (source d) (file_url d) (file_name d)
         (file_size d) (issue_date d) (expiration_date d) (priority d) (notes d)
         (reviewed_by d) v (version d) (original_document_id d)
         (created_at d) (updated_at d)
  end.

(** A payload is applied key by key, in the order the object lists them. *)
Definition apply (p : list assignment) (d : t) : t :=
  fold_left (fun acc a => assign a acc) p d.

(** The row a bare insert produces: every column at its DEFAULT
    ([gen_random_uuid()], ['received'], ['upload'], ['medium'], [1],
    [now()]) or NULL. *)
Definition default (new_id : uuid) (now : timestamp) : t :=
  mk new_id None None (Some (lit "received")) (Some (lit "upload")) None None
     None None None (Some (lit "medium")) None None None (Some 1) None
     (Some now) (Some now).

(** The trigger [update_documents_updated_at]: BEFORE UPDATE, for each row,
    [NEW.updated_at = now()]. *)
Definition update_updated_at (now : timestamp) (d : t) : t :=
  mk (id d) (employee_id d) (type d) (status d) (source d) (file_url d) (file_name d)
     (file_size d) (issue_date d) (expiration_date d) (priority d) (notes d)
     (reviewed_by d) (reviewed_at d) (version d) (original_document_id d)
     (created_at d) (Some now).
End Document.

Module LegalHold.
Record t : Type := mk {
  id : uuid;
  title : text;
  reason : option text;
  status : option text;
  created_by : text;
  employee_ids : option (list uuid);
  department : option text;
  document_category : option text;
  date_from : option date;
  date_to : option date;
  created_at : option timestamp;
  released_at : option timestamp
}.

(** The object [holdData] of the new-hold form. [None] in the last two
    fields is a key the form left out. *)
Record payload : Type := mk_payload {
  p_title : text;
  p_reason : option text;
  p_status : option text;
  p_created_by : text;
  p_department : option text;
  p_document_category : option text
}.

(** The inserted row: payload columns as given, the others at DEFAULT. *)
Definition row (new_id : uuid) (now : timestamp) (p : payload) : t :=
  mk new_id (p_title p) (p_reason p) (p_status p) (p_created_by p) None
     (p_department p) (p_document_category p) None None (Some now) None.
End LegalHold.

Module ActivityLog.
Record t : Type := mk {
  id : uuid;
  entity_type : text;
  entity_id : option uuid;
  event_type : text;
  actor_name : text;
  actor_role : text;
  description : text;
  metadata : option text;
  created_at : option timestamp
}.

(** The object every page passes to [from('activity_logs').insert]. *)
Record payload : Type := mk_payload {
  p_entity_type : text;
  p_entity_id : option uuid;
  p_event_type : text;
  p_actor_name : text;
  p_actor_role : text;
  p_description : text
}.

Definition row (new_id : uuid) (now : timestamp) (p : payload) : t :=
  mk new_id (p_entity_type p) (p_entity_id p) (p_event_type p) (p_actor_name p)
     (p_actor_role p) (p_description p) (Some (lit "{}")) (Some now).
End ActivityLog.

Module RetentionPolicy.
Record t : Type := mk {
  id : uuid;
  state : text;
  document_type : text;
  retention_period_days : Z;
  is_override : option bool;
  created_at : option timestamp
}.
End RetentionPolicy.

Record DB : Type := mkDB {
  employees : list Employee.t;
  documents : list Document.t;
  legal_holds : list LegalHold.t;
  activity_logs : list ActivityLog.t;
  retention_policies : list RetentionPolicy.t
}.

(* ===================================================================== *)
(** ** The database client *)
(* ===================================================================== *)

(** What one handler run cannot decide by itself: the clocks, the ids that
    [gen_random_uuid()] draws and whether a request fails on the way
    (network, row-level security). One flag per request a handler makes:
    its read, its write to the entity table, its write to the audit log. *)
Record Env : Type := mkEnv {
  client_now : timestamp;
  server_now : timestamp;
  new_id : uuid;
  log_id : uuid;
  select_error : bool;
  write_error : bool;
  log_error : bool
}.

(** What a request can report and what a handler body can throw. *)
Inductive Error : Type :=
| RequestFailed
| UniqueViolation
| ForeignKeyViolation
| MultipleRows
| TypeError
| InvalidTextRepresentation.

(** The [{ data, error }] object every supabase request resolves to. *)
Record Response (A : Type) : Type := mkResponse {
  data : option A;
  error : option Error
}.
Arguments mkResponse {A} _ _.
Arguments data {A} _.
Arguments error {A} _.

Definition ok {A : Type} (a : A) : Response A := mkResponse (Some a) None.
Definition ok_empty {A : Type} : Response A := mkResponse None None.
Definition failed {A : Type} (e : Error) : Response A := mkResponse None (Some e).

(** The requests the pages send, as they appear on the wire. *)
Inductive Call : Type :=
| select_employees_by_email (e : text)
| select_documents_by_id (i : text)
| insert_documents (p : list Document.assignment)
| update_documents (p : list Document.assignment) (i : uuid)
| insert_legal_holds (p : LegalHold.payload)
| insert_activity_logs (p : ActivityLog.payload).

Record Toast : Type := mkToast {
  toast_title : text;
  toast_description : text;
  destructive : bool
}.

Inductive UiEffect : Type :=
| toast (t : Toast)
| router_push (path : text)
| console_error (msg : text).

(** Everything outside a page's own React state. *)
Record World : Type := mkWorld {
  db : DB;
  calls : list Call;
  ui : list UiEffect
}.

(** A handler body: it may throw, and it changes the world either way. *)
Inductive result (A : Type) : Type :=
| Return (a : A)
| Throw (e : Error).
Arguments Return {A} _.
Arguments Throw {A} _.

Definition M (A : Type) : Type := World -> result A * World.

Definition ret {A : Type} (a : A) : M A := fun w => (Return a, w).

Definition bind {A B : Type} (m : M A) (k : A -> M B) : M B :=
  fun w =>
    match m w with
    | (Return a, w') => k a w'
    | (Throw e, w') => (Throw e, w')
    end.

Definition throw {A : Type} (e : Error) : M A := fun w => (Throw e, w).

(** [try { body } catch (error) { handler }] *)
Definition try_catch {A : Type} (body : M A) (handler : Error -> M A) : M A :=
  fun w =>
    match body w with
    | (Return a, w') => (Return a, w')
    | (Throw e, w') => handler e w'
    end.

Declare Scope handler_scope.
Delimit Scope handler_scope with handler.
Notation "x <- m ;; k" := (bind m (fun x => k))
  (at level 61, m at next level, right associativity) : handler_scope.
Notation "m ;;; k" := (bind m (fun _ => k))
  (at level 61, right associativity) : handler_scope.
Local Open Scope handler_scope.

Definition emit (e : UiEffect) : M unit :=
  fun w => (Return tt, mkWorld (db w) (calls w) (ui w ++ [e])).

Definition record_call (c : Call) (w : World) : World :=
  mkWorld (db w) (calls w ++ [c]) (ui w).

Definition with_db (d : DB) (w : World) : World := mkWorld d (calls w) (ui w).

(** [.maybeSingle()]: no row is [data: null] without an error, one row is
    that row, several rows are an error. *)
Definition maybeSingle {A : Type} (rows : list A) : Response A :=
  match rows with
  | [] => ok_empty
  | [r] => ok r
  | _ :: _ :: _ => failed MultipleRows
  end.

(** [from('employees').select('id').eq('email', e).maybeSingle()] *)
Definition employees_by_email (env : Env) (e : text) : M (Response Employee.t) :=
  fun w =>
    let w' := record_call (select_employees_by_email e) w in
    if select_error env then (Return (failed RequestFailed), w')
    else (Return (maybeSingle
                    (filter (fun r => str_eqb (Employee.email r) e) (employees (db w)))),
          w').

(** [from('documents').select(...).eq('id', i).maybeSingle()]. The text [i]
    comes from the address of the page. The column is a [uuid]: the
    database reads [i] as one and compares values, so every spelling of an
    id finds its row, and a text that is no uuid is an error of the
    request. *)
Definition documents_by_id (env : Env) (i : text) : M (Response Document.t) :=
  fun w =>
    let w' := record_call (select_documents_by_id i) w in
    if select_error env then (Return (failed RequestFailed), w')
    else match uuid_in i with
         | None => (Return (failed InvalidTextRepresentation), w')
         | Some u =>
             (Return (maybeSingle
                        (filter (fun r => str_eqb (Document.id r) u) (documents (db w)))),
              w')
         end.

(** [employee_id uuid REFERENCES employees(id)] *)
Definition employee_fk_ok (d : DB) (r : Document.t) : bool :=
  match Document.employee_id r with
  | None => true
  | Some e => existsb (fun x => str_eqb (Employee.id x) e) (employees d)
  end.

(** [from('documents').insert(p).select().single()]: the row is the payload
    over the column defaults; the primary key and the foreign key are
    checked; the new row goes after the existing ones. *)
Definition documents_insert (env : Env) (p : list Document.assignment)
  : M (Response Document.t) :=
  fun w =>
    let w' := record_call (insert_documents p) w in
    let r := Document.apply p (Document.default (new_id env) (server_now env)) in
    let d := db w in
    if write_error env then (Return (failed RequestFailed), w')
    else if existsb (fun x => str_eqb (Document.id x) (Document.id r)) (documents d)
    then (Return (failed UniqueViolation), w')
    else if negb (employee_fk_ok d r) then (Return (failed ForeignKeyViolation), w')
    else (Return (ok r),
          with_db (mkDB (employees d) (documents d ++ [r]) (legal_holds d)
                        (activity_logs d) (retention_policies d)) w').

(** Does the payload write the foreign-key column? *)
Definition assigns_employee_id (p : list Document.assignment) : bool :=
  existsb (fun a => match a with Document.set_employee_id _ => true | _ => false end) p.

(** [from('documents').update(p).eq('id', i)]: every row whose id is [i]
    takes the payload, then the trigger stamps [updated_at]; the other rows
    are not touched. The foreign key is checked when the payload writes it.
    The pages pass the id of a row they loaded, a text the database printed,
    which reads as the uuid it stands for. *)
Definition update_row (env : Env) (p : list Document.assignment) (i : uuid)
  (r : Document.t) : Document.t :=
  if str_eqb (Document.id r) i
  then Document.update_updated_at (server_now env) (Document.apply p r)
  else r.

Definition documents_update (env : Env) (p : list Document.assignment) (i : uuid)
  : M (Response unit) :=
  fun w =>
    let w' := record_call (update_documents p i) w in
    let d := db w in
    let rows := List.map (update_row env p i) (documents d) in
    if write_error env then (Return (failed RequestFailed), w')
    else if assigns_employee_id p && negb (forallb (employee_fk_ok d) rows)
    then (Return (failed ForeignKeyViolation), w')
    else (Return ok_empty,
          with_db (mkDB (employees d) rows (legal_holds d)
                        (activity_logs d) (retention_policies d)) w').

(** [from('legal_holds').insert(p).select().single()] *)
Definition legal_holds_insert (env : Env) (p : LegalHold.payload)
  : M (Response LegalHold.t) :=
  fun w =>
    let w' := record_call (insert_legal_holds p) w in
    let r := LegalHold.row (new_id env) (server_now env) p in
    let d := db w in
    if write_error env then (Return (failed RequestFailed), w')
    else if existsb (fun x => str_eqb (LegalHold.id x) (new_id env)) (legal_holds d)
    then (Return (failed UniqueViolation), w')
    else (Return (ok r),
          with_db (mkDB (employees d) (documents d) (legal_holds d ++ [r])
                        (activity_logs d) (retention_policies d)) w').

(** [from('activity_logs').insert(p)] *)
Definition activity_logs_insert (env : Env) (p : ActivityLog.payload)
  : M (Response unit) :=
  fun w =>
    let w' := record_call (insert_activity_logs p) w in
    let r := ActivityLog.row (log_id env) (server_now env) p in
    let d := db w in
    if log_error env then (Return (failed RequestFailed), w')
    else if existsb (fun x => str_eqb (ActivityLog.id x) (log_id env)) (activity_logs d)
    then (Return (failed UniqueViolation), w')
    else (Return ok_empty,
          with_db (mkDB (employees d) (documents d) (legal_holds d)
                        (activity_logs d ++ [r]) (retention_policies d)) w').

(** [if (error) throw error;] *)
Definition throw_if_error {A : Type} (r : Response A) : M unit :=
  match error r with
  | Some e => throw e
  | None => ret tt
  end.

(* ===================================================================== *)
(** ** The upload wizard: [employee/upload/page.tsx] *)
(* ===================================================================== *)

Module File.
Record t : Type := mk {
  name : text;
  type : text;
  size : Z;
  preview : option text
}.

Definition with_preview (url : text) (f : t) : t :=
  mk (name f) (type f) (size f) (Some url).
End File.

Module UploadPage.

Record Page : Type := mkPage {
  step : Z;
  documentType : text;
  files : list File.t;
  notes : text;
  submissionId : text;
  isDragging : bool
}.

Definition setFiles (v : list File.t) (pg : Page) : Page :=
  mkPage (step pg) (documentType pg) v (notes pg) (submissionId pg) (isDragging pg).
Definition setSubmissionId (v : text) (pg : Page) : Page :=
  mkPage (step pg) (documentType pg) (files pg) (notes pg) v (isDragging pg).
Definition setStep (v : Z) (pg : Page) : Page :=
  mkPage v (documentType pg) (files pg) (notes pg) (submissionId pg) (isDragging pg).

Definition isValidType (file : File.t) : bool :=
  str_eqb (File.type file) (lit "application/pdf")
  || startsWith (File.type file) (lit "image/").

Definition isValidSize (file : File.t) : bool :=
  File.size file <=? 10 * 1024 * 1024.

(** The callback of [newFiles.filter]: it reports a rejected file in a
    toast, the type check first. *)
Definition validFile (file : File.t) : M bool :=
  if negb (isValidType file) then
    emit (toast (mkToast (lit "Invalid file type")
                         (File.name file ++ lit " is not a PDF or image file") true)) ;;;
    ret false
  else if negb (isValidSize file) then
    emit (toast (mkToast (lit "File too large")
                         (File.name file ++ lit " exceeds 10MB limit") true)) ;;;
    ret false
  else ret true.

(** [Array.prototype.filter] with a callback that has effects: the callback
    runs on each element from left to right. *)
Fixpoint array_filter {A : Type} (f : A -> M bool) (l : list A) : M (list A) :=
  match l with
  | [] => ret []
  | x :: l' =>
      b <- f x ;;
      rest <- array_filter f l' ;;
      ret (if b then x :: rest else rest)
  end.

(** [URL.createObjectURL] is the browser's; it is a parameter here. *)
Definition handleFiles (createObjectURL : File.t -> text) (newFiles : list File.t)
  (pg : Page) : M Page :=
  validFiles <- array_filter validFile newFiles ;;
  let filesWithPreview :=
    List.map (fun file =>
                if startsWith (File.type file) (lit "image/")
                then File.with_preview (createObjectURL file) file
                else file) validFiles in
  ret (setFiles (files pg ++ filesWithPreview) pg).

Definition fallbackEmployeeId : uuid := lit "11111111-1111-1111-1111-111111111111".

(** [employeeData?.id || '11111111-...'] *)
Definition employeeIdOf (r : Response Employee.t) : uuid :=
  match data r with
  | Some e => str_or (Employee.id e) fallbackEmployeeId
  | None => fallbackEmployeeId
  end.

(** The object passed to [from('documents').insert]. *)
Definition documentPayload (employeeId : uuid) (pg : Page) : list Document.assignment :=
  [ Document.set_employee_id (Some employeeId);
    Document.set_type (Some (str_or (documentType pg) (lit "Other")));
    Document.set_status (Some (lit "received"));
    Document.set_source (Some (lit "upload"));
    Document.set_file_name
      (Some (match files pg with
             | f :: _ => str_or (File.name f) (lit "document.pdf")
             | [] => lit "document.pdf"
             end));
    Document.set_file_size
      (Some (match files pg with f :: _ => File.size f | [] => 0 end));
    Document.set_notes (str_or_null (notes pg) None) ].

Definition submittedEntry (docId : uuid) : ActivityLog.payload :=
  ActivityLog.mk_payload (lit "document") (Some docId) (lit "submitted")
    (lit "John Doe") (lit "employee") (lit "Document submitted via upload").

Definition handleSubmit (env : Env) (pg : Page) : M Page :=
  try_catch
    (employeeData <- employees_by_email env (lit "john.doe@company.com") ;;
     let employeeId := employeeIdOf employeeData in
     doc <- documents_insert env (documentPayload employeeId pg) ;;
     throw_if_error doc ;;;
     match data doc with
     | None => throw TypeError
     | Some docData =>
         activity_logs_insert env (submittedEntry (Document.id docData)) ;;;
         let pg' := setStep 4 (setSubmissionId (Document.id docData) pg) in
         emit (toast (mkToast (lit "Success!")
                              (lit "Your document has been submitted") false)) ;;;
         ret pg'
     end)
    (fun _ =>
       emit (toast (mkToast (lit "Submission failed") (lit "Please try again") true)) ;;;
       ret pg).

End UploadPage.

(* ===================================================================== *)
(** ** The employee's submission page: [employee/submission/[id]/page.tsx] *)
(* ===================================================================== *)

Module SubmissionDetailPage.

(** The red card with the Resubmit button:
    [document.status === 'rejected' && document.notes]. *)
Definition resubmitVisible (d : Document.t) : bool :=
  opt_str_eqb (Document.status d) (Some (lit "rejected"))
  && match Document.notes d with Some n => truthy n | None => false end.

(** The button is a plain link; the address carries nothing of the
    rejected document. *)
Definition resubmitHref (d : Document.t) : text := lit "/employee/upload".

(** Resubmitting: the link opens the wizard, the employee fills it in
    ([pg] is the wizard's state at the last step) and submits. *)
Definition resubmit (env : Env) (d : Document.t) (pg : UploadPage.Page)
  : M UploadPage.Page :=
  if resubmitVisible d then UploadPage.handleSubmit env pg else ret pg.

End SubmissionDetailPage.

(* ===================================================================== *)
(** ** The HR review page: [hr/documents/[id]/page.tsx] *)
(* ===================================================================== *)

Module DocumentReviewPage.

(** The page's React state. The joined employee and the activity timeline
    are only rendered and are left out. *)
Record Page : Type := mkPage {
  document : option Document.t;
  loading : bool;
  showApproveDialog : bool;
  showRejectDialog : bool;
  rejectNotes : text;
  documentType : text;
  processing : bool
}.

Definition initial : Page := mkPage None true false false [] [] false.

Definition setDocument (v : option Document.t) (pg : Page) : Page :=
  mkPage v (loading pg) (showApproveDialog pg) (showRejectDialog pg)
         (rejectNotes pg) (documentType pg) (processing pg).
Definition setLoading (v : bool) (pg : Page) : Page :=
  mkPage (document pg) v (showApproveDialog pg) (showRejectDialog pg)
         (rejectNotes pg) (documentType pg) (processing pg).
Definition setShowApproveDialog (v : bool) (pg : Page) : Page :=
  mkPage (document pg) (loading pg) v (showRejectDialog pg)
         (rejectNotes pg) (documentType pg) (processing pg).
Definition setShowRejectDialog (v : bool) (pg : Page) : Page :=
  mkPage (document pg) (loading pg) (showApproveDialog pg) v
         (rejectNotes pg) (documentType pg) (processing pg).
Definition setRejectNotes (v : text) (pg : Page) : Page :=
  mkPage (document pg) (loading pg) (showApproveDialog pg) (showRejectDialog pg)
         v (documentType pg) (processing pg).
Definition setDocumentType (v : text) (pg : Page) : Page :=
  mkPage (document pg) (loading pg) (showApproveDialog pg) (showRejectDialog pg)
         (rejectNotes pg) v (processing pg).
Definition setProcessing (v : bool) (pg : Page) : Page :=
  mkPage (document pg) (loading pg) (showApproveDialog pg) (showRejectDialog pg)
         (rejectNotes pg) (documentType pg) v.

(** [docData?.type || ''] *)
Definition typeOrEmpty (d : option Document.t) : text :=
  match d with
  | Some d' => match Document.type d' with Some t => t | None => [] end
  | None => []
  end.

Definition loadData (env : Env) (params_id : text) (pg : Page) : M Page :=
  pg' <- try_catch
           (r <- documents_by_id env params_id ;;
            throw_if_error r ;;;
            ret (setDocumentType (typeOrEmpty (data r)) (setDocument (data r) pg)))
           (fun _ => emit (console_error (lit "Error loading data:")) ;;; ret pg) ;;
  ret (setLoading false pg').

Definition hrReviewer : text := lit "Sarah Chen".

(** The object passed to [update] by [handleApprove]. *)
Definition approvePayload (env : Env) (pg : Page) (doc : Document.t)
  : list Document.assignment :=
  [ Document.set_status (Some (lit "approved"));
    Document.set_reviewed_by (Some hrReviewer);
    Document.set_reviewed_at (Some (client_now env));
    Document.set_type (str_or_null (documentType pg) (Document.type doc)) ].

Definition approvedEntry (doc : Document.t) : ActivityLog.payload :=
  ActivityLog.mk_payload (lit "document") (Some (Document.id doc)) (lit "approved")
    hrReviewer (lit "hr_admin") (lit "Document approved").

Definition handleApprove (env : Env) (pg : Page) : M Page :=
  match document pg with
  | None => ret pg
  | Some doc =>
      let pg1 := setProcessing true pg in
      pg2 <- try_catch
               (r <- documents_update env (approvePayload env pg doc) (Document.id doc) ;;
                throw_if_error r ;;;
                activity_logs_insert env (approvedEntry doc) ;;;
                emit (toast (mkToast (lit "Document approved")
                                     (lit "The employee will be notified") false)) ;;;
                emit (router_push (lit "/hr/review-queue")) ;;;
                ret (setShowApproveDialog false pg1))
               (fun _ =>
                  emit (toast (mkToast (lit "Error")
                                       (lit "Failed to approve document") true)) ;;;
                  ret pg1) ;;
      ret (setProcessing false pg2)
  end.

(** The toast of the guard at the top of [handleReject]. *)
Definition notesRequired : Toast :=
  mkToast (lit "Notes required") (lit "Please provide a reason for rejection") true.

(** The object passed to [update] by [handleReject]. *)
Definition rejectPayload (env : Env) (pg : Page) (doc : Document.t)
  : list Document.assignment :=
  [ Document.set_status (Some (lit "rejected"));
    Document.set_reviewed_by (Some hrReviewer);
    Document.set_reviewed_at (Some (client_now env));
    Document.set_notes (Some (rejectNotes pg));
    Document.set_type (str_or_null (documentType pg) (Document.type doc)) ].

Definition rejectedEntry (pg : Page) (doc : Document.t) : ActivityLog.payload :=
  ActivityLog.mk_payload (lit "document") (Some (Document.id doc)) (lit "rejected")
    hrReviewer (lit "hr_admin") (lit "Document rejected: " ++ rejectNotes pg).

Definition handleReject (env : Env) (pg : Page) : M Page :=
  match document pg, truthy (trim (rejectNotes pg)) with
  | Some doc, true =>
      let pg1 := setProcessing true pg in
      pg2 <- try_catch
               (r <- documents_update env (rejectPayload env pg doc) (Document.id doc) ;;
                throw_if_error r ;;;
                activity_logs_insert env (rejectedEntry pg doc) ;;;
                emit (toast (mkToast (lit "Document rejected")
                                     (lit "The employee will be notified to resubmit")
                                     false)) ;;;
                emit (router_push (lit "/hr/review-queue")) ;;;
                ret (setShowRejectDialog false pg1))
               (fun _ =>
                  emit (toast (mkToast (lit "Error")
                                       (lit "Failed to reject document") true)) ;;;
                  ret pg1) ;;
      ret (setProcessing false pg2)
  | _, _ => emit (toast notesRequired) ;;; ret pg
  end.

(** The condition around the Review Actions card:
    [document.status !== 'approved' && document.status !== 'rejected']. *)
Definition reviewActionsVisible (d : Document.t) : bool :=
  negb (opt_str_eqb (Document.status d) (Some (lit "approved")))
  && negb (opt_str_eqb (Document.status d) (Some (lit "rejected"))).

(** The page body is rendered once loading is over and a document is
    there. The body reads [document.status.replace('_', ' ')], which throws
    when the status is [null]: nothing of the page is shown then. *)
Definition rendered (pg : Page) : bool :=
  negb (loading pg)
  && match document pg with
     | Some d => match Document.status d with Some _ => true | None => false end
     | None => false
     end.

Definition cardShown (pg : Page) : bool :=
  rendered pg && match document pg with
                 | Some d => reviewActionsVisible d
                 | None => false
                 end.

(** What the HR user can do on the rendered page. A control that is not
    rendered or is disabled does nothing. *)
Inductive Event : Type :=
| selectDocumentType (v : text)
| clickApproveDocument
| clickRejectDocument
| closeApproveDialog
| closeRejectDialog
| typeRejectNotes (v : text)
| confirmApproval
| confirmRejection.

Definition dispatch (env : Env) (ev : Event) (pg : Page) : M Page :=
  match ev with
  | selectDocumentType v =>
      ret (if rendered pg then setDocumentType v pg else pg)
  | clickApproveDocument =>
      ret (if cardShown pg then setShowApproveDialog true pg else pg)
  | clickRejectDocument =>
      ret (if cardShown pg then setShowRejectDialog true pg else pg)
  | closeApproveDialog =>
      ret (if rendered pg then setShowApproveDialog false pg else pg)
  | closeRejectDialog =>
      ret (if rendered pg then setShowRejectDialog false pg else pg)
  | typeRejectNotes v =>
      ret (if rendered pg && showRejectDialog pg then setRejectNotes v pg else pg)
  | confirmApproval =>
      if rendered pg && showApproveDialog pg && negb (processing pg)
      then handleApprove env pg else ret pg
  | confirmRejection =>
      if rendered pg && showRejectDialog pg
         && negb (processing pg || negb (truthy (trim (rejectNotes pg))))
      then handleReject env pg else ret pg
  end.

(** A session on the page: events one after the other. A handler catches
    what it throws, so [dispatch] always returns; the [Throw] branch keeps
    the page as it is. *)
Fixpoint session (evs : list (Env * Event)) (pg : Page) (w : World) : Page * World :=
  match evs with
  | [] => (pg, w)
  | (env, ev) :: evs' =>
      match dispatch env ev pg w with
      | (Return pg', w') => session evs' pg' w'
      | (Throw _, w') => session evs' pg w'
      end
  end.

(** Opening the page at the address [/hr/documents/params_id]. *)
Definition mount (env : Env) (params_id : text) (w : World) : Page * World :=
  match loadData env params_id initial w with
  | (Return pg, w') => (pg, w')
  | (Throw _, w') => (initial, w')
  end.

End DocumentReviewPage.

(* ===================================================================== *)
(** ** The new legal hold form: [settings/legal-holds/new/page.tsx] *)
(* ===================================================================== *)

Module NewLegalHoldPage.

Record Page : Type := mkPage {
  title : text;
  reason : text;
  scope : text;
  department : text;
  docCategory : text;
  processing : bool
}.

Definition setProcessing (v : bool) (pg : Page) : Page :=
  mkPage (title pg) (reason pg) (scope pg) (department pg) (docCategory pg) v.

(** [holdData], with the two keys the scope may add. *)
Definition holdData (pg : Page) : LegalHold.payload :=
  let byDepartment := str_eqb (scope pg) (lit "department") && truthy (department pg) in
  let byCategory := str_eqb (scope pg) (lit "category") && truthy (docCategory pg) in
  LegalHold.mk_payload
    (trim (title pg))
    (str_or_null (trim (reason pg)) None)
    (Some (lit "active"))
    (lit "Sarah Chen")
    (if byDepartment then Some (department pg) else None)
    (if byDepartment then None
     else if byCategory then Some (docCategory pg) else None).

Definition holdEntry (pg : Page) (holdId : uuid) : ActivityLog.payload :=
  ActivityLog.mk_payload (lit "hold") (Some holdId) (lit "hold_applied")
    (lit "Sarah Chen") (lit "hr_admin") (lit "Legal hold created: " ++ title pg).

Definition handleSubmit (env : Env) (pg : Page) : M Page :=
  if negb (truthy (trim (title pg))) then
    emit (toast (mkToast (lit "Title required")
                         (lit "Please provide a title for this legal hold") true)) ;;;
    ret pg
  else
    let pg1 := setProcessing true pg in
    pg2 <- try_catch
             (r <- legal_holds_insert env (holdData pg) ;;
              throw_if_error r ;;;
              match data r with
              | None => throw TypeError
              | Some hold =>
                  activity_logs_insert env (holdEntry pg (LegalHold.id hold)) ;;;
                  emit (toast (mkToast (lit "Legal hold created")
                                       (lit "Documents matching this hold are now protected")
                                       false)) ;;;
                  emit (router_push (lit "/settings/legal-holds")) ;;;
                  ret pg1
              end)
             (fun _ =>
                emit (toast (mkToast (lit "Error")
                                     (lit "Failed to create legal hold") true)) ;;;
                ret pg1) ;;
    ret (setProcessing false pg2).

End NewLegalHoldPage.

(* ===================================================================== *)
(** ** The system: the operations that write to the database *)
(* ===================================================================== *)

Inductive Op : Type :=
| submit (pg : UploadPage.Page)
| approve (pg : DocumentReviewPage.Page)
| reject (pg : DocumentReviewPage.Page)
| create_hold (pg : NewLegalHoldPage.Page).

(** One operation, run by the page it belongs to. The page states are
    arbitrary: a page may hold a stale copy of its document. *)
Definition step (env : Env) (op : Op) (w : World) : World :=
  match op with
  | submit pg => snd (UploadPage.handleSubmit env pg w)
  | approve pg => snd (DocumentReviewPage.handleApprove env pg w)
  | reject pg => snd (DocumentReviewPage.handleReject env pg w)
  | create_hold pg => snd (NewLegalHoldPage.handleSubmit env pg w)
  end.

Definition run (ops : list (Env * Op)) (w : World) : World :=
  fold_left (fun acc eo => step (fst eo) (snd eo) acc) ops w.

(* ===================================================================== *)
(** ** Retention date computation *)
(* ===================================================================== *)

Module Retention.

(** Modelled from the spec: the retention computation
    [compute_retention_eligible_at] is not among the sources (only the
    [retention_policies] table and the backend plan are). The definitions of
    this module follow the specification's section on retention date
    computation. *)
Inductive StartEvent : Type :=
| termination
| submission.

(** Modelled from the spec: a policy is keyed by jurisdiction and document
    type and holds [retention_period_days] and a [start_event]; the first
    four fields are the columns of [retention_policies]. *)
Record Policy : Type := mkPolicy {
  jurisdiction : text;
  document_type : text;
  retention_period_days : Z;
  is_override : bool;
  start_event : StartEvent
}.

(** Modelled from the spec: the policy table, and the global default that
    "must be explicit": it is there or it is not. *)
Record PolicyTable : Type := mkTable {
  policies : list Policy;
  global_default : option Policy
}.

(** Modelled from the spec: what the computation reads of an employee (the
    work state and the termination date) and of a document (its type and
    the day it was approved). Dates are day numbers. *)
Record EmployeeFacts : Type := mkEmployee {
  work_state : text;
  termination_date : option date
}.

Record DocumentFacts : Type := mkDocument {
  doc_type : text;
  approved_on : option date
}.

Definition for_key (st ty : text) (p : Policy) : bool :=
  str_eqb (jurisdiction p) st && str_eqb (document_type p) ty.

(** Modelled from the spec: step 1, look up by (work state, document type). *)
Definition lookup (override : bool) (t : PolicyTable) (st ty : text) : option Policy :=
  find (fun p => Bool.eqb (is_override p) override && for_key st ty p) (policies t).

(** Modelled from the spec: step 2, the override first, else the
    non-override policy, else the explicit global default. *)
Definition resolve_policy (t : PolicyTable) (st ty : text) : option Policy :=
  match lookup true t st ty with
  | Some p => Some p
  | None =>
      match lookup false t st ty with
      | Some p => Some p
      | None => global_default t
      end
  end.

(** Modelled from the spec: step 3, the anchor date of the start event. *)
Definition anchor_date (p : Policy) (e : EmployeeFacts) (d : DocumentFacts) : option date :=
  match start_event p with
  | termination => termination_date e
  | submission => approved_on d
  end.

(** Modelled from the spec: the errors of the computation. The spec names
    [PolicyNotFoundError]; it does not say what happens while the anchor
    event has not happened, and the model reports that apart instead of
    inventing a date. *)
Inductive RetentionError : Type :=
| PolicyNotFoundError
| AnchorDateUnknown.

(** Modelled from the spec: step 4, anchor date plus the period, in days. *)
Definition eligible_with (p : Policy) (e : EmployeeFacts) (d : DocumentFacts)
  : RetentionError + date :=
  match anchor_date p e d with
  | Some a => inr (a + retention_period_days p)
  | None => inl AnchorDateUnknown
  end.

(** Modelled from the spec: [compute_retention_eligible_at(employee,
    document, policy_table)]. *)
Definition compute_retention_eligible_at (e : EmployeeFacts) (d : DocumentFacts)
  (t : PolicyTable) : RetentionError + date :=
  match resolve_policy t (work_state e) (doc_type d) with
  | Some p => eligible_with p e d
  | None => inl PolicyNotFoundError
  end.

End Retention.

(* ===================================================================== *)
(** ** Legal hold scope matching *)
(* ===================================================================== *)

Module HoldMatching.

(** Modelled from the spec: the matcher [document_matches_hold] and the
    release of a hold are not among the sources (only the [legal_holds]
    table and the form that creates a hold are). The definitions of this
    module follow the specification's section on legal hold scope matching,
    with the scope as the tagged union of its design notes. *)
Inductive Scope : Type :=
| All
| ByEmployeeSet (employee_ids : list uuid)
| ByDepartment (department : text)
| ByCategory (document_category : text)
| ByDateRange (date_from date_to : date).

Inductive HoldStatus : Type :=
| active
| released.

(** Modelled from the spec: a legal hold is a scope and a status. *)
Record Hold : Type := mkHold {
  hold_id : uuid;
  scope : Scope;
  status : HoldStatus
}.

(** Modelled from the spec: [document_matches_hold(document, employee, hold)],
    one case per scope. *)
Definition document_matches_hold (document : Document.t) (employee : Employee.t)
  (hold : Hold) : bool :=
  match scope hold with
  | All => true
  | ByEmployeeSet ids => existsb (str_eqb (Employee.id employee)) ids
  | ByDepartment dep => opt_str_eqb (Employee.department employee) (Some dep)
  | ByCategory cat => opt_str_eqb (Document.type document) (Some cat)
  | ByDateRange from to =>
      match Document.created_at document with
      | Some t => (from <=? t) && (t <=? to)
      | None => false
      end
  end.

Definition is_active (hold : Hold) : bool :=
  match status hold with active => true | released => false end.

(** Modelled from the spec: a document is held iff it matches at least one
    hold whose status is active; the matcher is run against all holds. *)
Definition is_held (document : Document.t) (employee : Employee.t)
  (holds : list Hold) : bool :=
  existsb (fun h => is_active h && document_matches_hold document employee h) holds.

(** Modelled from the spec: releasing a hold sets its status to released
    and touches no other hold. *)
Definition release_hold (i : uuid) (holds : list Hold) : list Hold :=
  List.map (fun h => if str_eqb (hold_id h) i
                     then mkHold (hold_id h) (scope h) released
                     else h) holds.

End HoldMatching.

(* ===================================================================== *)
(** ** Predicates of the statements *)
(* ===================================================================== *)

(** A row that is approved carries the name of who reviewed it and its review time. *)
Definition reviewed_ok (r : Document.t) : Prop :=
  Document.status r = Some (lit "approved") ->
  Document.reviewed_by r <> None /\ Document.reviewed_at r <> None.

(** The same, as a test that computes. *)
Definition reviewed_okb (r : Document.t) : bool :=
  negb (opt_str_eqb (Document.status r) (Some (lit "approved")))
  || (match Document.reviewed_by r with Some _ => true | None => false end
      && match Document.reviewed_at r with Some _ => true | None => false end).

(** Every approved document of the database is reviewed. *)
Definition approved_is_reviewed (d : DB) : Prop :=
  forall r, In r (documents d) ->
    Document.status r = Some (lit "approved") ->
    Document.reviewed_by r <> None /\ Document.reviewed_at r <> None.

Definition sets_approved (p : list Document.assignment) : bool :=
  existsb (fun a => match a with
                    | Document.set_status (Some s) => str_eqb s (lit "approved")
                    | _ => false
                    end) p.

Definition sets_review (p : list Document.assignment) : bool :=
  existsb (fun a => match a with Document.set_reviewed_by (Some _) => true | _ => false end) p
  && existsb (fun a => match a with Document.set_reviewed_at (Some _) => true | _ => false end) p.

(** A write to [documents] that sets the status to approved sets the
    name of who reviewed and the review time in the same payload. *)
Definition approves_with_review (c : Call) : Prop :=
  match c with
  | insert_documents p | update_documents p _ =>
      sets_approved p = true -> sets_review p = true
  | _ => True
  end.

(** The columns of a document that an approve leaves alone. *)
Definition same_outside_review (r r' : Document.t) : Prop :=
  Document.id r' = Document.id r
  /\ Document.employee_id r' = Document.employee_id r
  /\ Document.source r' = Document.source r
  /\ Document.file_url r' = Document.file_url r
  /\ Document.file_name r' = Document.file_name r
  /\ Document.file_size r' = Document.file_size r
  /\ Document.issue_date r' = Document.issue_date r
  /\ Document.expiration_date r' = Document.expiration_date r
  /\ Document.priority r' = Document.priority r
  /\ Document.notes r' = Document.notes r
  /\ Document.version r' = Document.version r
  /\ Document.original_document_id r' = Document.original_document_id r
  /\ Document.created_at r' = Document.created_at r.

(** The test of the upload handler, as the claim words it. *)
Definition accepted (file : File.t) : bool :=
  (str_eqb (File.type file) (lit "application/pdf")
   || startsWith (File.type file) (lit "image/"))
  && (File.size file <=? 10 * 1024 * 1024).

Definition addPreview (createObjectURL : File.t -> text) (file : File.t) : File.t :=
  if startsWith (File.type file) (lit "image/")
  then File.with_preview (createObjectURL file) file
  else file.

From Stdlib Require Import Permutation.

(* ===================================================================== *)
(** ** More of JavaScript's strings and arrays *)
(* ===================================================================== *)

(** [s.includes(q)]: [q] occurs in [s] as a substring. *)
Fixpoint str_includes (s q : jsstring) : bool :=
  startsWith s q
  || match s with
     | [] => false
     | _ :: s' => str_includes s' q
     end.

(** The code unit of the comma. *)
Definition comma : N := 44%N.

(** [s.split(',')]: the pieces between commas; the empty string has one
    piece, itself. *)
Fixpoint split_comma (s : jsstring) : list jsstring :=
  match s with
  | [] => [[]]
  | c :: s' =>
      if N.eqb c comma then [] :: split_comma s'
      else match split_comma s' with
           | p :: ps => (c :: p) :: ps
           | [] => [[c]]
           end
  end.

(** [arr.includes(v)] for an array of strings and a value that may be [null]. *)
Definition array_includes (arr : list jsstring) (v : option jsstring) : bool :=
  existsb (fun x => opt_str_eqb (Some x) v) arr.

(** [arr.filter((_, i) => keep(i))], the index counted from [i]. *)
Fixpoint filter_index {A : Type} (keep : nat -> bool) (i : nat) (l : list A) : list A :=
  match l with
  | [] => []
  | x :: l' =>
      if keep i then x :: filter_index keep (S i) l' else filter_index keep (S i) l'
  end.

(** A text with its digits a to f in upper case. *)
Definition upper_hex (c : N) : N :=
  (if (97 <=? c) && (c <=? 102) then c - 32 else c)%N.

(* ===================================================================== *)
(** ** The upload wizard: the other handlers and the controls *)
(* ===================================================================== *)

Module UploadWizard.

Definition setDocumentType (v : text) (pg : UploadPage.Page) : UploadPage.Page :=
  UploadPage.mkPage (UploadPage.step pg) v (UploadPage.files pg) (UploadPage.notes pg)
    (UploadPage.submissionId pg) (UploadPage.isDragging pg).
Definition setNotes (v : text) (pg : UploadPage.Page) : UploadPage.Page :=
  UploadPage.mkPage (UploadPage.step pg) (UploadPage.documentType pg) (UploadPage.files pg)
    v (UploadPage.submissionId pg) (UploadPage.isDragging pg).
Definition setIsDragging (v : bool) (pg : UploadPage.Page) : UploadPage.Page :=
  UploadPage.mkPage (UploadPage.step pg) (UploadPage.documentType pg) (UploadPage.files pg)
    (UploadPage.notes pg) (UploadPage.submissionId pg) v.

Definition handleDragOver (pg : UploadPage.Page) : UploadPage.Page := setIsDragging true pg.

Definition handleDragLeave (pg : UploadPage.Page) : UploadPage.Page := setIsDragging false pg.

(** [handleDrop]: the dropped files go through [handleFiles]. *)
Definition handleDrop (createObjectURL : File.t -> text) (droppedFiles : list File.t)
  (pg : UploadPage.Page) : M UploadPage.Page :=
  UploadPage.handleFiles createObjectURL droppedFiles (setIsDragging false pg).

(** [handleFileInput]: [e.target.files] may be [null]. *)
Definition handleFileInput (createObjectURL : File.t -> text)
  (targetFiles : option (list File.t)) (pg : UploadPage.Page) : M UploadPage.Page :=
  match targetFiles with
  | Some selectedFiles => UploadPage.handleFiles createObjectURL selectedFiles pg
  | None => ret pg
  end.

(** [removeFile(index)]. The value is the page after it and the addresses
    handed to [URL.revokeObjectURL]. With no file at [index], [prev[index]]
    is [undefined] and reading its [preview] throws. *)
Definition removeFile (index : nat) (pg : UploadPage.Page)
  : result (list text * UploadPage.Page) :=
  match nth_error (UploadPage.files pg) index with
  | None => Throw TypeError
  | Some file =>
      Return (match File.preview file with
              | Some url => if truthy url then [url] else []
              | None => []
              end,
              UploadPage.setFiles
                (filter_index (fun i => negb (Nat.eqb i index)) 0 (UploadPage.files pg))
                pg)
  end.

(** The page a visit starts with. *)
Definition initial : UploadPage.Page := UploadPage.mkPage 1 [] [] [] [] false.

(** The controls of the wizard that are done when their handler returns,
    by the step that renders them. *)
Inductive Event : Type :=
| selectDocumentType (v : text)
| continueToFiles
| backToType
| dragOver
| dragLeave
| dropFiles (droppedFiles : list File.t)
| browseFiles (targetFiles : option (list File.t))
| clickRemove (index : nat)
| continueToReview
| typeNotes (v : text)
| backToFiles.

(** One control used. A control that its step does not render, the
    Continue button while it is disabled and a remove button that is not
    there do nothing. *)
Definition dispatch (createObjectURL : File.t -> text) (ev : Event)
  (pg : UploadPage.Page) : M UploadPage.Page :=
  let at_step (n : Z) := UploadPage.step pg =? n in
  match ev with
  | selectDocumentType v => ret (if at_step 1 then setDocumentType v pg else pg)
  | continueToFiles => ret (if at_step 1 then UploadPage.setStep 2 pg else pg)
  | backToType => ret (if at_step 2 then UploadPage.setStep 1 pg else pg)
  | dragOver => ret (if at_step 2 then handleDragOver pg else pg)
  | dragLeave => ret (if at_step 2 then handleDragLeave pg else pg)
  | dropFiles l => if at_step 2 then handleDrop createObjectURL l pg else ret pg
  | browseFiles l => if at_step 2 then handleFileInput createObjectURL l pg else ret pg
  | clickRemove index =>
      if at_step 2 then
        match removeFile index pg with
        | Return (_, pg') => ret pg'
        | Throw _ => ret pg
        end
      else ret pg
  | continueToReview =>
      ret (if at_step 2 && negb (Nat.eqb (List.length (UploadPage.files pg)) 0)
           then UploadPage.setStep 3 pg else pg)
  | typeNotes v => ret (if at_step 3 then setNotes v pg else pg)
  | backToFiles => ret (if at_step 3 then UploadPage.setStep 2 pg else pg)
  end.

(** A run of [handleSubmit] that is under way. The handler is [async]: it
    stops at each of its three [await]s until the database has answered,
    and the page takes other events meanwhile; the Submit button is not
    disabled while a run is under way. A run reads [documentType], [files]
    and [notes] of the render its click came from ([clicked]); what it sets
    at its end, it sets on the page as it then is. *)
Inductive Submission : Type :=
| awaitEmployee (clicked : UploadPage.Page)
| awaitDocument (clicked : UploadPage.Page) (employeeId : uuid)
| awaitLog (docData : Document.t).

(** [handleSubmit] from one [await] to the next or to its end: the
    database serves the request the run waits for, and the run goes on
    with the answer. The value is the page and the run, if it is not over. *)
Definition resume (env : Env) (s : Submission) (pg : UploadPage.Page)
  : M (UploadPage.Page * option Submission) :=
  match s with
  | awaitEmployee clicked =>
      employeeData <- employees_by_email env (lit "john.doe@company.com") ;;
      ret (pg, Some (awaitDocument clicked (UploadPage.employeeIdOf employeeData)))
  | awaitDocument clicked employeeId =>
      try_catch
        (doc <- documents_insert env (UploadPage.documentPayload employeeId clicked) ;;
         throw_if_error doc ;;;
         match data doc with
         | None => throw TypeError
         | Some docData => ret (pg, Some (awaitLog docData))
         end)
        (fun _ =>
           emit (toast (mkToast (lit "Submission failed") (lit "Please try again") true)) ;;;
           ret (pg, None))
  | awaitLog docData =>
      activity_logs_insert env (UploadPage.submittedEntry (Document.id docData)) ;;;
      let pg' := UploadPage.setStep 4 (UploadPage.setSubmissionId (Document.id docData) pg) in
      emit (toast (mkToast (lit "Success!")
                           (lit "Your document has been submitted") false)) ;;;
      ret (pg', None)
  end.

(** A visit to the wizard: the page and the runs of [handleSubmit] under
    way, the oldest first. *)
Record Visit : Type := mkVisit {
  page : UploadPage.Page;
  pending : list Submission
}.

(** The visit starts at the first step with nothing under way. *)
Definition opened : Visit := mkVisit initial [].

(** What happens during a visit: the employee uses a control or clicks
    Submit Document, or the database answers the run number [k] of the
    runs under way. *)
Inductive Action : Type :=
| control (ev : Event)
| clickSubmit
| answer (k : nat).

(** The runs under way after run [k] went on: it stays at its place, or is
    taken out when it is over. *)
Definition went_on (k : nat) (next : option Submission) (runs : list Submission)
  : list Submission :=
  firstn k runs ++ match next with Some s => [s] | None => [] end ++ skipn (S k) runs.

Definition act (env : Env) (createObjectURL : File.t -> text) (a : Action) (v : Visit)
  : M Visit :=
  match a with
  | control ev =>
      pg' <- dispatch createObjectURL ev (page v) ;;
      ret (mkVisit pg' (pending v))
  | clickSubmit =>
      ret (if UploadPage.step (page v) =? 3
           then mkVisit (page v) (pending v ++ [awaitEmployee (page v)])
           else v)
  | answer k =>
      match nth_error (pending v) k with
      | Some s =>
          r <- resume env s (page v) ;;
          ret (mkVisit (fst r) (went_on k (snd r) (pending v)))
      | None => ret v
      end
  end.

(** The actions of a visit, one after the other. No action throws; the
    [Throw] branch keeps the visit as it is. *)
Fixpoint session (createObjectURL : File.t -> text) (acts : list (Env * Action))
  (v : Visit) (w : World) : Visit * World :=
  match acts with
  | [] => (v, w)
  | (env, a) :: acts' =>
      match act env createObjectURL a v w with
      | (Return v', w') => session createObjectURL acts' v' w'
      | (Throw _, w') => session createObjectURL acts' v w'
      end
  end.

(** The number of clicks on Submit Document among the actions. *)
Definition submit_clicks (acts : list (Env * Action)) : nat :=
  List.length (filter (fun ea => match snd ea with clickSubmit => true | _ => false end)
                      acts).

End UploadWizard.

(* ===================================================================== *)
(** ** The employee's history page: [employee/history/page.tsx] *)
(* ===================================================================== *)

Module HistoryPage.

(** The rows of [loadDocuments]:
    [from('documents').select('*').eq('employee_id', '11111111-...')];
    ORDER BY arranges these rows and chooses none. *)
Definition matchingRows (d : DB) : list Document.t :=
  filter (fun r => opt_str_eqb (Document.employee_id r)
                               (Some (lit "11111111-1111-1111-1111-111111111111")))
         (documents d).

End HistoryPage.

(* ===================================================================== *)
(** ** The review queue: [ReviewQueuePage] *)
(* ===================================================================== *)

Module ReviewQueuePage.

(** A row of [select('*, employee:employees(id, name, email, department)')]. *)
Record Row : Type := mkRow {
  document : Document.t;
  employee : option Employee.t
}.

(** ['date' | 'employee' | 'type'] *)
Inductive SortBy : Type :=
| by_date
| by_employee
| by_type.

Record Page : Type := mkPage {
  documents : list Row;
  searchQuery : text;
  statusFilter : text;
  typeFilter : text;
  sortBy : SortBy
}.

(** [new Date(t).getTime()], where [new Date(null)] is the epoch. *)
Definition getTime (t : option timestamp) : Z :=
  match t with Some z => z | None => 0 end.

(** [a.employee?.name || ''] *)
Definition employeeName (r : Row) : text :=
  match employee r with Some e => Employee.name e | None => [] end.

(** [a.type || ''] *)
Definition typeOrEmpty (r : Row) : text :=
  match Document.type (document r) with Some t => t | None => [] end.

Section Builtins.

(** JavaScript's own: [String.prototype.toLowerCase],
    [String.prototype.localeCompare] and [Array.prototype.sort]. *)
Variable toLowerCase : jsstring -> jsstring.
Variable localeCompare : jsstring -> jsstring -> Z.
Variable array_sort : (Row -> Row -> Z) -> list Row -> list Row.

(** The callback of the search filter; a missing employee, type or file
    name gives [undefined], which counts as false. *)
Definition matchesSearch (query : text) (doc : Row) : bool :=
  match employee doc with
  | Some e => str_includes (toLowerCase (Employee.name e)) query
  | None => false
  end
  || match employee doc with
     | Some e => str_includes (toLowerCase (Employee.email e)) query
     | None => false
     end
  || match Document.type (document doc) with
     | Some t => str_includes (toLowerCase t) query
     | None => false
     end
  || match Document.file_name (document doc) with
     | Some n => str_includes (toLowerCase n) query
     | None => false
     end.

(** The comparator handed to [sort]. *)
Definition compareRows (order : SortBy) (a b : Row) : Z :=
  match order with
  | by_date => getTime (Document.created_at (document b))
               - getTime (Document.created_at (document a))
  | by_employee => localeCompare (employeeName a) (employeeName b)
  | by_type => localeCompare (typeOrEmpty a) (typeOrEmpty b)
  end.

(** [filterAndSortDocuments]: the list it hands to [setFilteredDocs]. *)
Definition filterAndSortDocuments (pg : Page) : list Row :=
  let filtered := documents pg in
  let filtered :=
    if negb (str_eqb (statusFilter pg) (lit "all")) then
      if str_includes (statusFilter pg) [comma] then
        let statuses := split_comma (statusFilter pg) in
        filter (fun doc => array_includes statuses (Document.status (document doc))) filtered
      else
        filter (fun doc => opt_str_eqb (Document.status (document doc))
                                       (Some (statusFilter pg))) filtered
    else filtered in
  let filtered :=
    if negb (str_eqb (typeFilter pg) (lit "all")) then
      filter (fun doc => opt_str_eqb (Document.type (document doc)) (Some (typeFilter pg)))
             filtered
    else filtered in
  let filtered :=
    if truthy (searchQuery pg) then
      let query := toLowerCase (searchQuery pg) in
      filter (matchesSearch query) filtered
    else filtered in
  array_sort (compareRows (sortBy pg)) filtered.

End Builtins.

(** The page as the link [/hr/review-queue?status=...] opens it:
    [statusFilter] is the parameter, or ['all'] without one. *)
Definition opened (rows : list Row) (status : option text) : Page :=
  mkPage rows []
         (match status with Some s => str_or s (lit "all") | None => lit "all" end)
         (lit "all") by_date.

End ReviewQueuePage.

(* ===================================================================== *)
(** ** The HR dashboard: [HRDashboardPage] *)
(* ===================================================================== *)

Module HRDashboardPage.

Record DashboardStats : Type := mkStats {
  needsReview : nat;
  approved : nat;
  rejected : nat;
  onHold : nat;
  total : nat
}.

Definition has_status (s : string) (d : Document.t) : bool :=
  opt_str_eqb (Document.status d) (Some (lit s)).

(** The object [loadDashboardData] hands to [setStats]. *)
Definition statsOf (allDocs : list Document.t) : DashboardStats :=
  mkStats
    (List.length (filter (fun d => has_status "received" d || has_status "in_review" d)
                         allDocs))
    (List.length (filter (has_status "approved") allDocs))
    (List.length (filter (has_status "rejected") allDocs))
    (List.length (filter (has_status "on_hold") allDocs))
    (List.length allDocs).

(** The address behind the Needs Review card. *)
Definition needsReviewLink : text := lit "received,in_review".

End HRDashboardPage.

(** A stable insertion sort by a comparator, one function that
    [Array.prototype.sort] can be. *)
Fixpoint insert_by {A : Type} (cmp : A -> A -> Z) (x : A) (l : list A) : list A :=
  match l with
  | [] => [x]
  | y :: l' => if cmp x y <=? 0 then x :: l else y :: insert_by cmp x l'
  end.

Fixpoint insertion_sort {A : Type} (cmp : A -> A -> Z) (l : list A) : list A :=
  match l with
  | [] => []
  | x :: l' => insert_by cmp x (insertion_sort cmp l')
  end.

(* ===================================================================== *)
(** ** More predicates of the statements *)
(* ===================================================================== *)

(** The columns of a document that no operation writes. *)
Definition same_submission (r r' : Document.t) : Prop :=
  Document.id r' = Document.id r
  /\ Document.employee_id r' = Document.employee_id r
  /\ Document.source r' = Document.source r
  /\ Document.file_url r' = Document.file_url r
  /\ Document.file_name r' = Document.file_name r
  /\ Document.file_size r' = Document.file_size r
  /\ Document.issue_date r' = Document.issue_date r
  /\ Document.expiration_date r' = Document.expiration_date r
  /\ Document.priority r' = Document.priority r
  /\ Document.version r' = Document.version r
  /\ Document.original_document_id r' = Document.original_document_id r
  /\ Document.created_at r' = Document.created_at r.

(** The status of [r'] is the one of [r], or one a review writes. *)
Definition status_kept_or_reviewed (r r' : Document.t) : Prop :=
  Document.status r' = Document.status r
  \/ Document.status r' = Some (lit "approved")
  \/ Document.status r' = Some (lit "rejected").

(** A rejected row carries a reason that is not blank. *)
Definition rejected_has_reason (r : Document.t) : Prop :=
  Document.status r = Some (lit "rejected") ->
  exists n, Document.notes r = Some n /\ ~ blank n.

Definition rejected_has_reasonb (r : Document.t) : bool :=
  negb (opt_str_eqb (Document.status r) (Some (lit "rejected")))
  || match Document.notes r with
     | Some n => truthy (trim n)
     | None => false
     end.

(** Is the effect the toast of the guard of [handleReject]? *)
Definition is_notes_required (e : UiEffect) : bool :=
  match e with
  | toast t => str_eqb (toast_title t) (lit "Notes required")
  | _ => false
  end.

(** The toast [handleFiles] shows for a file it leaves out. *)
Definition rejectionToast (file : File.t) : UiEffect :=
  if UploadPage.isValidType file
  then toast (mkToast (lit "File too large")
                      (File.name file ++ lit " exceeds 10MB limit") true)
  else toast (mkToast (lit "Invalid file type")
                      (File.name file ++ lit " is not a PDF or image file") true).

(* ===================================================================== *)
(** ** Names for the parts of a submission *)
(* ===================================================================== *)

(** The employee the wizard submits for. *)
Definition submitter (env : Env) (w : World) : uuid :=
  UploadPage.employeeIdOf
    (if select_error env then failed RequestFailed
     else maybeSingle
            (filter (fun r => str_eqb (Employee.email r) (lit "john.doe@company.com"))
                    (employees (db w)))).

(** The row the wizard asks the database to insert. *)
Definition submitted_row (env : Env) (pg : UploadPage.Page) (w : World) : Document.t :=
  Document.apply (UploadPage.documentPayload (submitter env w) pg)
                 (Document.default (new_id env) (server_now env)).

(** Does the database refuse the row? *)
Definition insert_refused (env : Env) (pg : UploadPage.Page) (w : World) : bool :=
  write_error env
  || existsb (fun x => str_eqb (Document.id x) (Document.id (submitted_row env pg w)))
             (documents (db w))
  || negb (employee_fk_ok (db w) (submitted_row env pg w)).

Definition log_refused (env : Env) (w : World) : bool :=
  log_error env
  || existsb (fun x => str_eqb (ActivityLog.id x) (log_id env)) (activity_logs (db w)).

Definition submit_failed_toast : UiEffect :=
  toast (mkToast (lit "Submission failed") (lit "Please try again") true).

Definition submit_success_toast : UiEffect :=
  toast (mkToast (lit "Success!") (lit "Your document has been submitted") false).


(** What the wizard keeps true of its page: every file on it passed the
    test of [handleFiles], and the review step is shown with a file. *)
Definition wizard_ok (pg : UploadPage.Page) : Prop :=
  Forall (fun f => accepted f = true) (UploadPage.files pg)
  /\ (UploadPage.step pg = 3 -> UploadPage.files pg <> []).

(** What holds of a run of [handleSubmit] under way: the page of its click
    showed the review step, so it had a file, and every file of it passed
    the test of [handleFiles]. *)
Definition submission_ok (s : UploadWizard.Submission) : Prop :=
  match s with
  | UploadWizard.awaitEmployee clicked
  | UploadWizard.awaitDocument clicked _ =>
      Forall (fun f => accepted f = true) (UploadPage.files clicked)
      /\ UploadPage.files clicked <> []
  | UploadWizard.awaitLog _ => True
  end.

(** Has the run still to insert its document? *)
Definition before_insert (s : UploadWizard.Submission) : bool :=
  match s with
  | UploadWizard.awaitLog _ => false
  | _ => true
  end.

(** The number of runs under way that have still to insert their document. *)
Definition waiting (runs : list UploadWizard.Submission) : nat :=
  List.length (filter before_insert runs).

(** The same of a run that may be over. *)
Definition waits (next : option UploadWizard.Submission) : nat :=
  match next with
  | Some s => if before_insert s then 1 else 0
  | None => 0
  end.

(** Is the action a click on Submit Document? As a number. *)
Definition clicks (a : UploadWizard.Action) : nat :=
  match a with UploadWizard.clickSubmit => 1 | _ => 0 end.

(** The row a run asks the database to insert. *)
Definition asked_row (env : Env) (clicked : UploadPage.Page) (employeeId : uuid)
  : Document.t :=
  Document.apply (UploadPage.documentPayload employeeId clicked)
                 (Document.default (new_id env) (server_now env)).

(** Does the database refuse it? *)
Definition asked_refused (env : Env) (clicked : UploadPage.Page) (employeeId : uuid)
  (w : World) : bool :=
  write_error env
  || existsb (fun x => str_eqb (Document.id x)
                               (Document.id (asked_row env clicked employeeId)))
             (documents (db w))
  || negb (employee_fk_ok (db w) (asked_row env clicked employeeId)).

(** A document as the wizard creates them. *)
Definition wizard_document (d : Document.t) : Prop :=
  Document.status d = Some (lit "received")
  /\ exists s, Document.file_size d = Some s /\ s <= 10 * 1024 * 1024.

(* ===================================================================== *)
(** ** Names for the parts of a review *)
(* ===================================================================== *)

Definition review_error_toast (what : string) : UiEffect :=
  toast (mkToast (lit "Error") (lit what) true).

Definition approved_toast : UiEffect :=
  toast (mkToast (lit "Document approved") (lit "The employee will be notified") false).

Definition rejected_toast : UiEffect :=
  toast (mkToast (lit "Document rejected")
                 (lit "The employee will be notified to resubmit") false).

Definition to_review_queue : UiEffect := router_push (lit "/hr/review-queue").

(** The database after an update of [documents] that went through and the
    audit insert that follows it. *)
Definition reviewed_db (env : Env) (p : list Document.assignment) (i : uuid)
  (entry : ActivityLog.payload) (w : World) : DB :=
  mkDB (employees (db w))
       (List.map (update_row env p i) (documents (db w)))
       (legal_holds (db w))
       (if log_refused env w then activity_logs (db w)
        else activity_logs (db w) ++ [ActivityLog.row (log_id env) (server_now env) entry])
       (retention_policies (db w)).

(** The same run with the audit insert failing. *)
Definition with_log_error (env : Env) : Env :=
  mkEnv (client_now env) (server_now env) (new_id env) (log_id env)
        (select_error env) (write_error env) true.

(* ===================================================================== *)
(** ** How the tables change over a run *)
(* ===================================================================== *)

(** A row and what became of it. *)
Definition row_evolves (r r' : Document.t) : Prop :=
  same_submission r r' /\ status_kept_or_reviewed r r'.

(** One of the three statuses that the pages write. *)
Definition written_status (r : Document.t) : Prop :=
  Document.status r = Some (lit "received")
  \/ Document.status r = Some (lit "approved")
  \/ Document.status r = Some (lit "rejected").

(** The documents after are the documents before, each at its place and
    evolved, followed by new ones. *)
Definition documents_evolve (before after : list Document.t) : Prop :=
  exists kept added,
    after = kept ++ added
    /\ Forall2 row_evolves before kept
    /\ Forall written_status added.

(** A hold as the form creates them. *)
Definition form_hold (h : LegalHold.t) : Prop :=
  LegalHold.status h = Some (lit "active")
  /\ LegalHold.released_at h = None
  /\ LegalHold.employee_ids h = None
  /\ LegalHold.date_from h = None
  /\ LegalHold.date_to h = None
  /\ LegalHold.title h <> []
  /\ trim (LegalHold.title h) = LegalHold.title h
  /\ (LegalHold.department h = None \/ LegalHold.document_category h = None).

Definition hold_error_toast : UiEffect :=
  toast (mkToast (lit "Error") (lit "Failed to create legal hold") true).

Definition hold_created_toast : UiEffect :=
  toast (mkToast (lit "Legal hold created")
                 (lit "Documents matching this hold are now protected") false).

Definition title_required_toast : UiEffect :=
  toast (mkToast (lit "Title required")
                 (lit "Please provide a title for this legal hold") true).

Definition hold_refused (env : Env) (w : World) : bool :=
  write_error env
  || existsb (fun x => str_eqb (LegalHold.id x) (new_id env)) (legal_holds (db w)).

(** A status that none of the four cards of the dashboard counts. *)
Definition uncounted_status (d : Document.t) : bool :=
  negb (HRDashboardPage.has_status "received" d
        || HRDashboardPage.has_status "in_review" d
        || HRDashboardPage.has_status "approved" d
        || HRDashboardPage.has_status "rejected" d
        || HRDashboardPage.has_status "on_hold" d).

(** Does the row pass the filters of the review queue? *)
Definition passes_queue_filters (toLowerCase : jsstring -> jsstring)
  (pg : ReviewQueuePage.Page) (r : ReviewQueuePage.Row) : Prop :=
  (ReviewQueuePage.statusFilter pg = lit "all"
   \/ exists s, Document.status (ReviewQueuePage.document r) = Some s
                /\ In s (split_comma (ReviewQueuePage.statusFilter pg)))
  /\ (ReviewQueuePage.typeFilter pg = lit "all"
      \/ Document.type (ReviewQueuePage.document r) = Some (ReviewQueuePage.typeFilter pg))
  /\ (ReviewQueuePage.searchQuery pg = []
      \/ ReviewQueuePage.matchesSearch toLowerCase
           (toLowerCase (ReviewQueuePage.searchQuery pg)) r = true).

(** The three filters of the review queue as one test. *)
Definition queue_filter (toLowerCase : jsstring -> jsstring)
  (pg : ReviewQueuePage.Page) (r : ReviewQueuePage.Row) : bool :=
  (str_eqb (ReviewQueuePage.statusFilter pg) (lit "all")
   || array_includes (split_comma (ReviewQueuePage.statusFilter pg))
                     (Document.status (ReviewQueuePage.document r)))
  && (str_eqb (ReviewQueuePage.typeFilter pg) (lit "all")
      || opt_str_eqb (Document.type (ReviewQueuePage.document r))
                     (Some (ReviewQueuePage.typeFilter pg)))
  && (negb (truthy (ReviewQueuePage.searchQuery pg))
      || ReviewQueuePage.matchesSearch toLowerCase
           (toLowerCase (ReviewQueuePage.searchQuery pg)) r).

(* ===================================================================== *)
(** ** Sample data *)
(* ===================================================================== *)

(** The ids of the samples: uuids that differ in their last two digits. *)
Definition sample_uuid (last : string) : uuid :=
  lit "00000000-0000-4000-8000-0000000000" ++ lit last.

Definition whitespace_reason : jsstring := lit (String " " (String "009" (String " " EmptyString))).

Definition sample_document_row : Document.t :=
  Document.mk (sample_uuid "d1") (Some (sample_uuid "e1")) (Some (lit "I-9")) (Some (lit "received"))
    (Some (lit "upload")) None (Some (lit "i9.pdf")) (Some 2048) None None
    (Some (lit "medium")) None None None (Some 1) None (Some 100) (Some 100).

Definition sample_employee : Employee.t :=
  Employee.mk (sample_uuid "e1") (lit "john.doe@company.com") (lit "John Doe") None
    (Some (lit "Engineering")) (Some (lit "TX")) (Some (lit "active"))
    (Some 50) (Some 50).

Definition sample_db : DB := mkDB [sample_employee] [sample_document_row] [] [] [].

Definition sample_world : World := mkWorld sample_db [] [].

Definition sample_env : Env :=
  mkEnv 200 201 (sample_uuid "d2") (sample_uuid "a1") false false false.

Definition sample_reject_page : DocumentReviewPage.Page :=
  DocumentReviewPage.mkPage (Some sample_document_row) false false true
    whitespace_reason (lit "I-9") false.

Definition sample_upload_page : UploadPage.Page :=
  UploadPage.mkPage 3 (lit "W-4")
    [File.mk (lit "w4.pdf") (lit "application/pdf") 4096 None] [] [] false.

Definition sample_review_page : DocumentReviewPage.Page :=
  DocumentReviewPage.mkPage (Some sample_document_row) false true false
    [] (lit "I-9") false.

Definition sample_env2 : Env :=
  mkEnv 300 301 (sample_uuid "d3") (sample_uuid "a2") false false false.

(** A submission, then the approval of the document that was there. *)
Definition sample_ops : list (Env * Op) :=
  [ (sample_env, submit sample_upload_page);
    (sample_env2, approve sample_review_page) ].

Definition sample_files : list File.t :=
  [ File.mk (lit "scan.png") (lit "image/png") 1000 None;
    File.mk (lit "notes.txt") (lit "text/plain") 10 None;
    File.mk (lit "big.pdf") (lit "application/pdf") (10 * 1024 * 1024 + 1) None;
    File.mk (lit "i9.pdf") (lit "application/pdf") (10 * 1024 * 1024) None ].

Definition sample_object_url (f : File.t) : text := lit "blob:" ++ File.name f.

(** A document that a legal hold put on hold, and one already rejected. *)
Definition on_hold_row : Document.t :=
  Document.mk (sample_uuid "d7") (Some (sample_uuid "e1")) (Some (lit "W-4")) (Some (lit "on_hold"))
    (Some (lit "upload")) None (Some (lit "w4.pdf")) (Some 512) None None
    (Some (lit "medium")) None None None (Some 1) None (Some 120) (Some 130).

Definition rejected_row : Document.t :=
  Document.mk (sample_uuid "d8") (Some (sample_uuid "e1")) (Some (lit "I-9")) (Some (lit "rejected"))
    (Some (lit "upload")) None (Some (lit "i9.pdf")) (Some 700) None None
    (Some (lit "medium")) (Some (lit "illegible scan")) (Some (lit "Sarah Chen"))
    (Some 140) (Some 1) None (Some 110) (Some 140).

Definition review_world : World :=
  mkWorld (mkDB [sample_employee] [on_hold_row; rejected_row] [] [] []) [] [].

(** A page opened for the second document before it was rejected: its
    copy of the row still says received. *)
Definition stale_row : Document.t :=
  Document.mk (sample_uuid "d8") (Some (sample_uuid "e1")) (Some (lit "I-9"))
    (Some (lit "received")) (Some (lit "upload")) None (Some (lit "i9.pdf"))
    (Some 700) None None (Some (lit "medium")) None None None (Some 1) None
    (Some 110) (Some 110).

Definition stale_approve_page : DocumentReviewPage.Page :=
  DocumentReviewPage.mkPage (Some stale_row) false true false [] (lit "I-9") false.

Definition approve_clicks : list (Env * DocumentReviewPage.Event) :=
  [ (sample_env, DocumentReviewPage.clickApproveDocument);
    (sample_env2, DocumentReviewPage.confirmApproval) ].

Definition resubmit_world : World :=
  mkWorld (mkDB [sample_employee] [rejected_row] [] [] []) [] [].

Definition tx_default : Retention.Policy :=
  Retention.mkPolicy (lit "TX") (lit "I-9") 1460 false Retention.termination.

Definition tx_override : Retention.Policy :=
  Retention.mkPolicy (lit "TX") (lit "I-9") 2555 true Retention.termination.

Definition fl_default : Retention.Policy :=
  Retention.mkPolicy (lit "FL") (lit "W-4") 1825 false Retention.submission.

Definition sample_policies : Retention.PolicyTable :=
  Retention.mkTable [tx_default; tx_override; fl_default] None.

Definition tx_employee : Retention.EmployeeFacts :=
  Retention.mkEmployee (lit "TX") (Some 20240).

Definition fl_employee : Retention.EmployeeFacts :=
  Retention.mkEmployee (lit "FL") None.

Definition i9_document : Retention.DocumentFacts :=
  Retention.mkDocument (lit "I-9") (Some 19732).

Definition w4_document : Retention.DocumentFacts :=
  Retention.mkDocument (lit "W-4") (Some 19800).

Definition hold_all : HoldMatching.Hold :=
  HoldMatching.mkHold (lit "h1") HoldMatching.All HoldMatching.active.

Definition hold_engineering : HoldMatching.Hold :=
  HoldMatching.mkHold (lit "h2") (HoldMatching.ByDepartment (lit "Engineering"))
    HoldMatching.active.

Definition hold_others : HoldMatching.Hold :=
  HoldMatching.mkHold (lit "h3") (HoldMatching.ByEmployeeSet [lit "e5"; lit "e6"])
    HoldMatching.active.

Definition sample_holds : list HoldMatching.Hold :=
  [hold_engineering; hold_others; hold_all].

Definition sample_pdf : File.t := File.mk (lit "w4.pdf") (lit "application/pdf") 4096 None.

(** A visit: choose the type, add a text file and a PDF, review, and click
    Submit Document twice before the database has answered; the answers to
    the two runs then come in turns. *)
Definition sample_visit : list (Env * UploadWizard.Action) :=
  [ (sample_env, UploadWizard.control (UploadWizard.selectDocumentType (lit "W-4")));
    (sample_env, UploadWizard.control UploadWizard.continueToFiles);
    (sample_env, UploadWizard.control UploadWizard.continueToReview);
    (sample_env, UploadWizard.control
                   (UploadWizard.dropFiles
                      [File.mk (lit "notes.txt") (lit "text/plain") 10 None; sample_pdf]));
    (sample_env, UploadWizard.control UploadWizard.continueToReview);
    (sample_env, UploadWizard.clickSubmit);
    (sample_env2, UploadWizard.clickSubmit);
    (sample_env, UploadWizard.answer 0);
    (sample_env2, UploadWizard.answer 1);
    (sample_env, UploadWizard.answer 0);
    (sample_env2, UploadWizard.answer 1);
    (sample_env, UploadWizard.answer 0);
    (sample_env2, UploadWizard.answer 0) ].

(** A reject typed with white space around the reason. *)
Definition padded_reason : jsstring := lit " illegible scan ".

Definition sample_approved_row : Document.t :=
  Document.mk (sample_uuid "d9") (Some (sample_uuid "e1")) (Some (lit "I-9")) (Some (lit "approved"))
    (Some (lit "upload")) None (Some (lit "i9.pdf")) (Some 900) None None
    (Some (lit "medium")) None (Some (lit "Sarah Chen")) (Some 150) (Some 1) None
    (Some 115) (Some 150).

Definition approved_world : World :=
  mkWorld (mkDB [sample_employee] [sample_approved_row; rejected_row] [] [] []) [] [].

(** A page that still shows the document as it was before it was approved. *)
Definition stale_reject_page : DocumentReviewPage.Page :=
  DocumentReviewPage.mkPage (Some sample_approved_row) false false true
    padded_reason (lit "I-9") false.

Definition failing_env : Env :=
  mkEnv 400 401 (sample_uuid "d4") (sample_uuid "a4") false true false.

Definition sample_rows : list ReviewQueuePage.Row :=
  [ ReviewQueuePage.mkRow on_hold_row (Some sample_employee);
    ReviewQueuePage.mkRow sample_document_row (Some sample_employee);
    ReviewQueuePage.mkRow rejected_row None;
    ReviewQueuePage.mkRow sample_approved_row (Some sample_employee) ].

(** Lower case of the ASCII letters, enough for the samples. *)
Definition ascii_lower (s : jsstring) : jsstring :=
  List.map (fun c => if (N.leb 65 c && N.leb c 90)%N then (c + 32)%N else c) s.

(** A comparison by code units, one that [localeCompare] can be on ASCII. *)
Fixpoint code_unit_compare (a b : jsstring) : Z :=
  match a, b with
  | [], [] => 0
  | [], _ :: _ => -1
  | _ :: _, [] => 1
  | x :: a', y :: b' =>
      if N.ltb x y then -1 else if N.ltb y x then 1 else code_unit_compare a' b'
  end.

(** The id of the document on hold in another spelling: braces, upper-case
    digits and a hyphen left out. *)
Definition spelled_d7 : text := lit "{00000000-00004000-8000-0000000000D7}".

(** The id of the rejected document with its digits in upper case. *)
Definition spelled_d8 : text := lit "00000000-0000-4000-8000-0000000000D8".

(* ===================================================================== *)
(** ** Strings *)
(* ===================================================================== *)

Arguments lit : simpl never.
Arguments Document.apply : simpl never.
Arguments Document.default : simpl never.
Arguments update_row : simpl never.
Arguments UploadPage.documentPayload : simpl never.
Arguments UploadPage.submittedEntry : simpl never.
Arguments UploadPage.employeeIdOf : simpl never.
Arguments DocumentReviewPage.approvePayload : simpl never.
Arguments DocumentReviewPage.rejectPayload : simpl never.
Arguments DocumentReviewPage.approvedEntry : simpl never.
Arguments DocumentReviewPage.rejectedEntry : simpl never.
Arguments NewLegalHoldPage.holdData : simpl never.
Arguments NewLegalHoldPage.holdEntry : simpl never.
Arguments ActivityLog.row : simpl never.
Arguments LegalHold.row : simpl never.

Lemma str_eqb_eq (a b : jsstring) : str_eqb a b = true <-> a = b.
Proof.
  revert b; induction a as [|x a IH]; intros [|y b]; simpl; split; intro H;
    try reflexivity; try discriminate.
  - apply andb_prop in H as [Hx Ha]. apply N.eqb_eq in Hx. apply IH in Ha.
    now subst.
  - injection H as -> ->. rewrite N.eqb_refl. simpl. now apply IH.
Qed.

Lemma str_eqb_refl (a : jsstring) : str_eqb a a = true.
Proof. now apply str_eqb_eq. Qed.

Lemma str_eqb_neq (a b : jsstring) : str_eqb a b = false <-> a <> b.
Proof.
  split.
  - intros H E. apply str_eqb_eq in E. congruence.
  - intro H. destruct (str_eqb a b) eqn:E; [|reflexivity].
    apply str_eqb_eq in E. contradiction.
Qed.

Lemma opt_str_eqb_eq (a b : option jsstring) : opt_str_eqb a b = true <-> a = b.
Proof.
  destruct a as [x|], b as [y|]; simpl; split; intro H;
    try reflexivity; try discriminate.
  - apply str_eqb_eq in H. now subst.
  - injection H as ->. apply str_eqb_refl.
Qed.

Lemma trimStart_blank (s : jsstring) : blank s -> trimStart s = [].
Proof.
  induction 1 as [|c s Hc _ IH]; simpl; [reflexivity|].
  now rewrite Hc.
Qed.

Lemma trimStart_nil_blank (s : jsstring) : trimStart s = [] -> blank s.
Proof.
  induction s as [|c s IH]; simpl; intro H; [constructor|].
  destruct (isWhiteSpace c) eqn:Hc; [|discriminate].
  apply Forall_cons; [exact Hc | exact (IH H)].
Qed.

Lemma blank_rev (s : jsstring) : blank s -> blank (rev s).
Proof. unfold blank. intro H. now apply Forall_rev. Qed.

(** What [trimStart] leaves is empty or starts with a character that is
    not white space. *)
Lemma trimStart_head (s : jsstring) :
  match trimStart s with
  | [] => True
  | c :: _ => isWhiteSpace c = false
  end.
Proof.
  induction s as [|c s IH]; simpl; [exact I|].
  destruct (isWhiteSpace c) eqn:Hc; [exact IH | exact Hc].
Qed.

(** [trim] yields the empty string exactly on blank strings. *)
Lemma trim_empty_iff_blank (s : jsstring) : trim s = [] <-> blank s.
Proof.
  unfold trim, trimEnd. split.
  - intro H.
    assert (Hr : trimStart (rev (trimStart s)) = []).
    { destruct (trimStart (rev (trimStart s))) as [|c0 l0] eqn:E; [reflexivity|].
      simpl in H. destruct (rev l0); discriminate. }
    apply trimStart_nil_blank, blank_rev in Hr. rewrite rev_involutive in Hr.
    pose proof (trimStart_head s) as Hh.
    destruct (trimStart s) as [|c t] eqn:E.
    + now apply trimStart_nil_blank.
    + inversion Hr; subst. congruence.
  - intro H. rewrite (trimStart_blank s H). reflexivity.
Qed.

Lemma truthy_trim (s : jsstring) : truthy (trim s) = false <-> blank s.
Proof.
  rewrite <- trim_empty_iff_blank.
  destruct (trim s); simpl; split; intro H; congruence.
Qed.

(* ===================================================================== *)
(** ** Rejecting needs a reason *)
(* ===================================================================== *)

(** Claim C1, amended. For every page state (so every loaded document) and
    every rejection reason that is empty or white space only,
    [handleReject] stops at its guard. It does not fail with an error: it
    returns as a handler that is done does, after the destructive toast
    "Notes required"; it sends no request, and it leaves the page and the
    whole database, so every field of every document, as they were. *)
Theorem reject_blank_reason_fails :
  forall (env : Env) (pg : DocumentReviewPage.Page) (w : World),
    blank (DocumentReviewPage.rejectNotes pg) ->
    DocumentReviewPage.handleReject env pg w
      = (Return pg,
         mkWorld (db w) (calls w)
                 (ui w ++ [toast (mkToast (lit "Notes required")
                                    (lit "Please provide a reason for rejection")
                                    true)]))
    /\ db (step env (reject pg) w) = db w.
Proof.
  intros env pg w Hb.
  apply truthy_trim in Hb.
  assert (E : DocumentReviewPage.handleReject env pg w
              = (Return pg,
                 mkWorld (db w) (calls w)
                         (ui w ++ [toast DocumentReviewPage.notesRequired]))).
  { unfold DocumentReviewPage.handleReject. rewrite Hb.
    destruct (DocumentReviewPage.document pg); reflexivity. }
  split; [exact E|].
  unfold step. rewrite E. reflexivity.
Qed.

Lemma reject_blank_reason_fails_witness :
  blank whitespace_reason
  /\ db (step sample_env (reject sample_reject_page) sample_world) = db sample_world.
Proof.
  assert (Hb : blank whitespace_reason).
  { unfold blank, whitespace_reason. vm_compute. repeat constructor. }
  split; [exact Hb|].
  exact (proj2 (reject_blank_reason_fails sample_env sample_reject_page sample_world Hb)).
Defined.

(** Claim C1, as stated, fails: with a reason of a space, a tab and a space,
    [handleReject] does not fail with an error of any kind. It returns, the
    same way it returns after a rejection that went through; only the toast
    tells that nothing was rejected. *)
Lemma reject_blank_reason_returns :
  blank whitespace_reason
  /\ fst (DocumentReviewPage.handleReject sample_env sample_reject_page sample_world)
     = Return sample_reject_page
  /\ (forall e : Error,
        fst (DocumentReviewPage.handleReject sample_env sample_reject_page sample_world)
        <> Throw e)
  /\ ui (snd (DocumentReviewPage.handleReject sample_env sample_reject_page sample_world))
     = [toast (mkToast (lit "Notes required")
                       (lit "Please provide a reason for rejection") true)].
Proof.
  split; [unfold blank, whitespace_reason; vm_compute; repeat constructor|].
  split; [vm_compute; reflexivity|].
  split; [intros e H; vm_compute in H; discriminate H | vm_compute; reflexivity].
Qed.

(* ===================================================================== *)
(** ** What one operation does to the database *)
(* ===================================================================== *)

Ltac unfold_client :=
  unfold bind, ret, try_catch, throw_if_error, throw, emit,
    documents_update, documents_insert, activity_logs_insert, legal_holds_insert,
    employees_by_email, documents_by_id, with_db, record_call, failed, ok, ok_empty.

Ltac split_ifs :=
  repeat (simpl;
          lazymatch goal with
          | |- context [if ?b then _ else _] => destruct b eqn:?
          end);
  simpl.

(** The audit log after one operation is the log before it, followed by at
    most one new entry. *)
Lemma step_activity_logs (env : Env) (op : Op) (w : World) :
  exists added,
    activity_logs (db (step env op w)) = activity_logs (db w) ++ added
    /\ (List.length added <= 1)%nat.
Proof.
  destruct op as [pg|pg|pg|pg]; unfold step.
  - unfold UploadPage.handleSubmit. unfold_client. split_ifs;
      first [ exists []; rewrite app_nil_r; split; [reflexivity | simpl; lia]
            | eexists; split; [reflexivity | simpl; lia] ].
  - unfold DocumentReviewPage.handleApprove.
    destruct (DocumentReviewPage.document pg) as [doc|];
      [|exists []; rewrite app_nil_r; split; [reflexivity | simpl; lia]].
    unfold_client. split_ifs;
      first [ exists []; rewrite app_nil_r; split; [reflexivity | simpl; lia]
            | eexists; split; [reflexivity | simpl; lia] ].
  - unfold DocumentReviewPage.handleReject.
    destruct (DocumentReviewPage.document pg) as [doc|];
      destruct (truthy (trim (DocumentReviewPage.rejectNotes pg)));
      unfold_client; split_ifs;
      first [ exists []; rewrite app_nil_r; split; [reflexivity | simpl; lia]
            | eexists; split; [reflexivity | simpl; lia] ].
  - unfold NewLegalHoldPage.handleSubmit. unfold_client. split_ifs;
      first [ exists []; rewrite app_nil_r; split; [reflexivity | simpl; lia]
            | eexists; split; [reflexivity | simpl; lia] ].
Qed.

(* ===================================================================== *)
(** ** Approved documents are reviewed *)
(* ===================================================================== *)

Lemma approved_is_reviewed_Forall (d : DB) :
  approved_is_reviewed d <-> Forall reviewed_ok (documents d).
Proof.
  unfold approved_is_reviewed, reviewed_ok. rewrite Forall_forall. reflexivity.
Qed.

Lemma approve_row_ok (env : Env) (pg : DocumentReviewPage.Page) (doc r : Document.t) :
  reviewed_ok (update_row env (DocumentReviewPage.approvePayload env pg doc)
                          (Document.id doc) r)
  \/ update_row env (DocumentReviewPage.approvePayload env pg doc) (Document.id doc) r = r.
Proof.
  unfold update_row. destruct (str_eqb (Document.id r) (Document.id doc));
    [left | right; reflexivity].
  unfold reviewed_ok. cbn. intros _. split; discriminate.
Qed.

Lemma reject_row_ok (env : Env) (pg : DocumentReviewPage.Page) (doc r : Document.t) :
  reviewed_ok (update_row env (DocumentReviewPage.rejectPayload env pg doc)
                          (Document.id doc) r)
  \/ update_row env (DocumentReviewPage.rejectPayload env pg doc) (Document.id doc) r = r.
Proof.
  unfold update_row. destruct (str_eqb (Document.id r) (Document.id doc));
    [left | right; reflexivity].
  unfold reviewed_ok. cbn. intro Hs. vm_compute in Hs. discriminate Hs.
Qed.

Lemma Forall_map_or {A : Type} (P : A -> Prop) (f : A -> A) (l : list A) :
  (forall x, P (f x) \/ f x = x) -> Forall P l -> Forall P (List.map f l).
Proof.
  intros Hf Hl. induction Hl as [|x l Hx _ IH]; simpl; constructor; auto.
  destruct (Hf x) as [H|H]; [exact H | now rewrite H].
Qed.

Lemma submit_row_ok (i : uuid) (now : timestamp) (e : uuid) (pg : UploadPage.Page) :
  reviewed_ok (Document.apply (UploadPage.documentPayload e pg) (Document.default i now)).
Proof. unfold reviewed_ok. cbn. intro Hs. vm_compute in Hs. discriminate Hs. Qed.

Ltac solve_call :=
  first [ exact I
        | cbn; intros _; reflexivity
        | let Hs := fresh in intro Hs; vm_compute in Hs; discriminate Hs ].

Ltac solve_calls :=
  first [ exists []; rewrite app_nil_r; split; [reflexivity | apply Forall_nil]
        | eexists; split;
          [ rewrite <- ?app_assoc; simpl; reflexivity
          | repeat (apply Forall_cons; [solve_call|]); apply Forall_nil ] ].

Lemma Forall_snoc {A : Type} (P : A -> Prop) (l : list A) (x : A) :
  Forall P l -> P x -> Forall P (l ++ [x]).
Proof. intros Hl Hx. apply Forall_app. split; [exact Hl | now constructor]. Qed.

Lemma step_reviewed (env : Env) (op : Op) (w : World) :
  approved_is_reviewed (db w) ->
  approved_is_reviewed (db (step env op w))
  /\ exists new, calls (step env op w) = calls w ++ new
                 /\ Forall approves_with_review new.
Proof.
  rewrite !approved_is_reviewed_Forall. intro H.
  destruct op as [pg|pg|pg|pg]; unfold step.
  - unfold UploadPage.handleSubmit. unfold_client. split_ifs.
    all: split; [ first [ exact H | apply Forall_snoc; [exact H | apply submit_row_ok] ]
                | solve_calls ].
  - unfold DocumentReviewPage.handleApprove.
    destruct (DocumentReviewPage.document pg) as [doc|];
      [|split; [exact H | solve_calls]].
    unfold_client. split_ifs.
    all: split; [ first [ exact H
                        | apply Forall_map_or; [intro; apply approve_row_ok | exact H] ]
                | solve_calls ].
  - unfold DocumentReviewPage.handleReject.
    destruct (DocumentReviewPage.document pg) as [doc|];
      destruct (truthy (trim (DocumentReviewPage.rejectNotes pg)));
      unfold_client; split_ifs.
    all: split; [ first [ exact H
                        | apply Forall_map_or; [intro; apply reject_row_ok | exact H] ]
                | solve_calls ].
  - unfold NewLegalHoldPage.handleSubmit. unfold_client. split_ifs.
    all: split; [ exact H | solve_calls ].
Qed.

Lemma reviewed_okb_ok (r : Document.t) : reviewed_okb r = true -> reviewed_ok r.
Proof.
  unfold reviewed_okb, reviewed_ok. intros Hb Hs.
  rewrite Hs in Hb. rewrite (proj2 (opt_str_eqb_eq _ _) eq_refl) in Hb. simpl in Hb.
  destruct (Document.reviewed_by r), (Document.reviewed_at r);
    try discriminate Hb; split; discriminate.
Qed.

Lemma approved_is_reviewed_test (d : DB) :
  forallb reviewed_okb (documents d) = true -> approved_is_reviewed d.
Proof.
  intro H. apply approved_is_reviewed_Forall, Forall_forall. intros r Hr.
  apply reviewed_okb_ok. rewrite forallb_forall in H. now apply H.
Qed.

(** Claim C2. Over every sequence of operations of the system (submit,
    approve, reject, create a legal hold; with any clock, any ids, any
    request failures and any page states), starting from a database in
    which every approved document has [reviewed_by] and [reviewed_at]:
    the same holds in the database reached, and every write to [documents]
    sent on the way that sets the status to approved sets [reviewed_by] and
    [reviewed_at], not null, in the same payload. *)
Theorem approved_documents_are_reviewed :
  forall (ops : list (Env * Op)) (w : World),
    approved_is_reviewed (db w) ->
    approved_is_reviewed (db (run ops w))
    /\ exists new, calls (run ops w) = calls w ++ new
                   /\ Forall approves_with_review new.
Proof.
  unfold run. induction ops as [|[env op] ops IH]; intros w H; simpl.
  - split; [exact H|]. exists []. rewrite app_nil_r. split; [reflexivity | constructor].
  - destruct (step_reviewed env op w H) as [H1 [new1 [E1 F1]]].
    destruct (IH (step env op w) H1) as [H2 [new2 [E2 F2]]].
    split; [exact H2|].
    exists (new1 ++ new2). split.
    + rewrite E2, E1, app_assoc. reflexivity.
    + apply Forall_app. split; assumption.
Qed.

Lemma approved_documents_are_reviewed_witness :
  approved_is_reviewed (db sample_world)
  /\ approved_is_reviewed (db (run sample_ops sample_world))
  /\ List.map Document.status (documents (db (run sample_ops sample_world)))
     = [Some (lit "approved"); Some (lit "received")].
Proof.
  assert (H0 : approved_is_reviewed (db sample_world)).
  { apply approved_is_reviewed_test. vm_compute. reflexivity. }
  split; [exact H0|]. split.
  - exact (proj1 (approved_documents_are_reviewed sample_ops sample_world H0)).
  - vm_compute. reflexivity.
Defined.

(* ===================================================================== *)
(** ** The audit log only grows *)
(* ===================================================================== *)

(** Claim C8. Audit entries are append-only: after any sequence of the
    system's operations (submit, approve, reject, legal-hold creation) the
    [activity_logs] table is the table before it followed by new entries,
    at most one per operation; no entry that was there is changed or
    removed. *)
Theorem audit_log_append_only :
  forall (ops : list (Env * Op)) (w : World),
    exists added,
      activity_logs (db (run ops w)) = activity_logs (db w) ++ added
      /\ (List.length added <= List.length ops)%nat.
Proof.
  unfold run. induction ops as [|[env op] ops IH]; intro w; simpl.
  - exists []. rewrite app_nil_r. split; [reflexivity | simpl; lia].
  - destruct (step_activity_logs env op w) as [a1 [E1 L1]].
    destruct (IH (step env op w)) as [a2 [E2 L2]].
    exists (a1 ++ a2). split.
    + rewrite E2, E1, app_assoc. reflexivity.
    + rewrite length_app. lia.
Qed.

(** The sample run adds its two entries after the ones that were there. *)
Example audit_log_sample :
  List.map ActivityLog.event_type (activity_logs (db (run sample_ops sample_world)))
  = [lit "submitted"; lit "approved"].
Proof. vm_compute. reflexivity. Qed.

(* ===================================================================== *)
(** ** What an approve touches *)
(* ===================================================================== *)

Lemma update_row_other (env : Env) (p : list Document.assignment) (i : uuid)
  (r : Document.t) :
  Document.id r <> i -> update_row env p i r = r.
Proof.
  intro H. unfold update_row. apply str_eqb_neq in H. now rewrite H.
Qed.

Lemma approve_row_frame (env : Env) (pg : DocumentReviewPage.Page) (doc r : Document.t) :
  same_outside_review r
    (update_row env (DocumentReviewPage.approvePayload env pg doc) (Document.id doc) r).
Proof.
  unfold update_row, same_outside_review.
  destruct (str_eqb (Document.id r) (Document.id doc)); cbn; repeat split; reflexivity.
Qed.

Lemma approve_row_written (env : Env) (pg : DocumentReviewPage.Page) (doc r : Document.t) :
  Document.id r = Document.id doc ->
  let r' := update_row env (DocumentReviewPage.approvePayload env pg doc)
                       (Document.id doc) r in
  Document.status r' = Some (lit "approved")
  /\ Document.reviewed_by r' = Some DocumentReviewPage.hrReviewer
  /\ Document.reviewed_at r' = Some (client_now env)
  /\ Document.type r'
     = str_or_null (DocumentReviewPage.documentType pg) (Document.type doc)
  /\ Document.updated_at r' = Some (server_now env).
Proof.
  intro E. unfold update_row. rewrite E, str_eqb_refl. cbn. repeat split; reflexivity.
Qed.

(** The documents table after [handleApprove]: as it was, or with the
    update applied to the rows of the page's document. *)
Lemma handleApprove_documents (env : Env) (pg : DocumentReviewPage.Page) (w : World) :
  let d' := db (snd (DocumentReviewPage.handleApprove env pg w)) in
  employees d' = employees (db w)
  /\ legal_holds d' = legal_holds (db w)
  /\ retention_policies d' = retention_policies (db w)
  /\ match DocumentReviewPage.document pg with
     | None => documents d' = documents (db w)
     | Some doc =>
         documents d'
         = if write_error env then documents (db w)
           else List.map (update_row env (DocumentReviewPage.approvePayload env pg doc)
                                     (Document.id doc))
                         (documents (db w))
     end.
Proof.
  unfold DocumentReviewPage.handleApprove.
  destruct (DocumentReviewPage.document pg) as [doc|]; [|simpl; tauto].
  unfold_client. split_ifs. all: repeat split; reflexivity.
Qed.

(** Claim C9, amended. [handleApprove] leaves the tables other than
    [documents] as they are and keeps every document at its place. A
    document other than the page's is unchanged. The page's document keeps
    every column other than [status], [reviewed_by], [reviewed_at], [type]
    and [updated_at]; when the update goes through, the first four take the
    values of the payload and [updated_at] takes the time the update trigger
    stamps. *)
Theorem approve_frame :
  forall (env : Env) (pg : DocumentReviewPage.Page) (w : World),
    let d' := db (snd (DocumentReviewPage.handleApprove env pg w)) in
    employees d' = employees (db w)
    /\ legal_holds d' = legal_holds (db w)
    /\ retention_policies d' = retention_policies (db w)
    /\ List.length (documents d') = List.length (documents (db w))
    /\ forall (n : nat) (r : Document.t),
         nth_error (documents (db w)) n = Some r ->
         exists r',
           nth_error (documents d') n = Some r'
           /\ same_outside_review r r'
           /\ (Some (Document.id r)
               <> option_map Document.id (DocumentReviewPage.document pg) -> r' = r)
           /\ (forall doc,
                 DocumentReviewPage.document pg = Some doc ->
                 Document.id r = Document.id doc ->
                 write_error env = false ->
                 Document.status r' = Some (lit "approved")
                 /\ Document.reviewed_by r' = Some DocumentReviewPage.hrReviewer
                 /\ Document.reviewed_at r' = Some (client_now env)
                 /\ Document.type r'
                    = str_or_null (DocumentReviewPage.documentType pg) (Document.type doc)
                 /\ Document.updated_at r' = Some (server_now env)).
Proof.
  intros env pg w d'.
  destruct (handleApprove_documents env pg w) as [He [Hh [Hp Hd]]].
  fold d' in He, Hh, Hp, Hd.
  split; [exact He|]. split; [exact Hh|]. split; [exact Hp|].
  assert (Hsame : forall r, same_outside_review r r).
  { intro r. unfold same_outside_review. repeat split; reflexivity. }
  destruct (DocumentReviewPage.document pg) as [doc|] eqn:Edoc.
  - destruct (write_error env) eqn:Ew; rewrite Hd.
    + split; [reflexivity|]. intros n r Hn. exists r.
      split; [exact Hn|]. split; [apply Hsame|]. split; [reflexivity|].
      intros doc' _ _ Hf. discriminate Hf.
    + split; [apply length_map|]. intros n r Hn.
      exists (update_row env (DocumentReviewPage.approvePayload env pg doc)
                         (Document.id doc) r).
      split; [rewrite nth_error_map, Hn; reflexivity|].
      split; [apply approve_row_frame|]. split.
      * simpl. intro Hne. apply update_row_other. congruence.
      * intros doc' Hdoc' Hid _. injection Hdoc' as <-.
        now apply approve_row_written.
  - rewrite Hd. split; [reflexivity|]. intros n r Hn. exists r.
    split; [exact Hn|]. split; [apply Hsame|]. split; [reflexivity|].
    intros doc' Hf. discriminate Hf.
Qed.

(** Claim C9, as stated, fails: an approve that goes through also changes
    [updated_at] of the document (the trigger [update_documents_updated_at]
    of the migration), a column that is not among status, reviewed_by,
    reviewed_at and type. *)
Lemma approve_changes_updated_at :
  let w' := snd (DocumentReviewPage.handleApprove sample_env2 sample_review_page
                                                  sample_world) in
  List.map Document.status (documents (db w')) = [Some (lit "approved")]
  /\ List.map Document.updated_at (documents (db sample_world)) = [Some 100]
  /\ List.map Document.updated_at (documents (db w')) = [Some 301]
  /\ List.map Document.updated_at (documents (db w'))
     <> List.map Document.updated_at (documents (db sample_world)).
Proof. vm_compute. repeat split; try reflexivity. discriminate. Qed.

(* ===================================================================== *)
(** ** Which files the upload handler keeps *)
(* ===================================================================== *)

Lemma validFile_value (file : File.t) (w : World) :
  fst (UploadPage.validFile file w) = Return (accepted file)
  /\ db (snd (UploadPage.validFile file w)) = db w
  /\ calls (snd (UploadPage.validFile file w)) = calls w.
Proof.
  unfold UploadPage.validFile, accepted, UploadPage.isValidType, UploadPage.isValidSize.
  destruct (str_eqb (File.type file) (lit "application/pdf")
            || startsWith (File.type file) (lit "image/"));
    destruct (File.size file <=? 10 * 1024 * 1024); cbn; repeat split; reflexivity.
Qed.

(** The filter of [handleFiles] is the plain filter by [accepted]; its
    toasts change neither the database nor the requests sent. *)
Lemma array_filter_validFile (l : list File.t) (w : World) :
  fst (UploadPage.array_filter UploadPage.validFile l w) = Return (filter accepted l)
  /\ db (snd (UploadPage.array_filter UploadPage.validFile l w)) = db w
  /\ calls (snd (UploadPage.array_filter UploadPage.validFile l w)) = calls w.
Proof.
  revert w. induction l as [|file l IH]; intro w; simpl.
  - repeat split; reflexivity.
  - unfold bind at 1 3 5.
    destruct (validFile_value file w) as [Hv [Hd Hc]].
    destruct (UploadPage.validFile file w) as [r w1]. simpl in Hv, Hd, Hc. subst r.
    unfold bind.
    destruct (IH w1) as [Hv1 [Hd1 Hc1]].
    destruct (UploadPage.array_filter UploadPage.validFile l w1) as [r2 w2].
    simpl in Hv1, Hd1, Hc1. subst r2. unfold ret. simpl.
    destruct (accepted file); repeat split; congruence.
Qed.

(** Claim C10. For every list of candidate files, the files of the page
    after [handleFiles] are the files it had followed by the candidates
    whose MIME type is application/pdf or begins with image/ and whose size
    is at most 10 * 1024 * 1024 bytes, in the order they came in; every
    other candidate is left out. A candidate that is kept keeps its name,
    type and size (an image gets its preview address on the way), and
    nothing else of the page changes. *)
Theorem handleFiles_keeps_accepted :
  forall (createObjectURL : File.t -> text) (newFiles : list File.t)
         (pg : UploadPage.Page) (w : World),
    exists (pg' : UploadPage.Page) (kept : list File.t),
      fst (UploadPage.handleFiles createObjectURL newFiles pg w) = Return pg'
      /\ UploadPage.files pg' = UploadPage.files pg ++ kept
      /\ List.map File.name kept = List.map File.name (filter accepted newFiles)
      /\ List.map File.type kept = List.map File.type (filter accepted newFiles)
      /\ List.map File.size kept = List.map File.size (filter accepted newFiles)
      /\ (forall file,
            In file (filter accepted newFiles)
            <-> In file newFiles
                /\ (File.type file = lit "application/pdf"
                    \/ startsWith (File.type file) (lit "image/") = true)
                /\ File.size file <= 10 * 1024 * 1024)
      /\ (forall file,
            accepted file = true
            <-> (File.type file = lit "application/pdf"
                 \/ startsWith (File.type file) (lit "image/") = true)
                /\ File.size file <= 10485760)
      /\ UploadPage.step pg' = UploadPage.step pg
      /\ UploadPage.documentType pg' = UploadPage.documentType pg
      /\ UploadPage.notes pg' = UploadPage.notes pg
      /\ UploadPage.submissionId pg' = UploadPage.submissionId pg
      /\ UploadPage.isDragging pg' = UploadPage.isDragging pg.
Proof.
  intros url newFiles pg w.
  assert (Hacc : forall file,
             accepted file = true
             <-> (File.type file = lit "application/pdf"
                  \/ startsWith (File.type file) (lit "image/") = true)
                 /\ File.size file <= 10485760).
  { intro file. unfold accepted.
    rewrite andb_true_iff, orb_true_iff, str_eqb_eq, Z.leb_le. reflexivity. }
  assert (Hsame : forall (B : Type) (f : File.t -> B) (l : list File.t),
             (forall x, f (addPreview url x) = f x) ->
             List.map f (List.map (addPreview url) l) = List.map f l).
  { intros B f l H. rewrite map_map. apply map_ext. exact H. }
  exists (UploadPage.setFiles
            (UploadPage.files pg
             ++ List.map (addPreview url) (filter accepted newFiles)) pg),
         (List.map (addPreview url) (filter accepted newFiles)).
  split.
  { unfold UploadPage.handleFiles, bind.
    destruct (array_filter_validFile newFiles w) as [Hv _].
    destruct (UploadPage.array_filter UploadPage.validFile newFiles w) as [r w1].
    simpl in Hv. subst r. reflexivity. }
  split; [reflexivity|].
  split; [apply Hsame; intro x; unfold addPreview;
          now destruct (startsWith (File.type x) (lit "image/"))|].
  split; [apply Hsame; intro x; unfold addPreview;
          now destruct (startsWith (File.type x) (lit "image/"))|].
  split; [apply Hsame; intro x; unfold addPreview;
          now destruct (startsWith (File.type x) (lit "image/"))|].
  split.
  { intro file. rewrite filter_In, Hacc. reflexivity. }
  split; [exact Hacc|].
  repeat split; reflexivity.
Qed.

(** Of the four sample candidates the text file and the file one byte over
    the limit are left out; the file of exactly 10 MiB is kept. *)
Example handleFiles_sample :
  fst (UploadPage.handleFiles sample_object_url sample_files
         (UploadPage.mkPage 2 [] [] [] [] false) sample_world)
  = Return (UploadPage.mkPage 2 []
              [ File.mk (lit "scan.png") (lit "image/png") 1000
                        (Some (lit "blob:scan.png"));
                File.mk (lit "i9.pdf") (lit "application/pdf") 10485760 None ]
              [] [] false).
Proof. vm_compute. reflexivity. Qed.

(* ===================================================================== *)
(** ** When the review page lets a document be approved *)
(* ===================================================================== *)

(** Claim C3, as stated, fails: a document whose status is on_hold, which
    is neither received nor in_review, is offered the review actions, and
    approving it goes through. *)
Lemma approve_on_hold_document :
  let (pg, w1) := DocumentReviewPage.mount sample_env (sample_uuid "d7") review_world in
  let (pg', w2) := DocumentReviewPage.session approve_clicks pg w1 in
  List.map Document.status (documents (db review_world))
    = [Some (lit "on_hold"); Some (lit "rejected")]
  /\ DocumentReviewPage.cardShown pg = true
  /\ List.map Document.status (documents (db w2))
     = [Some (lit "approved"); Some (lit "rejected")].
Proof. vm_compute. repeat split; reflexivity. Qed.

(** With both dialogs closed and the Review Actions card not shown, an
    event changes only the page, and keeps the dialogs closed. *)
Lemma dispatch_without_card (env : Env) (ev : DocumentReviewPage.Event)
  (pg : DocumentReviewPage.Page) (w : World) :
  DocumentReviewPage.showApproveDialog pg = false ->
  DocumentReviewPage.showRejectDialog pg = false ->
  DocumentReviewPage.cardShown pg = false ->
  exists pg',
    DocumentReviewPage.dispatch env ev pg w = (Return pg', w)
    /\ DocumentReviewPage.showApproveDialog pg' = false
    /\ DocumentReviewPage.showRejectDialog pg' = false
    /\ DocumentReviewPage.cardShown pg' = false.
Proof.
  intros Ha Hr Hc.
  destruct ev; unfold DocumentReviewPage.dispatch, ret;
    rewrite ?Ha, ?Hr, ?Hc, ?andb_false_r; simpl;
    try (eexists; split; [reflexivity|]; now repeat split).
  all: destruct (DocumentReviewPage.rendered pg) eqn:Er;
    eexists; (split; [reflexivity|]); repeat split; try assumption.
  all: unfold DocumentReviewPage.cardShown, DocumentReviewPage.rendered in *;
    destruct pg; simpl in *; assumption.
Qed.

Lemma session_without_card (evs : list (Env * DocumentReviewPage.Event))
  (pg : DocumentReviewPage.Page) (w : World) :
  DocumentReviewPage.showApproveDialog pg = false ->
  DocumentReviewPage.showRejectDialog pg = false ->
  DocumentReviewPage.cardShown pg = false ->
  snd (DocumentReviewPage.session evs pg w) = w.
Proof.
  revert pg. induction evs as [|[env ev] evs IH]; intros pg Ha Hr Hc; simpl.
  - reflexivity.
  - destruct (dispatch_without_card env ev pg w Ha Hr Hc) as [pg' [E [Ha' [Hr' Hc']]]].
    rewrite E. now apply IH.
Qed.

Lemma mount_dialogs_closed (env : Env) (i : text) (w : World) :
  DocumentReviewPage.showApproveDialog (fst (DocumentReviewPage.mount env i w)) = false
  /\ DocumentReviewPage.showRejectDialog (fst (DocumentReviewPage.mount env i w)) = false.
Proof.
  unfold DocumentReviewPage.mount, DocumentReviewPage.loadData.
  unfold_client.
  destruct (select_error env); [split; reflexivity|].
  destruct (uuid_in i); [|split; reflexivity].
  destruct (maybeSingle _) as [dt [e|]]; simpl; split; reflexivity.
Qed.

Lemma mount_found (env : Env) (i : text) (u : uuid) (w : World) (d : Document.t) :
  uuid_in i = Some u ->
  filter (fun r => str_eqb (Document.id r) u) (documents (db w)) = [d] ->
  select_error env = false ->
  DocumentReviewPage.mount env i w
  = (DocumentReviewPage.mkPage (Some d) false false false []
       (DocumentReviewPage.typeOrEmpty (Some d)) false,
     record_call (select_documents_by_id i) w).
Proof.
  intros Hu Hf He.
  unfold DocumentReviewPage.mount, DocumentReviewPage.loadData.
  unfold_client. rewrite He, Hu, Hf. reflexivity.
Qed.

Lemma filter_id (i : uuid) (l : list Document.t) (d : Document.t) :
  filter (fun r => str_eqb (Document.id r) i) l = [d] -> Document.id d = i.
Proof.
  intro H. assert (Hin : In d (filter (fun r => str_eqb (Document.id r) i) l)).
  { rewrite H. now left. }
  apply filter_In in Hin as [_ Hin]. now apply str_eqb_eq.
Qed.

Lemma card_hidden_when_reviewed (pg : DocumentReviewPage.Page) :
  (forall d, DocumentReviewPage.document pg = Some d ->
             Document.status d = Some (lit "approved")
             \/ Document.status d = Some (lit "rejected")
             \/ Document.status d = None) ->
  DocumentReviewPage.cardShown pg = false.
Proof.
  intro H. unfold DocumentReviewPage.cardShown, DocumentReviewPage.rendered.
  destruct (DocumentReviewPage.document pg) as [d|]; [|apply andb_false_r].
  destruct (H d eq_refl) as [E|[E|E]].
  - apply andb_false_iff. right. unfold DocumentReviewPage.reviewActionsVisible.
    rewrite E. reflexivity.
  - apply andb_false_iff. right. unfold DocumentReviewPage.reviewActionsVisible.
    rewrite E. apply andb_false_r.
  - rewrite E. now rewrite andb_false_r.
Qed.

Lemma visible_unless_reviewed (d : Document.t) :
  Document.status d <> Some (lit "approved") ->
  Document.status d <> Some (lit "rejected") ->
  DocumentReviewPage.reviewActionsVisible d = true.
Proof.
  intros Ha Hr. unfold DocumentReviewPage.reviewActionsVisible.
  apply andb_true_iff. split; apply negb_true_iff;
    (destruct (opt_str_eqb (Document.status d) _) eqn:E; [|reflexivity]);
    apply opt_str_eqb_eq in E; contradiction.
Qed.

(** The rows of the page's document after [handleApprove], when the update
    goes through: approved, whatever they were. *)
Lemma handleApprove_approves (env : Env) (pg : DocumentReviewPage.Page) (w : World)
  (d : Document.t) :
  DocumentReviewPage.document pg = Some d ->
  write_error env = false ->
  documents (db (snd (DocumentReviewPage.handleApprove env pg w)))
  = List.map (update_row env (DocumentReviewPage.approvePayload env pg d) (Document.id d))
             (documents (db w))
  /\ forall r,
       In r (documents (db (snd (DocumentReviewPage.handleApprove env pg w)))) ->
       Document.id r = Document.id d ->
       Document.status r = Some (lit "approved").
Proof.
  intros Hd Hw.
  pose proof (handleApprove_documents env pg w) as [_ [_ [_ H]]].
  rewrite Hd, Hw in H. split; [exact H|].
  intros r Hr Hri. rewrite H in Hr. apply in_map_iff in Hr as [r0 [Er Hr0]].
  subst r. unfold update_row in *.
  destruct (str_eqb (Document.id r0) (Document.id d)) eqn:E.
  - reflexivity.
  - apply str_eqb_neq in E. contradiction.
Qed.

(** Claim C3, amended. On the review page opened at the address of the id
    [i] (in any spelling the database reads as a uuid):
    (1) when the document loaded is approved or rejected or has no status,
    or none was loaded, no sequence of actions on the page sends a request
    or changes the database, so approve is not possible;
    (2) when the document loaded has any other status (received, in_review,
    but also expired or on_hold), clicking Approve Document and confirming
    sets the status of the row to approved, provided the update request
    does not fail;
    (3) [handleApprove] itself checks no status: run on a page that holds a
    document, whatever the status the page or the table has for it, it sets
    the rows of that document to approved when the update goes through. *)
Theorem review_actions_gate :
  forall (env0 : Env) (i : text) (w : World),
    let pg := fst (DocumentReviewPage.mount env0 i w) in
    let w1 := snd (DocumentReviewPage.mount env0 i w) in
    (forall evs,
        (forall d, DocumentReviewPage.document pg = Some d ->
                   Document.status d = Some (lit "approved")
                   \/ Document.status d = Some (lit "rejected")
                   \/ Document.status d = None) ->
        snd (DocumentReviewPage.session evs pg w1) = w1)
    /\ (forall env1 env2 u d s,
          uuid_in i = Some u ->
          filter (fun r => str_eqb (Document.id r) u) (documents (db w)) = [d] ->
          select_error env0 = false ->
          Document.status d = Some s ->
          s <> lit "approved" ->
          s <> lit "rejected" ->
          write_error env2 = false ->
          let w2 := snd (DocumentReviewPage.session
                           [ (env1, DocumentReviewPage.clickApproveDocument);
                             (env2, DocumentReviewPage.confirmApproval) ] pg w1) in
          documents (db w2)
          = List.map (update_row env2 (DocumentReviewPage.approvePayload env2 pg d) u)
                     (documents (db w))
          /\ forall r, In r (documents (db w2)) -> Document.id r = u ->
                       Document.status r = Some (lit "approved"))
    /\ (forall (env : Env) (pg0 : DocumentReviewPage.Page) (w0 : World) (d : Document.t),
          DocumentReviewPage.document pg0 = Some d ->
          write_error env = false ->
          forall r,
            In r (documents (db (snd (DocumentReviewPage.handleApprove env pg0 w0)))) ->
            Document.id r = Document.id d ->
            Document.status r = Some (lit "approved")).
Proof.
  intros env0 i w pg w1. split; [|split].
  - intros evs H.
    destruct (mount_dialogs_closed env0 i w) as [Ha Hr].
    apply session_without_card; try assumption.
    now apply card_hidden_when_reviewed.
  - intros env1 env2 u d s Hu Hf He Hs Hna Hnr Hw w2.
    pose proof (filter_id _ _ _ Hf) as Hid.
    assert (Hv : DocumentReviewPage.reviewActionsVisible d = true).
    { apply visible_unless_reviewed; rewrite Hs; congruence. }
    assert (Hdocs : documents (db w2)
                    = List.map (update_row env2
                                  (DocumentReviewPage.approvePayload env2 pg d) u)
                               (documents (db w))).
    { subst w2 pg w1. rewrite (mount_found env0 i u w d Hu Hf He). simpl.
      unfold DocumentReviewPage.cardShown, DocumentReviewPage.rendered. simpl.
      rewrite Hv, Hs. simpl. rewrite ?Hs. simpl.
      pose proof (handleApprove_documents env2
                    (DocumentReviewPage.setShowApproveDialog true
                       (DocumentReviewPage.mkPage (Some d) false false false []
                          (DocumentReviewPage.typeOrEmpty (Some d)) false))
                    (record_call (select_documents_by_id i) w)) as [_ [_ [_ Hd]]].
      simpl in Hd. rewrite Hw, Hid in Hd.
      destruct (DocumentReviewPage.handleApprove env2 _ _) as [[pg'|e] w'];
        simpl in *; exact Hd. }
    split; [exact Hdocs|].
    intros r Hr Hri. rewrite Hdocs in Hr. apply in_map_iff in Hr as [r0 [Er Hr0]].
    subst r. unfold update_row in *.
    destruct (str_eqb (Document.id r0) u) eqn:E.
    + reflexivity.
    + apply str_eqb_neq in E. contradiction.
  - intros env pg0 w0 d Hd Hw.
    exact (proj2 (handleApprove_approves env pg0 w0 d Hd Hw)).
Qed.

Lemma review_actions_gate_witness :
  DocumentReviewPage.document
    (fst (DocumentReviewPage.mount sample_env spelled_d8 review_world))
  = Some rejected_row
  /\ (forall evs,
        snd (DocumentReviewPage.session evs
               (fst (DocumentReviewPage.mount sample_env spelled_d8 review_world))
               (snd (DocumentReviewPage.mount sample_env spelled_d8 review_world)))
        = snd (DocumentReviewPage.mount sample_env spelled_d8 review_world))
  /\ List.map Document.status
       (documents (db (snd (DocumentReviewPage.session approve_clicks
             (fst (DocumentReviewPage.mount sample_env spelled_d7 review_world))
             (snd (DocumentReviewPage.mount sample_env spelled_d7 review_world))))))
     = [Some (lit "approved"); Some (lit "rejected")]
  /\ (forall r,
        In r (documents (db (snd (DocumentReviewPage.handleApprove sample_env2
                                    stale_approve_page review_world)))) ->
        Document.id r = Document.id rejected_row ->
        Document.status r = Some (lit "approved")).
Proof.
  split; [vm_compute; reflexivity|]. split; [|split].
  - intro evs.
    apply (proj1 (review_actions_gate sample_env spelled_d8 review_world) evs).
    intros d Hd. vm_compute in Hd. injection Hd as <-. right. left. reflexivity.
  - unfold approve_clicks.
    rewrite (proj1 (proj1 (proj2 (review_actions_gate sample_env spelled_d7
                                    review_world))
                      sample_env sample_env2 (sample_uuid "d7") on_hold_row (lit "on_hold")
                      ltac:(vm_compute; reflexivity) eq_refl eq_refl eq_refl
                      ltac:(vm_compute; discriminate) ltac:(vm_compute; discriminate)
                      eq_refl)).
    vm_compute. reflexivity.
  - exact (proj2 (proj2 (review_actions_gate sample_env spelled_d8 review_world))
             sample_env2 stale_approve_page review_world stale_row eq_refl eq_refl).
Defined.

(* ===================================================================== *)
(** ** What a submission creates *)
(* ===================================================================== *)

(** Claim C4, as stated, fails: a submission that goes through writes an
    audit entry whose event type is submitted; no entry with the event type
    document.received is written. *)
Lemma submit_logs_submitted :
  let w' := snd (UploadPage.handleSubmit sample_env sample_upload_page sample_world) in
  List.length (documents (db w')) = S (List.length (documents (db sample_world)))
  /\ List.map ActivityLog.event_type (activity_logs (db w')) = [lit "submitted"]
  /\ ~ In (lit "document.received")
          (List.map ActivityLog.event_type (activity_logs (db w'))).
Proof.
  vm_compute. repeat split; try reflexivity.
  intros [H|[]]. discriminate H.
Qed.

Lemma app_one_inv {A : Type} (l : list A) (x y : A) : l ++ [x] = l ++ [y] -> x = y.
Proof. intro H. apply app_inv_head in H. now injection H. Qed.

Lemma app_one_neq {A : Type} (l : list A) (x : A) : l <> l ++ [x].
Proof.
  intro H. apply (f_equal (@List.length A)) in H. rewrite length_app in H.
  simpl in H. lia.
Qed.

Lemma submitted_row_fields (e : uuid) (pg : UploadPage.Page) (i : uuid) (now : timestamp) :
  let doc := Document.apply (UploadPage.documentPayload e pg) (Document.default i now) in
  Document.id doc = i
  /\ Document.status doc = Some (lit "received")
  /\ Document.version doc = Some 1
  /\ Document.original_document_id doc = None
  /\ Document.reviewed_by doc = None
  /\ Document.reviewed_at doc = None
  /\ Document.source doc = Some (lit "upload").
Proof. cbn. repeat split; reflexivity. Qed.

(** Claim C4, amended. When [handleSubmit] creates a document [doc] (the
    documents table is the one before followed by [doc]): [doc] has the
    status received, the version 1 (the column default), no original
    document and no review, and the id the database drew; the request that
    writes the audit entry for [doc] is sent: entity type document, entity
    id the id of [doc], event type submitted, actor John Doe in the role
    employee; and when that request goes through, the entry is appended to
    [activity_logs]. The documents table has no column for a retention
    date. *)
Theorem submit_creates_received_document :
  forall (env : Env) (pg : UploadPage.Page) (w : World) (doc : Document.t),
    let w' := snd (UploadPage.handleSubmit env pg w) in
    let entry :=
      ActivityLog.mk_payload (lit "document") (Some (Document.id doc)) (lit "submitted")
        (lit "John Doe") (lit "employee") (lit "Document submitted via upload") in
    documents (db w') = documents (db w) ++ [doc] ->
    (Document.id doc = new_id env
     /\ Document.status doc = Some (lit "received")
     /\ Document.version doc = Some 1
     /\ Document.original_document_id doc = None
     /\ Document.reviewed_by doc = None
     /\ Document.reviewed_at doc = None
     /\ Document.source doc = Some (lit "upload"))
    /\ In (insert_activity_logs (UploadPage.submittedEntry (Document.id doc))) (calls w')
    /\ ActivityLog.p_event_type (UploadPage.submittedEntry (Document.id doc))
       = lit "submitted"
    /\ ActivityLog.p_entity_id (UploadPage.submittedEntry (Document.id doc))
       = Some (Document.id doc)
    /\ (log_error env = false ->
        existsb (fun x => str_eqb (ActivityLog.id x) (log_id env))
                (activity_logs (db w)) = false ->
        activity_logs (db w')
        = activity_logs (db w)
          ++ [ActivityLog.row (log_id env) (server_now env)
                (UploadPage.submittedEntry (Document.id doc))])
    /\ UploadPage.submittedEntry (Document.id doc) = entry
    /\ (exists sent, calls w' = sent ++ [insert_activity_logs entry])
    /\ (forall p, In (insert_activity_logs p) (calls w') ->
                  In (insert_activity_logs p) (calls w) \/ p = entry)
    /\ (log_error env = false ->
        existsb (fun x => str_eqb (ActivityLog.id x) (log_id env))
                (activity_logs (db w)) = false ->
        activity_logs (db w')
        = activity_logs (db w)
          ++ [ActivityLog.mk (log_id env) (lit "document") (Some (Document.id doc))
                (lit "submitted") (lit "John Doe") (lit "employee")
                (lit "Document submitted via upload") (Some (lit "{}"))
                (Some (server_now env))]).
Proof.
  intros env pg w doc w' entry. subst w' entry.
  unfold UploadPage.handleSubmit. unfold_client. split_ifs.
  all: intro H; try (exfalso; exact (app_one_neq _ _ H)).
  all: apply app_one_inv in H; subst doc.
  all: split; [apply submitted_row_fields|].
  all: replace (Document.id (Document.apply _ (Document.default (new_id env) _)))
         with (new_id env) by reflexivity.
  all: split; [apply in_or_app; right; now left|].
  all: split; [reflexivity|]. all: split; [reflexivity|].
  all: split; [intros Hl Hx; try reflexivity; congruence|].
  all: split; [reflexivity|].
  all: split; [eexists; reflexivity|].
  all: split; [|intros Hl Hx; try reflexivity; congruence].
  all: intros p Hp; apply in_app_or in Hp as [Hp|[Hp|[]]];
    [|right; now injection Hp].
  all: apply in_app_or in Hp as [Hp|[Hp|[]]]; [|discriminate Hp].
  all: apply in_app_or in Hp as [Hp|[Hp|[]]]; [now left | discriminate Hp].
Qed.

Lemma submit_creates_received_document_witness :
  exists doc,
    documents (db (snd (UploadPage.handleSubmit sample_env sample_upload_page sample_world)))
    = documents (db sample_world) ++ [doc]
    /\ Document.status doc = Some (lit "received")
    /\ Document.version doc = Some 1.
Proof.
  eexists. split; [vm_compute; reflexivity|].
  refine ((fun H => conj (proj1 (proj2 (proj1 H))) (proj1 (proj2 (proj2 (proj1 H)))))
            (submit_creates_received_document sample_env sample_upload_page sample_world
               _ _)).
  vm_compute. reflexivity.
Defined.

(* ===================================================================== *)
(** ** Resubmitting a rejected document *)
(* ===================================================================== *)

(** Claim C5, at a rejected document of version 1 with the reason
    "illegible scan": the Resubmit button is shown, and resubmitting adds a
    document in status received and leaves the rejected one as it was, but
    the new document has no [original_document_id] and the version 1, not
    the id of the rejected document and the version 2. *)
Theorem resubmit_is_not_linked :
  let w' := snd (SubmissionDetailPage.resubmit sample_env rejected_row
                   sample_upload_page resubmit_world) in
  SubmissionDetailPage.resubmitVisible rejected_row = true
  /\ Document.version rejected_row = Some 1
  /\ exists d2,
       documents (db w') = [rejected_row; d2]
       /\ Document.status d2 = Some (lit "received")
       /\ Document.original_document_id d2 = None
       /\ Document.original_document_id d2 <> Some (Document.id rejected_row)
       /\ Document.version d2 = Some 1
       /\ Document.version d2 <> Some 2.
Proof.
  vm_compute. split; [reflexivity|]. split; [reflexivity|].
  eexists. split; [reflexivity|]. repeat split; try reflexivity; discriminate.
Qed.

(* ===================================================================== *)
(** ** The retention date *)
(* ===================================================================== *)

Lemma for_key_eq (st ty : text) (p : Retention.Policy) :
  Retention.for_key st ty p = true
  <-> Retention.jurisdiction p = st /\ Retention.document_type p = ty.
Proof.
  unfold Retention.for_key. rewrite andb_true_iff, !str_eqb_eq. reflexivity.
Qed.

Lemma lookup_some (ov : bool) (t : Retention.PolicyTable) (st ty : text)
  (p : Retention.Policy) :
  Retention.lookup ov t st ty = Some p ->
  In p (Retention.policies t) /\ Retention.is_override p = ov
  /\ Retention.jurisdiction p = st /\ Retention.document_type p = ty.
Proof.
  unfold Retention.lookup. intro H. apply find_some in H as [Hin Hb].
  apply andb_true_iff in Hb as [Ho Hk].
  apply Bool.eqb_prop in Ho. apply for_key_eq in Hk. tauto.
Qed.

Lemma lookup_none (ov : bool) (t : Retention.PolicyTable) (st ty : text)
  (p : Retention.Policy) :
  Retention.lookup ov t st ty = None ->
  In p (Retention.policies t) -> Retention.is_override p = ov ->
  Retention.jurisdiction p = st -> Retention.document_type p = ty -> False.
Proof.
  unfold Retention.lookup. intros H Hin Ho Hs Ht.
  pose proof (find_none _ _ H p Hin) as Hb. simpl in Hb.
  rewrite Ho, Bool.eqb_reflx in Hb. simpl in Hb.
  assert (Hk : Retention.for_key st ty p = true) by (apply for_key_eq; tauto).
  congruence.
Qed.

(** Claim C6. For every employee, document and policy table: when the
    table has an override policy for (work state, document type), the
    result is the anchor date of one such policy plus its
    [retention_period_days], in days; when it has none but has a
    non-override policy for the pair, the same with one such policy; when
    it has no policy for the pair and no explicit global default, the
    computation fails with [PolicyNotFoundError] and yields no date. *)
Theorem retention_eligible_at_spec :
  forall (e : Retention.EmployeeFacts) (d : Retention.DocumentFacts)
         (t : Retention.PolicyTable),
    let matching (ov : bool) (p : Retention.Policy) : Prop :=
      In p (Retention.policies t) /\ Retention.is_override p = ov
      /\ Retention.jurisdiction p = Retention.work_state e
      /\ Retention.document_type p = Retention.doc_type d in
    ((exists q, matching true q) ->
     exists p, matching true p
               /\ forall a, Retention.anchor_date p e d = Some a ->
                            Retention.compute_retention_eligible_at e d t
                            = inr (a + Retention.retention_period_days p))
    /\ (~ (exists q, matching true q) -> (exists q, matching false q) ->
        exists p, matching false p
                  /\ forall a, Retention.anchor_date p e d = Some a ->
                               Retention.compute_retention_eligible_at e d t
                               = inr (a + Retention.retention_period_days p))
    /\ (~ (exists q, matching true q) -> ~ (exists q, matching false q) ->
        Retention.global_default t = None ->
        Retention.compute_retention_eligible_at e d t = inl Retention.PolicyNotFoundError).
Proof.
  intros e d t matching.
  unfold Retention.compute_retention_eligible_at, Retention.resolve_policy,
    Retention.eligible_with.
  destruct (Retention.lookup true t (Retention.work_state e) (Retention.doc_type d))
    as [po|] eqn:Eo.
  - pose proof (lookup_some _ _ _ _ _ Eo) as Hpo.
    split; [|split].
    + intros _. exists po. split; [exact Hpo|]. intros a Ha. now rewrite Ha.
    + intro Hn. exfalso. apply Hn. now exists po.
    + intro Hn. exfalso. apply Hn. now exists po.
  - assert (Hno : ~ (exists q, matching true q)).
    { intros [q [Hin [Ho [Hs Ht]]]]. exact (lookup_none _ _ _ _ q Eo Hin Ho Hs Ht). }
    destruct (Retention.lookup false t (Retention.work_state e) (Retention.doc_type d))
      as [pd|] eqn:Ed.
    + pose proof (lookup_some _ _ _ _ _ Ed) as Hpd.
      split; [|split].
      * intro H. contradiction.
      * intros _ _. exists pd. split; [exact Hpd|]. intros a Ha. now rewrite Ha.
      * intros _ Hn. exfalso. apply Hn. now exists pd.
    + split; [|split].
      * intro H. contradiction.
      * intros _ [q [Hin [Ho [Hs Ht]]]]. exfalso.
        exact (lookup_none _ _ _ _ q Ed Hin Ho Hs Ht).
      * intros _ _ Hg. now rewrite Hg.
Qed.

Lemma retention_eligible_at_spec_witness :
  (exists p, Retention.is_override p = true
             /\ Retention.compute_retention_eligible_at tx_employee i9_document
                  sample_policies
                = inr (20240 + Retention.retention_period_days p))
  /\ (exists p, Retention.is_override p = false
                /\ Retention.compute_retention_eligible_at fl_employee w4_document
                     sample_policies
                   = inr (19800 + Retention.retention_period_days p))
  /\ Retention.compute_retention_eligible_at fl_employee i9_document sample_policies
     = inl Retention.PolicyNotFoundError.
Proof.
  pose proof (retention_eligible_at_spec tx_employee i9_document sample_policies)
    as [H1 _].
  pose proof (retention_eligible_at_spec fl_employee w4_document sample_policies)
    as [_ [H2 _]].
  pose proof (retention_eligible_at_spec fl_employee i9_document sample_policies)
    as [_ [_ H3]].
  split; [|split].
  - destruct H1 as [p [[Hin [Ho _]] Hp]].
    { exists tx_override. vm_compute. tauto. }
    exists p. split; [exact Ho|]. apply Hp.
    destruct Hin as [<-|[<-|[<-|[]]]]; try reflexivity; discriminate Ho.
  - destruct H2 as [p [[Hin [Ho [Hs _]]] Hp]].
    { intros [q [Hin [Ho [Hs Ht]]]].
      destruct Hin as [<-|[<-|[<-|[]]]]; vm_compute in Ho, Hs; discriminate. }
    { exists fl_default. vm_compute. tauto. }
    exists p. split; [exact Ho|]. apply Hp.
    destruct Hin as [<-|[<-|[<-|[]]]]; try reflexivity;
      vm_compute in Hs; discriminate.
  - apply H3.
    + intros [q [Hin [_ [Hs Ht]]]].
      destruct Hin as [<-|[<-|[<-|[]]]]; vm_compute in Hs, Ht; discriminate.
    + intros [q [Hin [_ [Hs Ht]]]].
      destruct Hin as [<-|[<-|[<-|[]]]]; vm_compute in Hs, Ht; discriminate.
    + reflexivity.
Defined.

(* ===================================================================== *)
(** ** Legal holds *)
(* ===================================================================== *)

Lemma is_held_iff (document : Document.t) (employee : Employee.t)
  (holds : list HoldMatching.Hold) :
  HoldMatching.is_held document employee holds = true
  <-> exists h, In h holds /\ HoldMatching.status h = HoldMatching.active
                /\ HoldMatching.document_matches_hold document employee h = true.
Proof.
  unfold HoldMatching.is_held. rewrite existsb_exists.
  split; intros [h [Hin H]]; exists h; (split; [exact Hin|]).
  - apply andb_true_iff in H as [Ha Hm]. split; [|exact Hm].
    unfold HoldMatching.is_active in Ha. now destruct (HoldMatching.status h).
  - destruct H as [Ha Hm]. unfold HoldMatching.is_active. now rewrite Ha, Hm.
Qed.

Lemma release_keeps_other (a : uuid) (holds : list HoldMatching.Hold)
  (b : HoldMatching.Hold) :
  In b holds -> HoldMatching.hold_id b <> a ->
  In b (HoldMatching.release_hold a holds).
Proof.
  intros Hin Hne. unfold HoldMatching.release_hold. apply in_map_iff.
  exists b. split; [|exact Hin].
  apply str_eqb_neq in Hne. now rewrite Hne.
Qed.

(** Claim C7. For every document [D] of an employee and every list of legal
    holds: [D] is held iff it matches at least one hold whose status is
    active; the matcher is, by scope, always true (all), membership of the
    employee's id in the hold's employee set, equality of the employee's
    department with the hold's, equality of the document type with the
    hold's category, and [created_at] within the inclusive date range; and
    after releasing a hold, [D] is still held when another hold that is
    active matches it. *)
Theorem held_iff_matches_active_hold :
  forall (D : Document.t) (employee : Employee.t) (holds : list HoldMatching.Hold),
    (HoldMatching.is_held D employee holds = true
     <-> exists h, In h holds /\ HoldMatching.status h = HoldMatching.active
                   /\ HoldMatching.document_matches_hold D employee h = true)
    /\ (forall h,
          match HoldMatching.scope h with
          | HoldMatching.All =>
              HoldMatching.document_matches_hold D employee h = true
          | HoldMatching.ByEmployeeSet ids =>
              HoldMatching.document_matches_hold D employee h = true
              <-> In (Employee.id employee) ids
          | HoldMatching.ByDepartment dep =>
              HoldMatching.document_matches_hold D employee h = true
              <-> Employee.department employee = Some dep
          | HoldMatching.ByCategory cat =>
              HoldMatching.document_matches_hold D employee h = true
              <-> Document.type D = Some cat
          | HoldMatching.ByDateRange from to =>
              HoldMatching.document_matches_hold D employee h = true
              <-> exists t, Document.created_at D = Some t /\ from <= t <= to
          end)
    /\ (forall a b,
          In b holds -> HoldMatching.hold_id b <> a ->
          HoldMatching.status b = HoldMatching.active ->
          HoldMatching.document_matches_hold D employee b = true ->
          HoldMatching.is_held D employee (HoldMatching.release_hold a holds) = true).
Proof.
  intros D employee holds. split; [apply is_held_iff|]. split.
  - intro h. unfold HoldMatching.document_matches_hold.
    destruct (HoldMatching.scope h) as [|ids|dep|cat|from to].
    + reflexivity.
    + rewrite existsb_exists. split.
      * intros [x [Hin Hx]]. apply str_eqb_eq in Hx. now subst.
      * intro Hin. exists (Employee.id employee). split; [exact Hin|apply str_eqb_refl].
    + apply opt_str_eqb_eq.
    + apply opt_str_eqb_eq.
    + destruct (Document.created_at D) as [t|].
      * rewrite andb_true_iff, !Z.leb_le. split.
        -- intro H. exists t. split; [reflexivity | exact H].
        -- intros [t' [E H]]. injection E as ->. exact H.
      * split; [discriminate|]. intros [t [E _]]. discriminate E.
  - intros a b Hin Hne Hact Hm. apply is_held_iff.
    exists b. split; [now apply release_keeps_other|]. now split.
Qed.

Lemma held_iff_matches_active_hold_witness :
  HoldMatching.is_held sample_document_row sample_employee sample_holds = true
  /\ HoldMatching.is_held sample_document_row sample_employee
       (HoldMatching.release_hold (lit "h2") sample_holds) = true
  /\ HoldMatching.is_held sample_document_row sample_employee
       (HoldMatching.release_hold (lit "h1")
          (HoldMatching.release_hold (lit "h2") sample_holds)) = false.
Proof.
  split; [vm_compute; reflexivity|]. split; [|vm_compute; reflexivity].
  refine (proj2 (proj2 (held_iff_matches_active_hold sample_document_row
                          sample_employee sample_holds))
                (lit "h2") hold_all _ _ eq_refl eq_refl).
  - right. right. left. reflexivity.
  - vm_compute. discriminate.
Defined.

(* ===================================================================== *)
(** ** The upload wizard: files *)
(* ===================================================================== *)

Lemma accepted_valid (file : File.t) :
  accepted file = UploadPage.isValidType file && UploadPage.isValidSize file.
Proof. reflexivity. Qed.

Lemma validFile_run (file : File.t) (w : World) :
  UploadPage.validFile file w
  = (Return (accepted file),
     mkWorld (db w) (calls w)
             (ui w ++ if accepted file then [] else [rejectionToast file])).
Proof.
  rewrite accepted_valid. unfold UploadPage.validFile, rejectionToast.
  destruct (UploadPage.isValidType file); destruct (UploadPage.isValidSize file);
    cbn; try reflexivity.
  all: rewrite app_nil_r; destruct w; reflexivity.
Qed.

Lemma array_filter_run (l : list File.t) (w : World) :
  UploadPage.array_filter UploadPage.validFile l w
  = (Return (filter accepted l),
     mkWorld (db w) (calls w)
             (ui w ++ List.map rejectionToast (filter (fun f => negb (accepted f)) l))).
Proof.
  revert w. induction l as [|file l IH]; intro w; simpl.
  - unfold ret. rewrite app_nil_r. destruct w; reflexivity.
  - unfold bind at 1. rewrite validFile_run.
    unfold bind at 1. rewrite IH. unfold ret. simpl.
    destruct (accepted file); simpl.
    + rewrite app_nil_r. reflexivity.
    + rewrite <- app_assoc. reflexivity.
Qed.

Lemma handleFiles_run (url : File.t -> text) (l : list File.t)
  (pg : UploadPage.Page) (w : World) :
  UploadPage.handleFiles url l pg w
  = (Return (UploadPage.setFiles
               (UploadPage.files pg ++ List.map (addPreview url) (filter accepted l)) pg),
     mkWorld (db w) (calls w)
             (ui w ++ List.map rejectionToast (filter (fun f => negb (accepted f)) l))).
Proof.
  unfold UploadPage.handleFiles, bind. rewrite array_filter_run. reflexivity.
Qed.

(** Every candidate that [handleFiles] leaves out is reported in one toast
    that names it, in the order of the candidates: "Invalid file type" when
    the type is wrong (whatever the size), "File too large" otherwise. The
    candidates it keeps are not reported, and nothing is sent to the
    database. *)
Theorem handleFiles_reports_rejected :
  forall (url : File.t -> text) (l : list File.t) (pg : UploadPage.Page) (w : World),
    snd (UploadPage.handleFiles url l pg w)
    = mkWorld (db w) (calls w)
        (ui w ++ List.map rejectionToast (filter (fun f => negb (accepted f)) l))
    /\ (forall f, UploadPage.isValidType f = false ->
                  rejectionToast f
                  = toast (mkToast (lit "Invalid file type")
                             (File.name f ++ lit " is not a PDF or image file") true))
    /\ (forall f, UploadPage.isValidType f = true ->
                  rejectionToast f
                  = toast (mkToast (lit "File too large")
                             (File.name f ++ lit " exceeds 10MB limit") true)).
Proof.
  intros url l pg w. split; [now rewrite handleFiles_run|].
  split; intros f Hf; unfold rejectionToast; now rewrite Hf.
Qed.

(** Adding files in two batches is adding them in one: the page and the
    toasts are the same. *)
Theorem handleFiles_batches :
  forall (url : File.t -> text) (l1 l2 : list File.t) (pg : UploadPage.Page) (w : World),
    match UploadPage.handleFiles url l1 pg w with
    | (Return pg1, w1) => UploadPage.handleFiles url l2 pg1 w1
    | (Throw e, w1) => (Throw e, w1)
    end
    = UploadPage.handleFiles url (l1 ++ l2) pg w.
Proof.
  intros url l1 l2 pg w. rewrite !handleFiles_run. simpl.
  rewrite !filter_app, !map_app, !app_assoc. reflexivity.
Qed.

Lemma filter_index_above {A : Type} (l : list A) (m j : nat) :
  (j < m)%nat -> filter_index (fun i => negb (Nat.eqb i j)) m l = l.
Proof.
  revert m. induction l as [|z l IH]; intros m Hj; cbn [filter_index]; [reflexivity|].
  replace (Nat.eqb m j) with false by (symmetry; apply Nat.eqb_neq; lia).
  cbn [negb]. f_equal. apply IH. lia.
Qed.

Lemma filter_index_remove {A : Type} (l : list A) (n k : nat) :
  filter_index (fun i => negb (Nat.eqb i (k + n))) k l = firstn n l ++ skipn (S n) l.
Proof.
  revert n k. induction l as [|x l IH]; intros n k; cbn [filter_index].
  - now destruct n.
  - destruct n as [|n].
    + rewrite Nat.add_0_r, Nat.eqb_refl. cbn [negb firstn skipn app].
      apply filter_index_above. lia.
    + replace (Nat.eqb k (k + S n)) with false
        by (symmetry; apply Nat.eqb_neq; lia).
      cbn [negb firstn skipn app]. f_equal.
      replace (k + S n)%nat with (S k + n)%nat by lia. apply IH.
Qed.

(** [removeFile] with a file at [index] takes out that file and no other,
    keeps the order of the rest, and revokes the preview address of the
    file if it has one; with no file at [index] it throws and changes
    nothing. *)
Theorem removeFile_removes_one :
  forall (index : nat) (pg : UploadPage.Page),
    match nth_error (UploadPage.files pg) index with
    | Some file =>
        exists revoked,
          UploadWizard.removeFile index pg
          = Return (revoked,
                    UploadPage.setFiles
                      (firstn index (UploadPage.files pg)
                       ++ skipn (S index) (UploadPage.files pg)) pg)
          /\ (forall url, In url revoked <-> File.preview file = Some url /\ url <> [])
          /\ S (List.length (firstn index (UploadPage.files pg)
                             ++ skipn (S index) (UploadPage.files pg)))
             = List.length (UploadPage.files pg)
    | None => UploadWizard.removeFile index pg = Throw TypeError
    end.
Proof.
  intros index pg. unfold UploadWizard.removeFile.
  destruct (nth_error (UploadPage.files pg) index) as [file|] eqn:E; [|reflexivity].
  eexists. split; [|split].
  - rewrite <- (filter_index_remove (UploadPage.files pg) index 0). reflexivity.
  - intro url. destruct (File.preview file) as [u|]; simpl.
    + destruct u as [|c u]; simpl.
      * split; [intros []|]. intros [H1 H2]. injection H1 as <-. congruence.
      * split.
        -- intros [<-|[]]. split; [reflexivity | discriminate].
        -- intros [H1 _]. injection H1 as <-. now left.
    + split; [intros [] | intros [H _]; discriminate H].
  - assert (Hlt : (index < List.length (UploadPage.files pg))%nat).
    { apply nth_error_Some. congruence. }
    rewrite length_app, length_firstn, length_skipn. lia.
Qed.

Lemma remove_last {A : Type} (l : list A) (x : A) :
  firstn (List.length l) (l ++ [x]) ++ skipn (S (List.length l)) (l ++ [x]) = l.
Proof. induction l as [|y l IH]; simpl; [reflexivity|]. now f_equal. Qed.

(** Adding one file that is kept and then removing the last file gives back
    the page as it was. *)
Theorem add_then_remove_restores :
  forall (url : File.t -> text) (f : File.t) (pg : UploadPage.Page) (w : World),
    accepted f = true ->
    exists pg1 w1 revoked,
      UploadPage.handleFiles url [f] pg w = (Return pg1, w1)
      /\ UploadWizard.removeFile (List.length (UploadPage.files pg)) pg1
         = Return (revoked, pg).
Proof.
  intros url f pg w Hf. rewrite handleFiles_run. simpl. rewrite Hf. simpl.
  eexists. eexists. eexists. split; [reflexivity|].
  unfold UploadWizard.removeFile. simpl.
  rewrite nth_error_app2, Nat.sub_diag by lia. simpl.
  pose proof (filter_index_remove (UploadPage.files pg ++ [addPreview url f])
                (List.length (UploadPage.files pg)) 0) as E.
  cbn [Nat.add] in E. rewrite E, remove_last.
  destruct pg; reflexivity.
Qed.

(* ===================================================================== *)
(** ** The upload wizard: submitting *)
(* ===================================================================== *)

(** [handleSubmit] in full: what it returns and the world it leaves. *)
Lemma handleSubmit_outcome (env : Env) (pg : UploadPage.Page) (w : World) :
  let row := submitted_row env pg w in
  let sent := calls w ++ [select_employees_by_email (lit "john.doe@company.com");
                          insert_documents
                            (UploadPage.documentPayload (submitter env w) pg)] in
  UploadPage.handleSubmit env pg w
  = if insert_refused env pg w
    then (Return pg, mkWorld (db w) sent (ui w ++ [submit_failed_toast]))
    else (Return (UploadPage.setStep 4
                    (UploadPage.setSubmissionId (Document.id row) pg)),
          mkWorld
            (mkDB (employees (db w)) (documents (db w) ++ [row]) (legal_holds (db w))
                  (if log_refused env w then activity_logs (db w)
                   else activity_logs (db w)
                        ++ [ActivityLog.row (log_id env) (server_now env)
                              (UploadPage.submittedEntry (Document.id row))])
                  (retention_policies (db w)))
            (sent ++ [insert_activity_logs (UploadPage.submittedEntry (Document.id row))])
            (ui w ++ [submit_success_toast])).
Proof.
  unfold insert_refused, log_refused, submitted_row, submitter,
    submit_failed_toast, submit_success_toast.
  unfold UploadPage.handleSubmit. unfold_client.
  destruct (select_error env); simpl;
    destruct (write_error env); simpl; rewrite <- ?app_assoc; simpl; try reflexivity.
  all: match goal with
       | |- context [existsb ?f (documents ?d)] =>
           destruct (existsb f (documents d)); simpl; try reflexivity
       end.
  all: match goal with
       | |- context [negb (employee_fk_ok ?d ?r)] =>
           destruct (negb (employee_fk_ok d r)); simpl; try reflexivity
       end.
  all: destruct (log_error env); simpl; rewrite <- ?app_assoc; simpl; try reflexivity.
  all: match goal with
       | |- context [existsb ?f (activity_logs ?d)] =>
           destruct (existsb f (activity_logs d)); simpl;
           rewrite <- ?app_assoc; reflexivity
       end.
Qed.

Lemma submitted_row_employee (env : Env) (pg : UploadPage.Page) (w : World) :
  Document.employee_id (submitted_row env pg w) = Some (submitter env w).
Proof. reflexivity. Qed.

Lemma submitted_row_id (env : Env) (pg : UploadPage.Page) (w : World) :
  Document.id (submitted_row env pg w) = new_id env.
Proof. reflexivity. Qed.

(** [handleSubmit] creates one document or changes nothing. When it creates
    none it sends no audit entry, shows "Submission failed" and leaves the
    wizard where it was; when it creates one, the wizard moves to its last
    step with the id of the document, and "Success!" is shown. *)
Theorem submit_all_or_nothing :
  forall (env : Env) (pg : UploadPage.Page) (w : World),
    let r := UploadPage.handleSubmit env pg w in
    (db (snd r) = db w
     /\ fst r = Return pg
     /\ ui (snd r) = ui w ++ [submit_failed_toast]
     /\ exists new, calls (snd r) = calls w ++ new
                    /\ forall p, ~ In (insert_activity_logs p) new)
    \/ (documents (db (snd r)) = documents (db w) ++ [submitted_row env pg w]
        /\ fst r = Return (UploadPage.setStep 4
                             (UploadPage.setSubmissionId (new_id env) pg))
        /\ ui (snd r) = ui w ++ [submit_success_toast]).
Proof.
  intros env pg w r. subst r. rewrite handleSubmit_outcome.
  destruct (insert_refused env pg w); simpl.
  - left. repeat split; try reflexivity.
    eexists. split; [reflexivity|].
    intros p [H|[H|[]]]; discriminate H.
  - right. repeat split; reflexivity.
Qed.

(** Only the first file of the wizard reaches the database: with further
    files on the page [handleSubmit] sends the same requests and leaves the
    same database, and the document it creates carries the name and the size
    of the first file. *)
Theorem submit_uses_first_file :
  forall (env : Env) (pg : UploadPage.Page) (w : World) (f : File.t) (rest : list File.t),
    snd (UploadPage.handleSubmit env (UploadPage.setFiles (f :: rest) pg) w)
    = snd (UploadPage.handleSubmit env (UploadPage.setFiles [f] pg) w)
    /\ Document.file_name (submitted_row env (UploadPage.setFiles (f :: rest) pg) w)
       = Some (str_or (File.name f) (lit "document.pdf"))
    /\ Document.file_size (submitted_row env (UploadPage.setFiles (f :: rest) pg) w)
       = Some (File.size f).
Proof.
  intros env pg w f rest. split; [|split; reflexivity].
  rewrite !handleSubmit_outcome.
  change (submitted_row env (UploadPage.setFiles (f :: rest) pg) w)
    with (submitted_row env (UploadPage.setFiles [f] pg) w).
  change (insert_refused env (UploadPage.setFiles (f :: rest) pg) w)
    with (insert_refused env (UploadPage.setFiles [f] pg) w).
  change (UploadPage.documentPayload (submitter env w)
            (UploadPage.setFiles (f :: rest) pg))
    with (UploadPage.documentPayload (submitter env w) (UploadPage.setFiles [f] pg)).
  destruct (insert_refused env (UploadPage.setFiles [f] pg) w); reflexivity.
Qed.

Lemma submitter_cases (env : Env) (w : World) :
  submitter env w = UploadPage.fallbackEmployeeId
  \/ (select_error env = false
      /\ exists e,
           filter (fun r => str_eqb (Employee.email r) (lit "john.doe@company.com"))
                  (employees (db w)) = [e]
           /\ Employee.id e <> []
           /\ submitter env w = Employee.id e).
Proof.
  unfold submitter, UploadPage.employeeIdOf.
  destruct (select_error env); [now left|].
  destruct (filter _ (employees (db w))) as [|e [|e' l]]; simpl; try now left.
  destruct (Employee.id e) as [|c i] eqn:E; [now left|].
  right. split; [reflexivity|]. exists e. rewrite E. repeat split. discriminate.
Qed.

(** While no employee has the id 11111111-1111-1111-1111-111111111111, the
    wizard creates a document only if the lookup goes through and exactly
    one employee has the address john.doe@company.com; the document then
    belongs to that employee. *)
Theorem submit_needs_employee :
  forall (env : Env) (pg : UploadPage.Page) (w : World),
    existsb (fun x => str_eqb (Employee.id x) UploadPage.fallbackEmployeeId)
            (employees (db w)) = false ->
    documents (db (snd (UploadPage.handleSubmit env pg w))) <> documents (db w) ->
    select_error env = false
    /\ exists e,
         filter (fun r => str_eqb (Employee.email r) (lit "john.doe@company.com"))
                (employees (db w)) = [e]
         /\ documents (db (snd (UploadPage.handleSubmit env pg w)))
            = documents (db w) ++ [submitted_row env pg w]
         /\ Document.employee_id (submitted_row env pg w) = Some (Employee.id e).
Proof.
  intros env pg w Hfb Hch. rewrite handleSubmit_outcome in Hch |- *.
  destruct (insert_refused env pg w) eqn:Er; cbn [snd db documents] in Hch |- *;
    [contradiction|].
  unfold insert_refused in Er. apply orb_false_iff in Er as [_ Hfk].
  apply negb_false_iff in Hfk. unfold employee_fk_ok in Hfk.
  rewrite submitted_row_employee in Hfk.
  destruct (submitter_cases env w) as [E|[Hs [e [Hf [_ E]]]]].
  - rewrite E in Hfk. congruence.
  - split; [exact Hs|]. exists e. split; [exact Hf|]. split; [reflexivity|].
    rewrite submitted_row_employee. now rewrite E.
Qed.

(** The history page lists a document the wizard created exactly when the
    wizard fell back to the id 11111111-1111-1111-1111-111111111111; a
    document submitted for the employee found by the address
    john.doe@company.com, whose id is another one, is not listed. *)
Theorem submitted_document_in_history :
  forall (env : Env) (pg : UploadPage.Page) (w : World),
    let w' := snd (UploadPage.handleSubmit env pg w) in
    documents (db w') = documents (db w) ++ [submitted_row env pg w] ->
    (In (submitted_row env pg w) (HistoryPage.matchingRows (db w'))
     <-> submitter env w = UploadPage.fallbackEmployeeId)
    /\ (forall e,
          select_error env = false ->
          filter (fun r => str_eqb (Employee.email r) (lit "john.doe@company.com"))
                 (employees (db w)) = [e] ->
          Employee.id e <> [] ->
          Employee.id e <> UploadPage.fallbackEmployeeId ->
          ~ In (submitted_row env pg w) (HistoryPage.matchingRows (db w'))).
Proof.
  intros env pg w w' Hd.
  assert (Hiff : In (submitted_row env pg w) (HistoryPage.matchingRows (db w'))
                 <-> submitter env w = UploadPage.fallbackEmployeeId).
  { unfold HistoryPage.matchingRows. rewrite filter_In, Hd. cbv beta.
    rewrite submitted_row_employee.
    change (opt_str_eqb (Some (submitter env w))
              (Some (lit "11111111-1111-1111-1111-111111111111")))
      with (str_eqb (submitter env w) UploadPage.fallbackEmployeeId).
    rewrite str_eqb_eq.
    split; [intros [_ H]; exact H|].
    intro H. split; [|exact H]. apply in_or_app. right. now left. }
  split; [exact Hiff|].
  intros e Hs Hf Hne Hnf Hin. apply Hiff in Hin.
  unfold submitter, UploadPage.employeeIdOf in Hin. rewrite Hs, Hf in Hin. simpl in Hin.
  unfold str_or in Hin. destruct (Employee.id e); simpl in Hin; congruence.
Qed.

(* ===================================================================== *)
(** ** The upload wizard: a visit *)
(* ===================================================================== *)

Lemma accepted_addPreview (url : File.t -> text) (f : File.t) :
  accepted (addPreview url f) = accepted f.
Proof. unfold addPreview. now destruct (startsWith (File.type f) (lit "image/")). Qed.

Lemma filter_index_Forall {A : Type} (P : A -> Prop) (keep : nat -> bool) (l : list A) :
  forall i, Forall P l -> Forall P (filter_index keep i l).
Proof.
  induction l as [|x l IH]; intros i H; cbn [filter_index]; [constructor|].
  inversion H; subst. destruct (keep i); [constructor|]; auto.
Qed.

(** A control keeps what the wizard keeps true of its page, and sends
    nothing to the database. *)
Lemma dispatch_ok (url : File.t -> text) (ev : UploadWizard.Event)
  (pg : UploadPage.Page) (w : World) :
  wizard_ok pg ->
  exists pg' w',
    UploadWizard.dispatch url ev pg w = (Return pg', w')
    /\ wizard_ok pg'
    /\ db w' = db w
    /\ calls w' = calls w.
Proof.
  intros [Hall Hne]. unfold UploadWizard.dispatch.
  destruct ev; unfold ret.
  1-5, 9-11:
    match goal with
    | |- context [if ?b then _ else _] => destruct b eqn:Eb
    end;
    (eexists; eexists; split; [reflexivity|]; split; [|split; reflexivity]);
    (split; [exact Hall|]); cbn; try exact Hne; try (intro; discriminate).
  - (* continueToReview *)
    intros _. apply andb_true_iff in Eb as [_ Hl]. apply negb_true_iff in Hl.
    apply Nat.eqb_neq in Hl. intro E. rewrite E in Hl. now apply Hl.
  - (* dropFiles *)
    destruct (UploadPage.step pg =? 2) eqn:Eb.
    + unfold UploadWizard.handleDrop. rewrite handleFiles_run.
      eexists; eexists; split; [reflexivity|]; split; [|split; reflexivity].
      apply Z.eqb_eq in Eb. split; cbn.
      * apply Forall_app. split; [exact Hall|]. apply Forall_forall.
        intros f Hf. apply in_map_iff in Hf as [f0 [<- Hf0]].
        rewrite accepted_addPreview. now apply filter_In in Hf0.
      * intro H3. congruence.
    + eexists; eexists; split; [reflexivity|]; split; [|split; reflexivity].
      now split.
  - (* browseFiles *)
    destruct (UploadPage.step pg =? 2) eqn:Eb;
      [destruct targetFiles as [l|]|].
    + unfold UploadWizard.handleFileInput. rewrite handleFiles_run.
      eexists; eexists; split; [reflexivity|]; split; [|split; reflexivity].
      apply Z.eqb_eq in Eb. split; cbn.
      * apply Forall_app. split; [exact Hall|]. apply Forall_forall.
        intros f Hf. apply in_map_iff in Hf as [f0 [<- Hf0]].
        rewrite accepted_addPreview. now apply filter_In in Hf0.
      * intro H3. congruence.
    + eexists; eexists; split; [reflexivity|]; split; [|split; reflexivity].
      now split.
    + eexists; eexists; split; [reflexivity|]; split; [|split; reflexivity].
      now split.
  - (* clickRemove *)
    destruct (UploadPage.step pg =? 2) eqn:Eb.
    + unfold UploadWizard.removeFile.
      destruct (nth_error (UploadPage.files pg) index);
        (eexists; eexists; split; [reflexivity|]; split; [|split; reflexivity]).
      * apply Z.eqb_eq in Eb. split; cbn.
        -- now apply filter_index_Forall.
        -- intro H3. congruence.
      * now split.
    + eexists; eexists; split; [reflexivity|]; split; [|split; reflexivity].
      now split.
Qed.

(** [handleSubmit] from its first [await] to its second. *)
Lemma resume_employee (env : Env) (clicked pg : UploadPage.Page) (w : World) :
  UploadWizard.resume env (UploadWizard.awaitEmployee clicked) pg w
  = (Return (pg, Some (UploadWizard.awaitDocument clicked (submitter env w))),
     mkWorld (db w)
             (calls w ++ [select_employees_by_email (lit "john.doe@company.com")])
             (ui w)).
Proof.
  unfold UploadWizard.resume, submitter. unfold_client.
  destruct (select_error env); reflexivity.
Qed.

(** From its second [await] to its third, or to its end in the [catch]. *)
Lemma resume_document (env : Env) (clicked pg : UploadPage.Page) (employeeId : uuid)
  (w : World) :
  let row := asked_row env clicked employeeId in
  let sent := calls w ++ [insert_documents (UploadPage.documentPayload employeeId clicked)] in
  UploadWizard.resume env (UploadWizard.awaitDocument clicked employeeId) pg w
  = if asked_refused env clicked employeeId w
    then (Return (pg, None), mkWorld (db w) sent (ui w ++ [submit_failed_toast]))
    else (Return (pg, Some (UploadWizard.awaitLog row)),
          mkWorld (mkDB (employees (db w)) (documents (db w) ++ [row])
                        (legal_holds (db w)) (activity_logs (db w))
                        (retention_policies (db w)))
                  sent (ui w)).
Proof.
  unfold asked_refused, asked_row, submit_failed_toast.
  unfold UploadWizard.resume. unfold_client.
  destruct (write_error env); simpl; try reflexivity.
  match goal with
  | |- context [existsb ?f (documents ?d)] =>
      destruct (existsb f (documents d)); simpl; try reflexivity
  end.
  match goal with
  | |- context [negb (employee_fk_ok ?d ?r)] =>
      destruct (negb (employee_fk_ok d r)); simpl; reflexivity
  end.
Qed.

(** From its third [await] to its end. *)
Lemma resume_log (env : Env) (docData : Document.t) (pg : UploadPage.Page) (w : World) :
  UploadWizard.resume env (UploadWizard.awaitLog docData) pg w
  = (Return (UploadPage.setStep 4 (UploadPage.setSubmissionId (Document.id docData) pg),
             None),
     mkWorld (mkDB (employees (db w)) (documents (db w)) (legal_holds (db w))
                   (if log_refused env w then activity_logs (db w)
                    else activity_logs (db w)
                         ++ [ActivityLog.row (log_id env) (server_now env)
                               (UploadPage.submittedEntry (Document.id docData))])
                   (retention_policies (db w)))
             (calls w ++ [insert_activity_logs
                            (UploadPage.submittedEntry (Document.id docData))])
             (ui w ++ [submit_success_toast])).
Proof.
  unfold log_refused, submit_success_toast.
  unfold UploadWizard.resume. unfold_client.
  destruct (log_error env); simpl; [destruct w as [[] ? ?]; reflexivity|].
  match goal with
  | |- context [existsb ?f (activity_logs ?d)] =>
      destruct (existsb f (activity_logs d)); simpl;
      [destruct w as [[] ? ?]; reflexivity | reflexivity]
  end.
Qed.

Lemma asked_row_wizard (env : Env) (clicked : UploadPage.Page) (employeeId : uuid) :
  Forall (fun f => accepted f = true) (UploadPage.files clicked) ->
  UploadPage.files clicked <> [] ->
  wizard_document (asked_row env clicked employeeId).
Proof.
  intros Hall Hne. split; [reflexivity|].
  destruct (UploadPage.files clicked) as [|f rest] eqn:E; [contradiction|].
  exists (File.size f). split.
  - unfold asked_row, UploadPage.documentPayload. rewrite E. reflexivity.
  - inversion Hall as [|? ? Hf _]; subst. unfold accepted in Hf.
    apply andb_true_iff in Hf as [_ Hs]. now apply Z.leb_le.
Qed.

(** One step of a run: it keeps what holds of the page and of the run, and
    it adds no document, or one as the wizard creates them, which it does
    once. *)
Lemma resume_ok (env : Env) (s : UploadWizard.Submission) (pg : UploadPage.Page)
  (w : World) :
  wizard_ok pg -> submission_ok s ->
  exists pg' next w' added,
    UploadWizard.resume env s pg w = (Return (pg', next), w')
    /\ wizard_ok pg'
    /\ match next with Some s' => submission_ok s' | None => True end
    /\ documents (db w') = documents (db w) ++ added
    /\ Forall wizard_document added
    /\ (List.length added + waits next <= waits (Some s))%nat.
Proof.
  intros Hok Hs. destruct s as [clicked|clicked employeeId|docData].
  - rewrite resume_employee.
    eexists; eexists; eexists; exists [].
    split; [reflexivity|]. split; [exact Hok|]. split; [exact Hs|].
    split; [now rewrite app_nil_r|]. split; [constructor|]. simpl. lia.
  - rewrite resume_document. destruct Hs as [Hall Hne].
    destruct (asked_refused env clicked employeeId w).
    + eexists; eexists; eexists; exists [].
      split; [reflexivity|]. split; [exact Hok|]. split; [exact I|].
      split; [now rewrite app_nil_r|]. split; [constructor|]. simpl. lia.
    + eexists; eexists; eexists; exists [asked_row env clicked employeeId].
      split; [reflexivity|]. split; [exact Hok|]. split; [exact I|].
      split; [reflexivity|].
      split; [constructor; [now apply asked_row_wizard | constructor]|]. simpl. lia.
  - rewrite resume_log.
    eexists; eexists; eexists; exists [].
    split; [reflexivity|]. split.
    { destruct Hok as [Hall _]. split; [exact Hall | intro H; discriminate H]. }
    split; [exact I|]. split; [now rewrite app_nil_r|]. split; [constructor|].
    simpl. lia.
Qed.

Lemma went_on_split (k : nat) (next : option UploadWizard.Submission)
  (runs : list UploadWizard.Submission) (s : UploadWizard.Submission) :
  nth_error runs k = Some s ->
  exists l1 l2,
    runs = l1 ++ s :: l2
    /\ UploadWizard.went_on k next runs
       = l1 ++ match next with Some s' => [s'] | None => [] end ++ l2.
Proof.
  intro H. apply nth_error_split in H as [l1 [l2 [E Hl]]].
  exists l1, l2. split; [exact E|]. unfold UploadWizard.went_on. subst runs k.
  rewrite firstn_app, Nat.sub_diag, firstn_all. cbn [firstn]. rewrite app_nil_r.
  replace (S (List.length l1)) with (List.length l1 + 1)%nat by lia.
  rewrite skipn_app, skipn_all2 by lia.
  replace (List.length l1 + 1 - List.length l1)%nat with 1%nat by lia.
  reflexivity.
Qed.

Lemma waiting_app (l1 l2 : list UploadWizard.Submission) :
  waiting (l1 ++ l2) = (waiting l1 + waiting l2)%nat.
Proof. unfold waiting. now rewrite filter_app, length_app. Qed.

Lemma waiting_went_on (k : nat) (next : option UploadWizard.Submission)
  (runs : list UploadWizard.Submission) (s : UploadWizard.Submission) :
  nth_error runs k = Some s ->
  (waiting (UploadWizard.went_on k next runs) + waits (Some s)
   = waiting runs + waits next)%nat.
Proof.
  intro H. destruct (went_on_split k next runs s H) as [l1 [l2 [E ->]]]. subst runs.
  rewrite !waiting_app.
  change (s :: l2) with ([s] ++ l2). rewrite waiting_app.
  assert (E1 : waiting [s] = waits (Some s)).
  { unfold waiting, waits. simpl. now destruct (before_insert s). }
  assert (E2 : waiting (match next with Some s' => [s'] | None => [] end) = waits next).
  { unfold waiting, waits. destruct next as [s'|]; simpl; [|reflexivity].
    now destruct (before_insert s'). }
  rewrite E1, E2. lia.
Qed.

Lemma went_on_ok (k : nat) (next : option UploadWizard.Submission)
  (runs : list UploadWizard.Submission) (s : UploadWizard.Submission) :
  nth_error runs k = Some s ->
  Forall submission_ok runs ->
  match next with Some s' => submission_ok s' | None => True end ->
  Forall submission_ok (UploadWizard.went_on k next runs).
Proof.
  intros H Hall Hn. destruct (went_on_split k next runs s H) as [l1 [l2 [E ->]]].
  subst runs. apply Forall_app in Hall as [H1 H2]. inversion H2; subst.
  apply Forall_app. split; [exact H1|]. apply Forall_app. split; [|assumption].
  destruct next; constructor; [exact Hn | constructor].
Qed.

(** One action of a visit. *)
Lemma act_ok (env : Env) (url : File.t -> text) (a : UploadWizard.Action)
  (v : UploadWizard.Visit) (w : World) :
  wizard_ok (UploadWizard.page v) ->
  Forall submission_ok (UploadWizard.pending v) ->
  exists v' w' added,
    UploadWizard.act env url a v w = (Return v', w')
    /\ wizard_ok (UploadWizard.page v')
    /\ Forall submission_ok (UploadWizard.pending v')
    /\ documents (db w') = documents (db w) ++ added
    /\ Forall wizard_document added
    /\ (List.length added + waiting (UploadWizard.pending v')
        <= waiting (UploadWizard.pending v) + clicks a)%nat.
Proof.
  intros Hok Hall. destruct a as [ev| |k]; unfold UploadWizard.act.
  - destruct (dispatch_ok url ev (UploadWizard.page v) w Hok) as [pg' [w' [E [Hok' [Hd _]]]]].
    unfold bind. rewrite E. unfold ret.
    eexists; eexists; exists []. split; [reflexivity|].
    split; [exact Hok'|]. split; [exact Hall|].
    split; [now rewrite app_nil_r, Hd|]. split; [constructor|]. simpl. lia.
  - unfold ret. destruct (UploadPage.step (UploadWizard.page v) =? 3) eqn:E3.
    + apply Z.eqb_eq in E3.
      eexists; eexists; exists []. split; [reflexivity|].
      split; [exact Hok|]. split.
      { cbn. apply Forall_app. split; [exact Hall|]. constructor; [|constructor].
        destruct Hok as [Hf Hne]. split; [exact Hf | now apply Hne]. }
      split; [now rewrite app_nil_r|]. split; [constructor|].
      cbn [UploadWizard.pending clicks]. unfold waiting.
      rewrite filter_app, length_app. simpl. lia.
    + eexists; eexists; exists []. split; [reflexivity|].
      split; [exact Hok|]. split; [exact Hall|].
      split; [now rewrite app_nil_r|]. split; [constructor|]. simpl. lia.
  - destruct (nth_error (UploadWizard.pending v) k) as [s|] eqn:En.
    + assert (Hs : submission_ok s).
      { apply nth_error_In in En. rewrite Forall_forall in Hall. now apply Hall. }
      destruct (resume_ok env s (UploadWizard.page v) w Hok Hs)
        as [pg' [next [w' [added [E [Hok' [Hn [Hd [Hw Hle]]]]]]]]].
      unfold bind. rewrite E. unfold ret.
      eexists; eexists; exists added. split; [reflexivity|].
      split; [exact Hok'|]. split; [now apply (went_on_ok k next _ s)|].
      split; [exact Hd|]. split; [exact Hw|].
      cbn [UploadWizard.pending fst snd].
      pose proof (waiting_went_on k next _ s En). simpl clicks. lia.
    + unfold ret. eexists; eexists; exists []. split; [reflexivity|].
      split; [exact Hok|]. split; [exact Hall|].
      split; [now rewrite app_nil_r|]. split; [constructor|]. simpl. lia.
Qed.

Lemma submit_clicks_cons (env : Env) (a : UploadWizard.Action)
  (acts : list (Env * UploadWizard.Action)) :
  UploadWizard.submit_clicks ((env, a) :: acts)
  = (clicks a + UploadWizard.submit_clicks acts)%nat.
Proof. unfold UploadWizard.submit_clicks. destruct a; reflexivity. Qed.

Lemma visit_documents (url : File.t -> text) (acts : list (Env * UploadWizard.Action))
  (v : UploadWizard.Visit) (w : World) :
  wizard_ok (UploadWizard.page v) ->
  Forall submission_ok (UploadWizard.pending v) ->
  exists added,
    documents (db (snd (UploadWizard.session url acts v w))) = documents (db w) ++ added
    /\ Forall wizard_document added
    /\ (List.length added
        <= waiting (UploadWizard.pending v) + UploadWizard.submit_clicks acts)%nat.
Proof.
  revert v w. induction acts as [|[env a] acts IH]; intros v w Hok Hall.
  - exists []. simpl. rewrite app_nil_r. split; [reflexivity|].
    split; [constructor | lia].
  - destruct (act_ok env url a v w Hok Hall)
      as [v' [w' [a1 [E [Hok' [Hall' [Hd [Hw Hle]]]]]]]].
    cbn [UploadWizard.session]. rewrite E.
    destruct (IH v' w' Hok' Hall') as [a2 [Hd2 [Hw2 Hle2]]].
    exists (a1 ++ a2). split; [now rewrite Hd2, Hd, app_assoc|].
    split; [now apply Forall_app|].
    rewrite length_app, submit_clicks_cons. lia.
Qed.

(** A visit to the upload wizard, whatever is clicked, dropped or typed,
    whatever the database answers and in whatever order its answers come:
    the documents that were there are not touched; every document the visit
    creates has the status received and a file size of at most
    10 * 1024 * 1024 bytes; and it creates at most one document for each
    click on Submit Document. *)
Theorem wizard_visit_documents :
  forall (url : File.t -> text) (acts : list (Env * UploadWizard.Action)) (w : World),
    let w' := snd (UploadWizard.session url acts UploadWizard.opened w) in
    exists added,
      documents (db w') = documents (db w) ++ added
      /\ Forall wizard_document added
      /\ (List.length added <= UploadWizard.submit_clicks acts)%nat.
Proof.
  intros url acts w w'.
  destruct (visit_documents url acts UploadWizard.opened w) as [added [H1 [H2 H3]]].
  - split; [constructor | intro H; discriminate H].
  - constructor.
  - exists added. split; [exact H1|]. split; [exact H2|exact H3].
Qed.

Lemma session_cons (url : File.t -> text) (env : Env) (a : UploadWizard.Action)
  (acts : list (Env * UploadWizard.Action)) (v v' : UploadWizard.Visit) (w w' : World) :
  UploadWizard.act env url a v w = (Return v', w') ->
  UploadWizard.session url ((env, a) :: acts) v w = UploadWizard.session url acts v' w'.
Proof. intro H. cbn [UploadWizard.session]. now rewrite H. Qed.

Lemma act_click (env : Env) (url : File.t -> text) (v : UploadWizard.Visit) (w : World) :
  UploadPage.step (UploadWizard.page v) = 3 ->
  UploadWizard.act env url UploadWizard.clickSubmit v w
  = (Return (UploadWizard.mkVisit (UploadWizard.page v)
               (UploadWizard.pending v
                ++ [UploadWizard.awaitEmployee (UploadWizard.page v)])),
     w).
Proof. intro H. unfold UploadWizard.act, ret. now rewrite H. Qed.

Lemma act_answer (env : Env) (url : File.t -> text) (k : nat) (v : UploadWizard.Visit)
  (w w' : World) (s : UploadWizard.Submission)
  (r : UploadPage.Page * option UploadWizard.Submission) :
  nth_error (UploadWizard.pending v) k = Some s ->
  UploadWizard.resume env s (UploadWizard.page v) w = (Return r, w') ->
  UploadWizard.act env url (UploadWizard.answer k) v w
  = (Return (UploadWizard.mkVisit (fst r)
               (UploadWizard.went_on k (snd r) (UploadWizard.pending v))),
     w').
Proof. intros Hn Hr. unfold UploadWizard.act, bind, ret. now rewrite Hn, Hr. Qed.

(** The Submit Document button stays enabled while a submission is under
    way. Two clicks on it before the database has answered start two runs
    of [handleSubmit] from the same page, and when the database refuses
    neither insert, both documents are created: the same employee, type,
    file name, file size and notes under two ids. The wizard ends at its
    last step showing the id of the second. *)
Theorem double_click_submits_twice :
  forall (url : File.t -> text) (env1 env2 : Env) (pg : UploadPage.Page) (w : World),
    UploadPage.step pg = 3 ->
    insert_refused env1 pg w = false ->
    insert_refused env2 pg w = false ->
    new_id env1 <> new_id env2 ->
    let acts := [ (env1, UploadWizard.clickSubmit); (env2, UploadWizard.clickSubmit);
                  (env1, UploadWizard.answer 0); (env2, UploadWizard.answer 1);
                  (env1, UploadWizard.answer 0); (env2, UploadWizard.answer 1);
                  (env1, UploadWizard.answer 0); (env2, UploadWizard.answer 0) ] in
    let r := UploadWizard.session url acts (UploadWizard.mkVisit pg []) w in
    documents (db (snd r))
    = documents (db w) ++ [submitted_row env1 pg w; submitted_row env2 pg w]
    /\ Document.id (submitted_row env1 pg w) <> Document.id (submitted_row env2 pg w)
    /\ Document.type (submitted_row env1 pg w) = Document.type (submitted_row env2 pg w)
    /\ Document.file_name (submitted_row env1 pg w)
       = Document.file_name (submitted_row env2 pg w)
    /\ Document.file_size (submitted_row env1 pg w)
       = Document.file_size (submitted_row env2 pg w)
    /\ Document.notes (submitted_row env1 pg w) = Document.notes (submitted_row env2 pg w)
    /\ UploadWizard.pending (fst r) = []
    /\ UploadWizard.page (fst r)
       = UploadPage.setStep 4 (UploadPage.setSubmissionId (new_id env2) pg).
Proof.
  intros url env1 env2 pg w H3 Hr1 Hr2 Hne acts r. subst r acts.
  erewrite session_cons by (apply act_click; exact H3).
  erewrite session_cons by (apply act_click; exact H3).
  cbn [UploadWizard.page UploadWizard.pending app].
  erewrite session_cons by (eapply act_answer; [reflexivity | apply resume_employee]).
  cbn [fst snd UploadWizard.went_on firstn skipn app UploadWizard.page
       UploadWizard.pending].
  erewrite session_cons by (eapply act_answer; [reflexivity | apply resume_employee]).
  cbn [fst snd UploadWizard.went_on firstn skipn app UploadWizard.page
       UploadWizard.pending].
  erewrite session_cons;
    [| eapply act_answer;
       [reflexivity
       | rewrite resume_document;
         change (asked_refused env1 pg (submitter env1 w) _)
           with (insert_refused env1 pg w);
         rewrite Hr1; reflexivity]].
  cbn [fst snd UploadWizard.went_on firstn skipn app UploadWizard.page
       UploadWizard.pending].
  match goal with
  | |- context [UploadWizard.awaitDocument pg ?e] =>
      match goal with
      | |- context [UploadWizard.session _ _ _ ?w1] =>
          assert (Hr : asked_refused env2 pg e w1 = false)
      end
  end.
  { unfold insert_refused in Hr2. unfold asked_refused.
    apply orb_false_iff in Hr2 as [Hr2 Hfk]. apply orb_false_iff in Hr2 as [Hwe Hex].
    cbn [db documents]. rewrite existsb_app. cbn [existsb].
    change (asked_row env2 pg _) with (submitted_row env2 pg w).
    change (asked_row env1 pg _) with (submitted_row env1 pg w).
    rewrite Hwe, Hex. cbn [orb].
    replace (str_eqb (Document.id (submitted_row env1 pg w))
                     (Document.id (submitted_row env2 pg w))) with false
      by (symmetry; apply str_eqb_neq; exact Hne).
    cbn [orb]. exact Hfk. }
  erewrite session_cons;
    [| eapply act_answer; [reflexivity | rewrite resume_document, Hr; reflexivity]].
  cbn [fst snd UploadWizard.went_on firstn skipn app UploadWizard.page
       UploadWizard.pending].
  erewrite session_cons by (eapply act_answer; [reflexivity | apply resume_log]).
  cbn [fst snd UploadWizard.went_on firstn skipn app UploadWizard.page
       UploadWizard.pending].
  erewrite session_cons by (eapply act_answer; [reflexivity | apply resume_log]).
  cbn [fst snd UploadWizard.went_on firstn skipn app UploadWizard.page
       UploadWizard.pending UploadWizard.session db documents].
  split; [now rewrite <- app_assoc|].
  split; [exact Hne|].
  repeat split; reflexivity.
Qed.

(** A submission that nothing comes between is [handleSubmit] run in one
    go: the click and the three answers of the database, one after the
    other, leave the page and the world that [handleSubmit] leaves. *)
Theorem uninterrupted_submit :
  forall (url : File.t -> text) (env : Env) (pg : UploadPage.Page) (w : World),
    UploadPage.step pg = 3 ->
    exists pg',
      UploadPage.handleSubmit env pg w
      = (Return pg',
         snd (UploadWizard.session url
                [ (env, UploadWizard.clickSubmit); (env, UploadWizard.answer 0);
                  (env, UploadWizard.answer 0); (env, UploadWizard.answer 0) ]
                (UploadWizard.mkVisit pg []) w))
      /\ fst (UploadWizard.session url
                [ (env, UploadWizard.clickSubmit); (env, UploadWizard.answer 0);
                  (env, UploadWizard.answer 0); (env, UploadWizard.answer 0) ]
                (UploadWizard.mkVisit pg []) w)
         = UploadWizard.mkVisit pg' [].
Proof.
  intros url env pg w H3. rewrite handleSubmit_outcome.
  erewrite session_cons by (apply act_click; exact H3).
  cbn [UploadWizard.page UploadWizard.pending app].
  erewrite session_cons by (eapply act_answer; [reflexivity | apply resume_employee]).
  cbn [fst snd UploadWizard.went_on firstn skipn app UploadWizard.page
       UploadWizard.pending].
  destruct (insert_refused env pg w) eqn:Er.
  - erewrite session_cons;
      [| eapply act_answer;
         [reflexivity
         | rewrite resume_document;
           change (asked_refused env pg (submitter env w) _)
             with (insert_refused env pg w);
           rewrite Er; reflexivity]].
    cbn [fst snd UploadWizard.went_on firstn skipn app UploadWizard.page
         UploadWizard.pending UploadWizard.session UploadWizard.act nth_error].
    unfold ret. eexists. split; [|reflexivity].
    cbn [snd db calls ui]. now rewrite <- app_assoc.
  - erewrite session_cons;
      [| eapply act_answer;
         [reflexivity
         | rewrite resume_document;
           change (asked_refused env pg (submitter env w) _)
             with (insert_refused env pg w);
           rewrite Er; reflexivity]].
    cbn [fst snd UploadWizard.went_on firstn skipn app UploadWizard.page
         UploadWizard.pending].
    erewrite session_cons by (eapply act_answer; [reflexivity | apply resume_log]).
    cbn [fst snd UploadWizard.went_on firstn skipn app UploadWizard.page
         UploadWizard.pending UploadWizard.session].
    eexists. split; [|reflexivity].
    cbn [snd db calls ui employees documents legal_holds activity_logs
         retention_policies].
    unfold log_refused. cbn [db activity_logs]. now rewrite <- !app_assoc.
Qed.

(** In the sample visit the first Continue of the files step does nothing
    (no file yet), and the two clicks on Submit Document create two
    documents of the same file. *)
Example wizard_visit_sample :
  let r := UploadWizard.session sample_object_url sample_visit UploadWizard.opened
             sample_world in
  UploadPage.step (UploadWizard.page (fst r)) = 4
  /\ List.map Document.file_size (documents (db (snd r)))
     = [Some 2048; Some 4096; Some 4096]
  /\ List.map Document.type (documents (db (snd r)))
     = [Some (lit "I-9"); Some (lit "W-4"); Some (lit "W-4")]
  /\ List.map Document.id (documents (db (snd r)))
     = [sample_uuid "d1"; sample_uuid "d2"; sample_uuid "d3"].
Proof. vm_compute. repeat split; reflexivity. Qed.

(* ===================================================================== *)
(** ** The review page: what approve and reject do *)
(* ===================================================================== *)

(** [handleApprove] in full, with a document on the page. *)
Lemma handleApprove_outcome (env : Env) (pg : DocumentReviewPage.Page) (w : World)
  (doc : Document.t) :
  DocumentReviewPage.document pg = Some doc ->
  let p := DocumentReviewPage.approvePayload env pg doc in
  let sent := calls w ++ [update_documents p (Document.id doc)] in
  let pg1 := DocumentReviewPage.setProcessing true pg in
  DocumentReviewPage.handleApprove env pg w
  = if write_error env
    then (Return (DocumentReviewPage.setProcessing false pg1),
          mkWorld (db w) sent (ui w ++ [review_error_toast "Failed to approve document"]))
    else (Return (DocumentReviewPage.setProcessing false
                    (DocumentReviewPage.setShowApproveDialog false pg1)),
          mkWorld (reviewed_db env p (Document.id doc)
                               (DocumentReviewPage.approvedEntry doc) w)
                  (sent ++ [insert_activity_logs (DocumentReviewPage.approvedEntry doc)])
                  (ui w ++ [approved_toast; to_review_queue])).
Proof.
  intro Hd. unfold DocumentReviewPage.handleApprove. rewrite Hd.
  unfold reviewed_db, log_refused, review_error_toast, approved_toast, to_review_queue.
  unfold_client.
  change (assigns_employee_id (DocumentReviewPage.approvePayload env pg doc)) with false.
  destruct (write_error env); simpl; [reflexivity|].
  destruct (log_error env); simpl; rewrite <- ?app_assoc; simpl; [reflexivity|].
  destruct (existsb _ (activity_logs (db w))); simpl; rewrite <- ?app_assoc; reflexivity.
Qed.

(** [handleReject] in full, with a document on the page and a reason. *)
Lemma handleReject_outcome (env : Env) (pg : DocumentReviewPage.Page) (w : World)
  (doc : Document.t) :
  DocumentReviewPage.document pg = Some doc ->
  truthy (trim (DocumentReviewPage.rejectNotes pg)) = true ->
  let p := DocumentReviewPage.rejectPayload env pg doc in
  let sent := calls w ++ [update_documents p (Document.id doc)] in
  let pg1 := DocumentReviewPage.setProcessing true pg in
  DocumentReviewPage.handleReject env pg w
  = if write_error env
    then (Return (DocumentReviewPage.setProcessing false pg1),
          mkWorld (db w) sent (ui w ++ [review_error_toast "Failed to reject document"]))
    else (Return (DocumentReviewPage.setProcessing false
                    (DocumentReviewPage.setShowRejectDialog false pg1)),
          mkWorld (reviewed_db env p (Document.id doc)
                               (DocumentReviewPage.rejectedEntry pg doc) w)
                  (sent ++ [insert_activity_logs (DocumentReviewPage.rejectedEntry pg doc)])
                  (ui w ++ [rejected_toast; to_review_queue])).
Proof.
  intros Hd Ht. unfold DocumentReviewPage.handleReject. rewrite Hd, Ht.
  unfold reviewed_db, log_refused, review_error_toast, rejected_toast, to_review_queue.
  unfold_client.
  change (assigns_employee_id (DocumentReviewPage.rejectPayload env pg doc)) with false.
  destruct (write_error env); simpl; [reflexivity|].
  destruct (log_error env); simpl; rewrite <- ?app_assoc; simpl; [reflexivity|].
  destruct (existsb _ (activity_logs (db w))); simpl; rewrite <- ?app_assoc; reflexivity.
Qed.

Lemma not_blank_truthy (s : jsstring) : ~ blank s <-> truthy (trim s) = true.
Proof.
  rewrite <- truthy_trim. destruct (truthy (trim s)); split; intro H;
    try reflexivity; try discriminate; try (intro H'; discriminate H').
  exfalso. now apply H.
Qed.

Lemma reject_row_frame (env : Env) (pg : DocumentReviewPage.Page) (doc r : Document.t) :
  same_submission r
    (update_row env (DocumentReviewPage.rejectPayload env pg doc) (Document.id doc) r).
Proof.
  unfold update_row, same_submission.
  destruct (str_eqb (Document.id r) (Document.id doc)); cbn; repeat split; reflexivity.
Qed.

Lemma reject_row_written (env : Env) (pg : DocumentReviewPage.Page) (doc r : Document.t) :
  Document.id r = Document.id doc ->
  let r' := update_row env (DocumentReviewPage.rejectPayload env pg doc)
                       (Document.id doc) r in
  Document.status r' = Some (lit "rejected")
  /\ Document.notes r' = Some (DocumentReviewPage.rejectNotes pg)
  /\ Document.reviewed_by r' = Some DocumentReviewPage.hrReviewer
  /\ Document.reviewed_at r' = Some (client_now env)
  /\ Document.updated_at r' = Some (server_now env).
Proof.
  intro E. unfold update_row. rewrite E, str_eqb_refl. cbn. repeat split; reflexivity.
Qed.

(** A reject with a reason that is not blank, when its update goes through,
    applies to the page's document whatever status the row has by then (an
    approved row is rejected as well): the row gets the status rejected, the
    reason exactly as typed (not trimmed) as its notes, the name of who
    reviewed and the review time; the columns of the submission stay, and
    every other document is unchanged. *)
Theorem reject_overwrites_any_status :
  forall (env : Env) (pg : DocumentReviewPage.Page) (w : World) (doc : Document.t),
    DocumentReviewPage.document pg = Some doc ->
    ~ blank (DocumentReviewPage.rejectNotes pg) ->
    write_error env = false ->
    let d' := db (snd (DocumentReviewPage.handleReject env pg w)) in
    List.length (documents d') = List.length (documents (db w))
    /\ forall (n : nat) (r : Document.t),
         nth_error (documents (db w)) n = Some r ->
         exists r',
           nth_error (documents d') n = Some r'
           /\ same_submission r r'
           /\ (Document.id r <> Document.id doc -> r' = r)
           /\ (Document.id r = Document.id doc ->
               Document.status r' = Some (lit "rejected")
               /\ Document.notes r' = Some (DocumentReviewPage.rejectNotes pg)
               /\ Document.reviewed_by r' = Some DocumentReviewPage.hrReviewer
               /\ Document.reviewed_at r' = Some (client_now env)
               /\ Document.updated_at r' = Some (server_now env)).
Proof.
  intros env pg w doc Hd Hb Hw d'. subst d'.
  apply not_blank_truthy in Hb.
  rewrite (handleReject_outcome env pg w doc Hd Hb), Hw. cbn [snd db reviewed_db documents].
  split; [apply length_map|]. intros n r Hn.
  exists (update_row env (DocumentReviewPage.rejectPayload env pg doc) (Document.id doc) r).
  split; [rewrite nth_error_map, Hn; reflexivity|].
  split; [apply reject_row_frame|]. split.
  - apply update_row_other.
  - intro E. now apply reject_row_written.
Qed.

(** When the update request of an approve or of a reject fails, the
    database is as before, no audit entry is requested, the page does not
    leave for the queue and keeps its dialogs as they were, and the only
    message is the "Error" toast. *)
Theorem failed_review_changes_nothing :
  forall (env : Env) (pg : DocumentReviewPage.Page) (w : World) (doc : Document.t),
    DocumentReviewPage.document pg = Some doc ->
    write_error env = true ->
    (let r := DocumentReviewPage.handleApprove env pg w in
     db (snd r) = db w
     /\ calls (snd r)
        = calls w ++ [update_documents (DocumentReviewPage.approvePayload env pg doc)
                                       (Document.id doc)]
     /\ ui (snd r) = ui w ++ [review_error_toast "Failed to approve document"]
     /\ fst r = Return (DocumentReviewPage.setProcessing false pg))
    /\ (~ blank (DocumentReviewPage.rejectNotes pg) ->
        let r := DocumentReviewPage.handleReject env pg w in
        db (snd r) = db w
        /\ calls (snd r)
           = calls w ++ [update_documents (DocumentReviewPage.rejectPayload env pg doc)
                                          (Document.id doc)]
        /\ ui (snd r) = ui w ++ [review_error_toast "Failed to reject document"]
        /\ fst r = Return (DocumentReviewPage.setProcessing false pg)).
Proof.
  intros env pg w doc Hd Hw. split.
  - rewrite (handleApprove_outcome env pg w doc Hd), Hw. repeat split; reflexivity.
  - intro Hb. apply not_blank_truthy in Hb.
    rewrite (handleReject_outcome env pg w doc Hd Hb), Hw. repeat split; reflexivity.
Qed.

(** An approve whose page holds a document that is no longer in the table
    changes no document, and still reports "Document approved", leaves for
    the queue and, when the audit insert goes through, logs the approval of
    the missing document. *)
Theorem approve_of_missing_document :
  forall (env : Env) (pg : DocumentReviewPage.Page) (w : World) (doc : Document.t),
    DocumentReviewPage.document pg = Some doc ->
    (forall r, In r (documents (db w)) -> Document.id r <> Document.id doc) ->
    write_error env = false ->
    let w' := snd (DocumentReviewPage.handleApprove env pg w) in
    documents (db w') = documents (db w)
    /\ ui w' = ui w ++ [approved_toast; to_review_queue]
    /\ (log_refused env w = false ->
        activity_logs (db w')
        = activity_logs (db w)
          ++ [ActivityLog.row (log_id env) (server_now env)
                (DocumentReviewPage.approvedEntry doc)]).
Proof.
  intros env pg w doc Hd Hmiss Hw w'. subst w'.
  rewrite (handleApprove_outcome env pg w doc Hd), Hw.
  cbn [snd db ui reviewed_db documents activity_logs].
  split; [|split; [reflexivity|]].
  - rewrite <- (map_id (documents (db w))) at 2. apply map_ext_in.
    intros r Hr. apply update_row_other. now apply Hmiss.
  - intro Hl. now rewrite Hl.
Qed.

(** A failure of the audit insert is not noticed: for each of the four
    operations, the run in which the insert into [activity_logs] fails shows
    the same messages, sends the same requests and leaves the same documents
    and holds as the run in which it goes through; it only leaves the audit
    log without the entry. Nothing is rolled back. *)
Theorem audit_failure_is_silent :
  forall (env : Env) (op : Op) (w : World),
    let quiet := step (with_log_error env) op w in
    ui quiet = ui (step env op w)
    /\ calls quiet = calls (step env op w)
    /\ documents (db quiet) = documents (db (step env op w))
    /\ legal_holds (db quiet) = legal_holds (db (step env op w))
    /\ activity_logs (db quiet) = activity_logs (db w).
Proof.
  intros env op w quiet. subst quiet.
  destruct op as [pg|pg|pg|pg]; unfold step.
  - rewrite !handleSubmit_outcome.
    change (insert_refused (with_log_error env) pg w) with (insert_refused env pg w).
    destruct (insert_refused env pg w); repeat split; reflexivity.
  - destruct (DocumentReviewPage.document pg) as [doc|] eqn:Hd.
    + rewrite !(handleApprove_outcome _ pg w doc Hd).
      change (write_error (with_log_error env)) with (write_error env).
      destruct (write_error env); repeat split; reflexivity.
    + unfold DocumentReviewPage.handleApprove. rewrite Hd. repeat split; reflexivity.
  - destruct (DocumentReviewPage.document pg) as [doc|] eqn:Hd;
      [destruct (truthy (trim (DocumentReviewPage.rejectNotes pg))) eqn:Ht|].
    + rewrite !(handleReject_outcome _ pg w doc Hd Ht).
      change (write_error (with_log_error env)) with (write_error env).
      destruct (write_error env); repeat split; reflexivity.
    + unfold DocumentReviewPage.handleReject. rewrite Hd, Ht. repeat split; reflexivity.
    + unfold DocumentReviewPage.handleReject. rewrite Hd.
      destruct (truthy (trim (DocumentReviewPage.rejectNotes pg)));
        repeat split; reflexivity.
  - unfold NewLegalHoldPage.handleSubmit. unfold_client.
    change (write_error (with_log_error env)) with (write_error env).
    change (log_error (with_log_error env)) with true.
    change (new_id (with_log_error env)) with (new_id env).
    destruct (negb (truthy (trim (NewLegalHoldPage.title pg)))); simpl;
      [repeat split; reflexivity|].
    destruct (write_error env); simpl; [repeat split; reflexivity|].
    destruct (existsb _ (legal_holds (db w))); simpl; [repeat split; reflexivity|].
    destruct (log_error env); simpl; [repeat split; reflexivity|].
    destruct (existsb _ (activity_logs (db w))); simpl; repeat split; reflexivity.
Qed.

(* ===================================================================== *)
(** ** The review page: a session *)
(* ===================================================================== *)

Lemma rendered_document (pg : DocumentReviewPage.Page) :
  DocumentReviewPage.rendered pg = true ->
  exists doc, DocumentReviewPage.document pg = Some doc.
Proof.
  unfold DocumentReviewPage.rendered. intro H. apply andb_true_iff in H as [_ H].
  destruct (DocumentReviewPage.document pg) as [doc|]; [now exists doc | discriminate].
Qed.

Lemma dispatch_toasts (env : Env) (ev : DocumentReviewPage.Event)
  (pg : DocumentReviewPage.Page) (w : World) :
  exists pg' w' added,
    DocumentReviewPage.dispatch env ev pg w = (Return pg', w')
    /\ ui w' = ui w ++ added
    /\ forallb (fun e => negb (is_notes_required e)) added = true.
Proof.
  unfold DocumentReviewPage.dispatch.
  destruct ev; unfold ret;
    try (eexists; eexists; exists []; rewrite app_nil_r;
         split; [reflexivity|]; split; reflexivity).
  - (* confirmApproval *)
    destruct (DocumentReviewPage.rendered pg && DocumentReviewPage.showApproveDialog pg
              && negb (DocumentReviewPage.processing pg)) eqn:Eb.
    + apply andb_true_iff in Eb as [Eb _]. apply andb_true_iff in Eb as [Er _].
      destruct (rendered_document pg Er) as [doc Hd].
      rewrite (handleApprove_outcome env pg w doc Hd).
      destruct (write_error env); eexists; eexists; eexists;
        (split; [reflexivity|]); split; reflexivity.
    + eexists; eexists; exists []; rewrite app_nil_r.
      split; [reflexivity|]; split; reflexivity.
  - (* confirmRejection *)
    destruct (DocumentReviewPage.rendered pg && DocumentReviewPage.showRejectDialog pg
              && negb (DocumentReviewPage.processing pg
                       || negb (truthy (trim (DocumentReviewPage.rejectNotes pg)))))
      eqn:Eb.
    + apply andb_true_iff in Eb as [Eb Hn]. apply andb_true_iff in Eb as [Er _].
      apply negb_true_iff, orb_false_iff in Hn as [_ Hn]. apply negb_false_iff in Hn.
      destruct (rendered_document pg Er) as [doc Hd].
      rewrite (handleReject_outcome env pg w doc Hd Hn).
      destruct (write_error env); eexists; eexists; eexists;
        (split; [reflexivity|]); split; reflexivity.
    + eexists; eexists; exists []; rewrite app_nil_r.
      split; [reflexivity|]; split; reflexivity.
Qed.

(** On the review page the "Notes required" toast of [handleReject] never
    shows, from whatever state the page is in: the Confirm Rejection button
    is disabled while the reason is blank, so the guard of [handleReject]
    is not reached from the page. *)
Theorem notes_required_never_shown :
  forall (evs : list (Env * DocumentReviewPage.Event)) (pg : DocumentReviewPage.Page)
         (w : World),
    exists added,
      ui (snd (DocumentReviewPage.session evs pg w)) = ui w ++ added
      /\ forallb (fun e => negb (is_notes_required e)) added = true
      /\ is_notes_required (toast DocumentReviewPage.notesRequired) = true.
Proof.
  intros evs. induction evs as [|[env ev] evs IH]; intros pg w; simpl.
  - exists []. rewrite app_nil_r. repeat split; reflexivity.
  - destruct (dispatch_toasts env ev pg w) as [pg' [w' [a1 [E [Hu Hf]]]]].
    rewrite E. destruct (IH pg' w') as [a2 [Hu2 [Hf2 Hn]]].
    exists (a1 ++ a2). split; [|split; [|exact Hn]].
    + rewrite Hu2, Hu, app_assoc. reflexivity.
    + rewrite forallb_app, Hf, Hf2. reflexivity.
Qed.

(* ===================================================================== *)
(** ** How the database reads the id of an address *)
(* ===================================================================== *)

Lemma hexValue_hexDigit (d : N) : (d < 16)%N -> hexValue (hexDigit d) = Some d.
Proof.
  intro H.
  assert (Hd : In d [0;1;2;3;4;5;6;7;8;9;10;11;12;13;14;15]%N) by (simpl; lia).
  simpl in Hd. repeat destruct Hd as [<-|Hd]; try reflexivity. contradiction.
Qed.

Lemma hexDigit_plain (d : N) :
  (d < 16)%N ->
  N.eqb (hexDigit d) hyphen = false /\ N.eqb (hexDigit d) 123 = false.
Proof.
  intro H.
  assert (Hd : In d [0;1;2;3;4;5;6;7;8;9;10;11;12;13;14;15]%N) by (simpl; lia).
  simpl in Hd. repeat destruct Hd as [<-|Hd]; try (split; reflexivity). contradiction.
Qed.

Lemma hexValue_below (c x : N) : hexValue c = Some x -> (x < 16)%N.
Proof.
  unfold hexValue.
  destruct ((48 <=? c)%N && (c <=? 57)%N) eqn:E1.
  { apply andb_true_iff in E1 as [A B]. apply N.leb_le in A, B.
    intro H; injection H as <-. lia. }
  destruct ((97 <=? c)%N && (c <=? 102)%N) eqn:E2.
  { apply andb_true_iff in E2 as [A B]. apply N.leb_le in A, B.
    intro H; injection H as <-. lia. }
  destruct ((65 <=? c)%N && (c <=? 70)%N) eqn:E3.
  { apply andb_true_iff in E3 as [A B]. apply N.leb_le in A, B.
    intro H; injection H as <-. lia. }
  discriminate.
Qed.

Lemma uuid_bytes_digits (n : nat) :
  forall i src digits remaining,
    uuid_bytes n i src = Some (digits, remaining) ->
    List.length digits = (2 * n)%nat /\ Forall (fun d => (d < 16)%N) digits.
Proof.
  induction n as [|n IH]; intros i src digits remaining H; cbn [uuid_bytes] in H.
  - injection H as <- <-. split; [reflexivity | constructor].
  - destruct src as [|a [|b src']]; try discriminate H.
    destruct (hexValue a) as [x|] eqn:Ea; [|discriminate H].
    destruct (hexValue b) as [y|] eqn:Eb; [|discriminate H].
    match type of H with
    | match uuid_bytes n (S i) ?s with _ => _ end = _ =>
        destruct (uuid_bytes n (S i) s) as [[ds rest]|] eqn:E; [|discriminate H]
    end.
    injection H as <- <-. destruct (IH _ _ _ _ E) as [Hl Hf]. split.
    + simpl. rewrite Hl. lia.
    + constructor; [now apply (hexValue_below a)|].
      constructor; [now apply (hexValue_below b) | exact Hf].
Qed.

Lemma uuid_bytes_digit (n i : nat) (x y z : N) (t : jsstring) (ds : list N)
  (r : jsstring) :
  (x < 16)%N -> (y < 16)%N -> (z < 16)%N ->
  uuid_bytes n (S i) (hexDigit z :: t) = Some (ds, r) ->
  uuid_bytes (S n) i (hexDigit x :: hexDigit y :: hexDigit z :: t)
  = Some (x :: y :: ds, r).
Proof.
  intros Hx Hy Hz H. cbn [uuid_bytes].
  rewrite (hexValue_hexDigit x Hx), (hexValue_hexDigit y Hy).
  rewrite (proj1 (hexDigit_plain z Hz)). cbn [andb]. now rewrite H.
Qed.

Lemma uuid_bytes_hyphen (n i : nat) (x y : N) (t : jsstring) (ds : list N)
  (r : jsstring) :
  (x < 16)%N -> (y < 16)%N -> Nat.odd i = true -> Nat.ltb i 15 = true ->
  uuid_bytes n (S i) t = Some (ds, r) ->
  uuid_bytes (S n) i (hexDigit x :: hexDigit y :: hyphen :: t) = Some (x :: y :: ds, r).
Proof.
  intros Hx Hy Ho Hl H. cbn [uuid_bytes].
  rewrite (hexValue_hexDigit x Hx), (hexValue_hexDigit y Hy).
  rewrite N.eqb_refl, Ho, Hl. cbn [andb]. now rewrite H.
Qed.

Lemma uuid_bytes_last (i : nat) (x y : N) :
  (x < 16)%N -> (y < 16)%N ->
  uuid_bytes 1 i [hexDigit x; hexDigit y] = Some ([x; y], []).
Proof.
  intros Hx Hy. cbn [uuid_bytes].
  now rewrite (hexValue_hexDigit x Hx), (hexValue_hexDigit y Hy).
Qed.

(** The text printed for 32 digits reads as these digits. *)
Lemma uuid_digits_out (digits : list N) :
  List.length digits = 32%nat ->
  Forall (fun d => (d < 16)%N) digits ->
  uuid_digits (uuid_out digits) = Some digits.
Proof.
  intros Hl Hf.
  do 33 (destruct digits as [|? digits]; try discriminate Hl).
  repeat match goal with
         | H : Forall _ (_ :: _) |- _ => inversion H; clear H; subst
         end.
  unfold uuid_out. cbn [firstn skipn List.map app].
  unfold uuid_digits. cbn [tl].
  match goal with
  | H : (?d < 16)%N |- context [N.eqb (hexDigit ?d) 123] =>
      rewrite (proj2 (hexDigit_plain d H))
  end.
  match goal with
  | |- match uuid_bytes 16 0 ?l with _ => _ end = Some ?ds =>
      assert (E : uuid_bytes 16 0 l = Some (ds, []))
  end.
  { repeat first
      [ apply uuid_bytes_last; assumption
      | apply uuid_bytes_hyphen; [assumption | assumption | reflexivity | reflexivity |]
      | apply uuid_bytes_digit; [assumption | assumption | assumption |] ]. }
  now rewrite E.
Qed.

(** What the database reads as a uuid, it prints as a text that reads as
    the same uuid: the standard form stands for itself. *)
Lemma uuid_in_fixed (source : jsstring) (u : uuid) :
  uuid_in source = Some u -> uuid_in u = Some u.
Proof.
  unfold uuid_in. destruct (uuid_digits source) as [digits|] eqn:E; [|discriminate].
  intro H. injection H as <-.
  assert (Hd : List.length digits = 32%nat /\ Forall (fun d => (d < 16)%N) digits).
  { unfold uuid_digits in E.
    destruct (uuid_bytes 16 0 _) as [[ds rest]|] eqn:Eb; [|discriminate E].
    apply uuid_bytes_digits in Eb.
    destruct (match source with [] => false | c :: _ => N.eqb c 123 end).
    - destruct rest as [|c [|c' rest]]; try discriminate E.
      destruct (N.eqb c 125); [|discriminate E]. injection E as <-. exact Eb.
    - destruct rest; [|discriminate E]. injection E as <-. exact Eb. }
  destruct Hd as [Hl Hf]. now rewrite (uuid_digits_out digits Hl Hf).
Qed.

Lemma hexValue_upper (c : N) : hexValue (upper_hex c) = hexValue c.
Proof.
  unfold upper_hex.
  destruct ((97 <=? c)%N && (c <=? 102)%N) eqn:E; [|reflexivity].
  apply andb_true_iff in E as [A B]. apply N.leb_le in A, B.
  assert (Hc : In c [97;98;99;100;101;102]%N) by (simpl; lia).
  simpl in Hc. repeat destruct Hc as [<-|Hc]; try reflexivity. contradiction.
Qed.

Lemma upper_hex_eqb (c k : N) :
  (k < 97)%N \/ (102 < k)%N -> (k + 32 < 97 \/ 102 < k + 32)%N ->
  N.eqb (upper_hex c) k = N.eqb c k.
Proof.
  intros Hk Hk'. unfold upper_hex.
  destruct ((97 <=? c)%N && (c <=? 102)%N) eqn:E; [|reflexivity].
  apply andb_true_iff in E as [A B]. apply N.leb_le in A, B.
  transitivity false; [apply N.eqb_neq; lia | symmetry; apply N.eqb_neq; lia].
Qed.

Lemma uuid_bytes_upper (n : nat) :
  forall i src,
    uuid_bytes n i (List.map upper_hex src)
    = match uuid_bytes n i src with
      | Some (digits, remaining) => Some (digits, List.map upper_hex remaining)
      | None => None
      end.
Proof.
  induction n as [|n IH]; intros i src; cbn [uuid_bytes]; [reflexivity|].
  destruct src as [|a [|b src']]; cbn [List.map]; try reflexivity.
  rewrite !hexValue_upper.
  destruct (hexValue a); [|reflexivity]. destruct (hexValue b); [|reflexivity].
  destruct src' as [|c rest]; cbn [List.map].
  - change (@nil N) with (List.map upper_hex []) at 1. rewrite IH.
    now destruct (uuid_bytes n (S i) []) as [[ds r]|].
  - rewrite (upper_hex_eqb c hyphen) by (unfold hyphen; lia).
    destruct (N.eqb c hyphen && Nat.odd i && Nat.ltb i 15).
    + rewrite IH. now destruct (uuid_bytes n (S i) rest) as [[ds r]|].
    + change (upper_hex c :: List.map upper_hex rest)
        with (List.map upper_hex (c :: rest)).
      rewrite IH. now destruct (uuid_bytes n (S i) (c :: rest)) as [[ds r]|].
Qed.

Lemma uuid_in_upper (source : jsstring) :
  uuid_in (List.map upper_hex source) = uuid_in source.
Proof.
  unfold uuid_in. f_equal. unfold uuid_digits.
  assert (Hb : match List.map upper_hex source with
               | [] => false | c :: _ => N.eqb c 123 end
               = match source with [] => false | c :: _ => N.eqb c 123 end).
  { destruct source as [|c t]; [reflexivity|]. cbn [List.map].
    apply upper_hex_eqb; lia. }
  rewrite Hb.
  destruct (match source with [] => false | c :: _ => N.eqb c 123 end).
  - replace (tl (List.map upper_hex source)) with (List.map upper_hex (tl source))
      by (now destruct source).
    rewrite uuid_bytes_upper.
    destruct (uuid_bytes 16 0 (tl source)) as [[ds r]|]; [|reflexivity].
    destruct r as [|c [|c' r]]; cbn [List.map]; try reflexivity.
    now rewrite (upper_hex_eqb c 125) by lia.
  - rewrite uuid_bytes_upper.
    destruct (uuid_bytes 16 0 source) as [[ds r]|]; [|reflexivity].
    now destruct r.
Qed.

(* ===================================================================== *)
(** ** The review page: opening it *)
(* ===================================================================== *)

Lemma filter_id_unique (i : uuid) (l : list Document.t) (d : Document.t) :
  NoDup (List.map Document.id l) -> In d l -> Document.id d = i ->
  filter (fun r => str_eqb (Document.id r) i) l = [d].
Proof.
  induction l as [|x l IH]; intros Hnd Hin Hid; [contradiction|].
  simpl in Hnd. inversion Hnd as [|? ? Hx Hnd']; subst. simpl.
  assert (Hnone : ~ In (Document.id x) (List.map Document.id l) ->
                  filter (fun r => str_eqb (Document.id r) (Document.id x)) l = []).
  { clear. induction l as [|y l IHl]; intro H; simpl; [reflexivity|].
    destruct (str_eqb (Document.id y) (Document.id x)) eqn:E.
    - apply str_eqb_eq in E. exfalso. apply H. simpl. now left.
    - apply IHl. intro H'. apply H. simpl. now right. }
  destruct Hin as [->|Hin].
  - rewrite str_eqb_refl. f_equal. now apply Hnone.
  - destruct (str_eqb (Document.id x) (Document.id d)) eqn:E.
    + apply str_eqb_eq in E. exfalso. apply Hx. rewrite E. now apply in_map.
    + now apply IH.
Qed.

Lemma mount_cases (env : Env) (i : text) (w : World) :
  let pg := fst (DocumentReviewPage.mount env i w) in
  db (snd (DocumentReviewPage.mount env i w)) = db w
  /\ DocumentReviewPage.loading pg = false
  /\ DocumentReviewPage.document pg
     = (if select_error env then None
        else match uuid_in i with
             | Some u =>
                 match filter (fun r => str_eqb (Document.id r) u) (documents (db w)) with
                 | [d] => Some d
                 | _ => None
                 end
             | None => None
             end)
  /\ DocumentReviewPage.documentType pg
     = DocumentReviewPage.typeOrEmpty (DocumentReviewPage.document pg).
Proof.
  unfold DocumentReviewPage.mount, DocumentReviewPage.loadData. unfold_client.
  destruct (select_error env); simpl; [repeat split; reflexivity|].
  destruct (uuid_in i) as [u|]; simpl; [|repeat split; reflexivity].
  destruct (filter _ (documents (db w))) as [|d [|d' l]]; simpl;
    repeat split; reflexivity.
Qed.

(** Opening the review page at an address only reads. The id of the
    address is read as a uuid: with distinct document ids and a lookup that
    goes through, the page holds a document exactly when the table has a
    row with the uuid that the id denotes, and it is that row, so two
    spellings of one uuid open the same page; the type select starts at the
    type of the row. When the id is not the text of a uuid, or the lookup
    fails, the page holds none. *)
Theorem mount_loads_the_row :
  forall (env : Env) (i : text) (w : World),
    let pg := fst (DocumentReviewPage.mount env i w) in
    db (snd (DocumentReviewPage.mount env i w)) = db w
    /\ DocumentReviewPage.documentType pg
       = DocumentReviewPage.typeOrEmpty (DocumentReviewPage.document pg)
    /\ (select_error env = true -> DocumentReviewPage.document pg = None)
    /\ (uuid_in i = None -> DocumentReviewPage.document pg = None)
    /\ (forall u,
          select_error env = false ->
          uuid_in i = Some u ->
          NoDup (List.map Document.id (documents (db w))) ->
          forall d, DocumentReviewPage.document pg = Some d
                    <-> In d (documents (db w)) /\ Document.id d = u)
    /\ (forall j, uuid_in j = uuid_in i -> fst (DocumentReviewPage.mount env j w) = pg).
Proof.
  intros env i w pg. subst pg.
  destruct (mount_cases env i w) as [Hdb [Hl [Hdoc Hty]]].
  split; [exact Hdb|]. split; [exact Hty|]. split; [|split; [|split]].
  - intro He. now rewrite Hdoc, He.
  - intro Hu. rewrite Hdoc, Hu. now destruct (select_error env).
  - intros u He Hu Hnd d. rewrite Hdoc, He, Hu. split.
    + intro H.
      destruct (filter _ (documents (db w))) as [|d0 [|d1 l]] eqn:Ef; try discriminate H.
      injection H as ->. split; [|now apply (filter_id _ _ _ Ef)].
      assert (Hin : In d (filter (fun r => str_eqb (Document.id r) u) (documents (db w))))
        by (rewrite Ef; now left).
      now apply filter_In in Hin.
    + intros [Hin Hid]. now rewrite (filter_id_unique u _ d Hnd Hin Hid).
  - intros j Hj.
    unfold DocumentReviewPage.mount, DocumentReviewPage.loadData. unfold_client.
    rewrite Hj. destruct (select_error env); [reflexivity|].
    destruct (uuid_in i); [|reflexivity].
    destruct (maybeSingle _) as [dt [e|]]; reflexivity.
Qed.

(** The id of the address is read the way the database reads a uuid: an
    id with its digits in upper case opens the same page; the id the
    database prints for the uuid, which is the id the page then has in its
    document, opens the same page; and an id that is not the text of a
    uuid opens the page without a document, the error going to the console
    only. *)
Theorem mount_reads_uuid :
  forall (env : Env) (i : text) (w : World),
    let pg := fst (DocumentReviewPage.mount env i w) in
    fst (DocumentReviewPage.mount env (List.map upper_hex i) w) = pg
    /\ (forall u, uuid_in i = Some u ->
                  fst (DocumentReviewPage.mount env u w) = pg
                  /\ forall d, DocumentReviewPage.document pg = Some d ->
                               Document.id d = u)
    /\ (uuid_in i = None ->
        select_error env = false ->
        DocumentReviewPage.mount env i w
        = (DocumentReviewPage.setLoading false DocumentReviewPage.initial,
           mkWorld (db w) (calls w ++ [select_documents_by_id i])
                   (ui w ++ [console_error (lit "Error loading data:")]))).
Proof.
  intros env i w pg. subst pg.
  assert (Hsame : forall j, uuid_in j = uuid_in i ->
                            fst (DocumentReviewPage.mount env j w)
                            = fst (DocumentReviewPage.mount env i w)).
  { intros j Hj.
    unfold DocumentReviewPage.mount, DocumentReviewPage.loadData. unfold_client.
    rewrite Hj. destruct (select_error env); [reflexivity|].
    destruct (uuid_in i); [|reflexivity].
    destruct (maybeSingle _) as [dt [e|]]; reflexivity. }
  split; [apply Hsame, uuid_in_upper|]. split.
  - intros u Hu. split; [apply Hsame; rewrite Hu; now apply (uuid_in_fixed i)|].
    intros d Hd.
    destruct (mount_cases env i w) as [_ [_ [Hdoc _]]]. rewrite Hdoc, Hu in Hd.
    destruct (select_error env); [discriminate Hd|].
    destruct (filter _ (documents (db w))) as [|d0 [|d1 l]] eqn:Ef; try discriminate Hd.
    injection Hd as ->. now apply (filter_id _ _ _ Ef).
  - intros Hu He.
    unfold DocumentReviewPage.mount, DocumentReviewPage.loadData. unfold_client.
    rewrite He, Hu. reflexivity.
Qed.

Lemma keeps_loaded_type (d : Document.t) :
  str_or_null (DocumentReviewPage.typeOrEmpty (Some d)) (Document.type d)
  = Document.type d.
Proof.
  unfold DocumentReviewPage.typeOrEmpty, str_or_null.
  destruct (Document.type d) as [[|c t]|]; reflexivity.
Qed.

Lemma approve_type_of_row (env : Env) (pg : DocumentReviewPage.Page) (doc : Document.t)
  (l : list Document.t) (r' : Document.t) :
  In r' (List.map (update_row env (DocumentReviewPage.approvePayload env pg doc)
                              (Document.id doc)) l) ->
  Document.id r' = Document.id doc ->
  Document.type r'
  = str_or_null (DocumentReviewPage.documentType pg) (Document.type doc).
Proof.
  intros Hin Hid. apply in_map_iff in Hin as [r [<- _]].
  pose proof (approve_row_frame env pg doc r) as [Hi _]. rewrite Hi in Hid.
  now apply approve_row_written.
Qed.

Lemma approve_after_click (env1 env3 : Env) (pg : DocumentReviewPage.Page) (w : World)
  (doc : Document.t) (s : text) :
  DocumentReviewPage.document pg = Some doc ->
  DocumentReviewPage.loading pg = false ->
  DocumentReviewPage.processing pg = false ->
  Document.status doc = Some s ->
  DocumentReviewPage.reviewActionsVisible doc = true ->
  write_error env3 = false ->
  documents (db (snd (DocumentReviewPage.session
                        [ (env1, DocumentReviewPage.clickApproveDocument);
                          (env3, DocumentReviewPage.confirmApproval) ] pg w)))
  = List.map (update_row env3 (DocumentReviewPage.approvePayload env3 pg doc)
                         (Document.id doc))
             (documents (db w)).
Proof.
  intros Hd Hl Hp Hs Hv Hw.
  assert (Hc : DocumentReviewPage.cardShown pg = true).
  { unfold DocumentReviewPage.cardShown, DocumentReviewPage.rendered.
    now rewrite Hd, Hl, Hs, Hv. }
  cbn [DocumentReviewPage.session DocumentReviewPage.dispatch]. unfold ret.
  rewrite Hc.
  assert (Hr : DocumentReviewPage.rendered
                 (DocumentReviewPage.setShowApproveDialog true pg) = true).
  { unfold DocumentReviewPage.rendered. cbn. now rewrite Hd, Hl, Hs. }
  rewrite Hr. cbn [DocumentReviewPage.showApproveDialog
                     DocumentReviewPage.setShowApproveDialog
                     DocumentReviewPage.processing andb].
  rewrite Hp. cbn [negb].
  rewrite (handleApprove_outcome env3
             (DocumentReviewPage.setShowApproveDialog true pg) w doc Hd), Hw.
  reflexivity.
Qed.

(** Approving from a freshly opened page keeps the type the document has;
    approving after a type was chosen in the select stores the chosen
    type. The page is the one of a document that has a status and is
    neither approved nor rejected, opened under any spelling of its id. *)
Theorem approve_stores_selected_type :
  forall (env0 env1 env2 env3 : Env) (i : text) (u : uuid) (w : World) (d : Document.t)
         (s v : text),
    uuid_in i = Some u ->
    filter (fun r => str_eqb (Document.id r) u) (documents (db w)) = [d] ->
    select_error env0 = false ->
    Document.status d = Some s ->
    s <> lit "approved" ->
    s <> lit "rejected" ->
    write_error env3 = false ->
    let pg := fst (DocumentReviewPage.mount env0 i w) in
    let w1 := snd (DocumentReviewPage.mount env0 i w) in
    (forall r',
        In r' (documents (db (snd (DocumentReviewPage.session
                 [ (env1, DocumentReviewPage.clickApproveDocument);
                   (env3, DocumentReviewPage.confirmApproval) ] pg w1)))) ->
        Document.id r' = u ->
        Document.status r' = Some (lit "approved")
        /\ Document.type r' = Document.type d)
    /\ (v <> [] ->
        forall r',
          In r' (documents (db (snd (DocumentReviewPage.session
                   [ (env1, DocumentReviewPage.selectDocumentType v);
                     (env2, DocumentReviewPage.clickApproveDocument);
                     (env3, DocumentReviewPage.confirmApproval) ] pg w1)))) ->
          Document.id r' = u ->
          Document.status r' = Some (lit "approved")
          /\ Document.type r' = Some v).
Proof.
  intros env0 env1 env2 env3 i u w d s v Hu Hf He Hs Hna Hnr Hw pg w1. subst pg w1.
  pose proof (filter_id _ _ _ Hf) as Hid.
  assert (Hv : DocumentReviewPage.reviewActionsVisible d = true).
  { apply visible_unless_reviewed; rewrite Hs; congruence. }
  rewrite (mount_found env0 i u w d Hu Hf He). cbn [fst snd].
  set (pg := DocumentReviewPage.mkPage (Some d) false false false []
               (DocumentReviewPage.typeOrEmpty (Some d)) false).
  set (w1 := record_call (select_documents_by_id i) w).
  assert (Hrow : forall env pg0 l r',
             In r' (List.map (update_row env
                                (DocumentReviewPage.approvePayload env pg0 d)
                                (Document.id d)) l) ->
             Document.id r' = u ->
             Document.status r' = Some (lit "approved")
             /\ Document.type r'
                = str_or_null (DocumentReviewPage.documentType pg0) (Document.type d)).
  { intros env pg0 l r' Hin Hr'. rewrite <- Hid in Hr'.
    split; [|now apply (approve_type_of_row env pg0 d l r')].
    apply in_map_iff in Hin as [r [<- _]].
    pose proof (approve_row_frame env pg0 d r) as [Hi _]. rewrite Hi in Hr'.
    now apply approve_row_written. }
  split.
  - intros r' Hin Hr'.
    rewrite (approve_after_click env1 env3 pg w1 d s eq_refl eq_refl eq_refl Hs Hv Hw)
      in Hin.
    destruct (Hrow _ _ _ _ Hin Hr') as [Hs' Ht]. split; [exact Hs'|].
    rewrite Ht. apply keeps_loaded_type.
  - intros Hne r' Hin Hr'.
    assert (Hsel : DocumentReviewPage.session
              [(env1, DocumentReviewPage.selectDocumentType v);
               (env2, DocumentReviewPage.clickApproveDocument);
               (env3, DocumentReviewPage.confirmApproval)] pg w1
            = DocumentReviewPage.session
              [(env2, DocumentReviewPage.clickApproveDocument);
               (env3, DocumentReviewPage.confirmApproval)]
              (DocumentReviewPage.setDocumentType v pg) w1).
    { cbn [DocumentReviewPage.session DocumentReviewPage.dispatch]. unfold ret at 1.
      assert (Hr : DocumentReviewPage.rendered pg = true).
      { unfold DocumentReviewPage.rendered, pg. cbn. now rewrite Hs. }
      now rewrite Hr. }
    rewrite Hsel in Hin.
    rewrite (approve_after_click env2 env3 (DocumentReviewPage.setDocumentType v pg)
               w1 d s eq_refl eq_refl eq_refl Hs Hv Hw) in Hin.
    destruct (Hrow _ _ _ _ Hin Hr') as [Hs' Ht]. split; [exact Hs'|].
    rewrite Ht. cbn. unfold str_or_null. destruct v; [contradiction | reflexivity].
Qed.

(* ===================================================================== *)
(** ** The new legal hold form *)
(* ===================================================================== *)

(** [handleSubmit] of the form in full, with a title that is not blank. *)
Lemma hold_handleSubmit_outcome (env : Env) (pg : NewLegalHoldPage.Page) (w : World) :
  truthy (trim (NewLegalHoldPage.title pg)) = true ->
  let sent := calls w ++ [insert_legal_holds (NewLegalHoldPage.holdData pg)] in
  NewLegalHoldPage.handleSubmit env pg w
  = if hold_refused env w
    then (Return (NewLegalHoldPage.setProcessing false pg),
          mkWorld (db w) sent (ui w ++ [hold_error_toast]))
    else (Return (NewLegalHoldPage.setProcessing false pg),
          mkWorld
            (mkDB (employees (db w)) (documents (db w))
                  (legal_holds (db w)
                   ++ [LegalHold.row (new_id env) (server_now env)
                         (NewLegalHoldPage.holdData pg)])
                  (if log_refused env w then activity_logs (db w)
                   else activity_logs (db w)
                        ++ [ActivityLog.row (log_id env) (server_now env)
                              (NewLegalHoldPage.holdEntry pg (new_id env))])
                  (retention_policies (db w)))
            (sent ++ [insert_activity_logs (NewLegalHoldPage.holdEntry pg (new_id env))])
            (ui w ++ [hold_created_toast; router_push (lit "/settings/legal-holds")])).
Proof.
  intro Ht. unfold NewLegalHoldPage.handleSubmit. rewrite Ht.
  unfold hold_refused, log_refused, hold_error_toast, hold_created_toast.
  unfold_client. cbn [negb].
  destruct (write_error env); simpl; [reflexivity|].
  destruct (existsb _ (legal_holds (db w))); simpl; [reflexivity|].
  destruct (log_error env); simpl; rewrite <- ?app_assoc; simpl; [reflexivity|].
  destruct (existsb _ (activity_logs (db w))); simpl; rewrite <- ?app_assoc; reflexivity.
Qed.

Lemma hold_handleSubmit_blank (env : Env) (pg : NewLegalHoldPage.Page) (w : World) :
  truthy (trim (NewLegalHoldPage.title pg)) = false ->
  NewLegalHoldPage.handleSubmit env pg w
  = (Return pg, mkWorld (db w) (calls w) (ui w ++ [title_required_toast])).
Proof.
  intro Ht. unfold NewLegalHoldPage.handleSubmit. rewrite Ht. reflexivity.
Qed.

(** What [trimStart] leaves starts with no white space, so trimming it
    again changes nothing. *)
Lemma trimStart_idempotent (s : jsstring) : trimStart (trimStart s) = trimStart s.
Proof.
  pose proof (trimStart_head s) as H.
  destruct (trimStart s) as [|c t]; [reflexivity|]. simpl. now rewrite H.
Qed.

Lemma trimEnd_idempotent (s : jsstring) : trimEnd (trimEnd s) = trimEnd s.
Proof. unfold trimEnd. now rewrite rev_involutive, trimStart_idempotent. Qed.

(** [trimStart] takes a blank prefix off. *)
Lemma trimStart_suffix (s : jsstring) : exists u, s = u ++ trimStart s /\ blank u.
Proof.
  induction s as [|c s [u [E Hu]]]; simpl.
  - exists []. split; [reflexivity | constructor].
  - destruct (isWhiteSpace c) eqn:Hc.
    + exists (c :: u). split; [simpl; now f_equal | now constructor].
    + exists []. split; [reflexivity | constructor].
Qed.

(** [trimEnd] takes a blank suffix off. *)
Lemma trimEnd_prefix (s : jsstring) : exists u, s = trimEnd s ++ u /\ blank u.
Proof.
  unfold trimEnd. destruct (trimStart_suffix (rev s)) as [u [E Hu]].
  exists (rev u). split; [|now apply blank_rev].
  rewrite <- rev_app_distr, <- E. now rewrite rev_involutive.
Qed.

Lemma trimStart_fixed (s : jsstring) :
  match s with [] => True | c :: _ => isWhiteSpace c = false end ->
  trimStart s = s.
Proof. destruct s as [|c s]; simpl; [reflexivity|]. now intros ->. Qed.

(** Trimming twice is trimming once. *)
Lemma trim_idempotent (s : jsstring) : trim (trim s) = trim s.
Proof.
  unfold trim.
  assert (H : trimStart (trimEnd (trimStart s)) = trimEnd (trimStart s)).
  { apply trimStart_fixed.
    pose proof (trimStart_head s) as Hh.
    destruct (trimEnd_prefix (trimStart s)) as [u [E _]].
    destruct (trimEnd (trimStart s)) as [|c t]; [exact I|].
    rewrite E in Hh. exact Hh. }
  rewrite H. apply trimEnd_idempotent.
Qed.

Lemma holdData_form (env : Env) (pg : NewLegalHoldPage.Page) :
  truthy (trim (NewLegalHoldPage.title pg)) = true ->
  form_hold (LegalHold.row (new_id env) (server_now env) (NewLegalHoldPage.holdData pg)).
Proof.
  intro Ht. unfold form_hold, LegalHold.row, NewLegalHoldPage.holdData. cbn.
  repeat split.
  - intro E. rewrite E in Ht. discriminate Ht.
  - apply trim_idempotent.
  - destruct (str_eqb (NewLegalHoldPage.scope pg) (lit "department")
              && truthy (NewLegalHoldPage.department pg)); [now right | now left].
Qed.

Lemma truthy_nonempty (s : jsstring) : truthy s = true <-> s <> [].
Proof.
  destruct s as [|c s]; simpl; split; intro H; try reflexivity; try discriminate;
    congruence.
Qed.

Lemma holdData_department (pg : NewLegalHoldPage.Page) (dep : text) :
  LegalHold.p_department (NewLegalHoldPage.holdData pg) = Some dep
  <-> NewLegalHoldPage.scope pg = lit "department"
      /\ dep = NewLegalHoldPage.department pg /\ dep <> [].
Proof.
  unfold NewLegalHoldPage.holdData. cbn.
  destruct (str_eqb (NewLegalHoldPage.scope pg) (lit "department")) eqn:Ed;
    destruct (truthy (NewLegalHoldPage.department pg)) eqn:Td; cbn.
  - apply str_eqb_eq in Ed. apply truthy_nonempty in Td. split.
    + intro H. injection H as <-. now repeat split.
    + intros [_ [-> _]]. reflexivity.
  - split; [discriminate|]. intros [_ [-> H]]. apply truthy_nonempty in H. congruence.
  - apply str_eqb_neq in Ed. split; [discriminate|]. intros [H _]. contradiction.
  - apply str_eqb_neq in Ed. split; [discriminate|]. intros [H _]. contradiction.
Qed.

Lemma holdData_category (pg : NewLegalHoldPage.Page) (cat : text) :
  LegalHold.p_document_category (NewLegalHoldPage.holdData pg) = Some cat
  <-> NewLegalHoldPage.scope pg = lit "category"
      /\ cat = NewLegalHoldPage.docCategory pg /\ cat <> [].
Proof.
  unfold NewLegalHoldPage.holdData. cbn.
  destruct (str_eqb (NewLegalHoldPage.scope pg) (lit "department")) eqn:Ed.
  - apply str_eqb_eq in Ed.
    destruct (truthy (NewLegalHoldPage.department pg)); cbn.
    + split; [discriminate|]. intros [H _]. rewrite Ed in H. vm_compute in H.
      discriminate H.
    + rewrite Ed. change (str_eqb (lit "department") (lit "category")) with false. cbn.
      split; [discriminate|]. intros [H _]. vm_compute in H. discriminate H.
  - cbn.
    destruct (str_eqb (NewLegalHoldPage.scope pg) (lit "category")) eqn:Ec;
      destruct (truthy (NewLegalHoldPage.docCategory pg)) eqn:Tc; cbn.
    + apply str_eqb_eq in Ec. apply truthy_nonempty in Tc. split.
      * intro H. injection H as <-. now repeat split.
      * intros [_ [-> _]]. reflexivity.
    + split; [discriminate|]. intros [_ [-> H]]. apply truthy_nonempty in H. congruence.
    + apply str_eqb_neq in Ec. split; [discriminate|]. intros [H _]. contradiction.
    + apply str_eqb_neq in Ec. split; [discriminate|]. intros [H _]. contradiction.
Qed.

(** The form creates a hold only with a title that is not blank. A hold it
    creates is active and not released, carries the title without white
    space around it, is scoped by a department or by a category but never by
    both, and never by employees or by dates: the department is set exactly
    when the scope is department and one was chosen, the category exactly
    when the scope is category and one was chosen; with the scope chosen but
    nothing picked, the hold has no scope column at all. *)
Theorem hold_form_creates :
  forall (env : Env) (pg : NewLegalHoldPage.Page) (w : World),
    let w' := snd (NewLegalHoldPage.handleSubmit env pg w) in
    (blank (NewLegalHoldPage.title pg) ->
     db w' = db w /\ calls w' = calls w /\ ui w' = ui w ++ [title_required_toast])
    /\ (legal_holds (db w') = legal_holds (db w)
        \/ exists h,
             legal_holds (db w') = legal_holds (db w) ++ [h]
             /\ ~ blank (NewLegalHoldPage.title pg)
             /\ form_hold h
             /\ LegalHold.title h = trim (NewLegalHoldPage.title pg)
             /\ (forall dep, LegalHold.department h = Some dep
                             <-> NewLegalHoldPage.scope pg = lit "department"
                                 /\ dep = NewLegalHoldPage.department pg /\ dep <> [])
             /\ (forall cat, LegalHold.document_category h = Some cat
                             <-> NewLegalHoldPage.scope pg = lit "category"
                                 /\ cat = NewLegalHoldPage.docCategory pg /\ cat <> [])).
Proof.
  intros env pg w w'. subst w'. split.
  - intro Hb. apply truthy_trim in Hb. rewrite (hold_handleSubmit_blank env pg w Hb).
    repeat split; reflexivity.
  - destruct (truthy (trim (NewLegalHoldPage.title pg))) eqn:Ht.
    + rewrite (hold_handleSubmit_outcome env pg w Ht).
      destruct (hold_refused env w); [left; reflexivity|].
      right. eexists. split; [reflexivity|].
      split; [now apply not_blank_truthy|].
      split; [now apply holdData_form|]. split; [reflexivity|].
      split; [apply holdData_department | apply holdData_category].
    + left. now rewrite (hold_handleSubmit_blank env pg w Ht).
Qed.

(* ===================================================================== *)
(** ** The tables over a run *)
(* ===================================================================== *)

Lemma same_submission_refl (r : Document.t) : same_submission r r.
Proof. unfold same_submission. repeat split; reflexivity. Qed.

Lemma same_submission_trans (a b c : Document.t) :
  same_submission a b -> same_submission b c -> same_submission a c.
Proof.
  unfold same_submission. intros H1 H2.
  repeat match goal with H : _ /\ _ |- _ => destruct H end.
  repeat split; congruence.
Qed.

Lemma row_evolves_refl (r : Document.t) : row_evolves r r.
Proof. split; [apply same_submission_refl | now left]. Qed.

Lemma row_evolves_trans (a b c : Document.t) :
  row_evolves a b -> row_evolves b c -> row_evolves a c.
Proof.
  intros [S1 T1] [S2 T2]. split; [now apply (same_submission_trans a b c)|].
  unfold status_kept_or_reviewed in *.
  destruct T2 as [E|[E|E]]; [rewrite E; exact T1 | right; now left | right; now right].
Qed.

Lemma written_status_evolves (a b : Document.t) :
  written_status a -> row_evolves a b -> written_status b.
Proof.
  unfold written_status, status_kept_or_reviewed. intros Ha [_ [E|[E|E]]].
  - now rewrite E.
  - right. now left.
  - right. now right.
Qed.

Lemma Forall2_same {A : Type} (R : A -> A -> Prop) (l : list A) :
  (forall x, R x x) -> Forall2 R l l.
Proof. intro H. induction l; constructor; auto. Qed.

Lemma Forall2_map_right {A : Type} (R : A -> A -> Prop) (f : A -> A) (l : list A) :
  (forall x, R x (f x)) -> Forall2 R l (List.map f l).
Proof. intro H. induction l; simpl; constructor; auto. Qed.

Lemma Forall2_compose {A : Type} (R : A -> A -> Prop) (l1 l2 l3 : list A) :
  (forall a b c, R a b -> R b c -> R a c) ->
  Forall2 R l1 l2 -> Forall2 R l2 l3 -> Forall2 R l1 l3.
Proof.
  intros Ht H12. revert l3. induction H12 as [|a b l1 l2 Hab _ IH]; intros l3 H23.
  - inversion H23. constructor.
  - inversion H23 as [|? c ? l3' Hbc H23']; subst. constructor; eauto.
Qed.

Lemma Forall2_Forall_right {A : Type} (R : A -> A -> Prop) (P : A -> Prop)
  (l1 l2 : list A) :
  (forall a b, P a -> R a b -> P b) -> Forall P l1 -> Forall2 R l1 l2 -> Forall P l2.
Proof.
  intros Hp Hl H. induction H as [|a b l1 l2 Hab _ IH]; [constructor|].
  inversion Hl; subst. constructor; eauto.
Qed.

Lemma documents_evolve_refl (l : list Document.t) : documents_evolve l l.
Proof.
  exists l, []. rewrite app_nil_r. split; [reflexivity|].
  split; [apply Forall2_same, row_evolves_refl | constructor].
Qed.

Lemma documents_evolve_trans (l1 l2 l3 : list Document.t) :
  documents_evolve l1 l2 -> documents_evolve l2 l3 -> documents_evolve l1 l3.
Proof.
  intros [k1 [a1 [E1 [F1 W1]]]] [k2 [a2 [E2 [F2 W2]]]]. subst l2.
  apply Forall2_app_inv_l in F2 as [k2a [k2b [Fa [Fb ->]]]].
  exists k2a, (k2b ++ a2). split; [subst l3; now rewrite app_assoc|]. split.
  - exact (Forall2_compose row_evolves l1 k1 k2a row_evolves_trans F1 Fa).
  - apply Forall_app. split; [|exact W2].
    exact (Forall2_Forall_right row_evolves written_status a1 k2b
             written_status_evolves W1 Fb).
Qed.

Lemma outside_review_submission (r r' : Document.t) :
  same_outside_review r r' -> same_submission r r'.
Proof. unfold same_outside_review, same_submission. tauto. Qed.

Lemma approve_row_evolves (env : Env) (pg : DocumentReviewPage.Page) (doc r : Document.t) :
  row_evolves r (update_row env (DocumentReviewPage.approvePayload env pg doc)
                            (Document.id doc) r).
Proof.
  split; [apply outside_review_submission, approve_row_frame|].
  unfold status_kept_or_reviewed, update_row.
  destruct (str_eqb (Document.id r) (Document.id doc)); [right; left | left]; reflexivity.
Qed.

Lemma reject_row_evolves (env : Env) (pg : DocumentReviewPage.Page) (doc r : Document.t) :
  row_evolves r (update_row env (DocumentReviewPage.rejectPayload env pg doc)
                            (Document.id doc) r).
Proof.
  split; [apply reject_row_frame|].
  unfold status_kept_or_reviewed, update_row.
  destruct (str_eqb (Document.id r) (Document.id doc)); [right; right | left]; reflexivity.
Qed.

(** What one operation leaves of the tables it does not log to. *)
Lemma step_tables (env : Env) (op : Op) (w : World) :
  employees (db (step env op w)) = employees (db w)
  /\ retention_policies (db (step env op w)) = retention_policies (db w)
  /\ documents_evolve (documents (db w)) (documents (db (step env op w)))
  /\ exists added,
       legal_holds (db (step env op w)) = legal_holds (db w) ++ added
       /\ Forall form_hold added.
Proof.
  assert (Hnil : forall l : list LegalHold.t,
             exists added, l = l ++ added /\ Forall form_hold added).
  { intro l. exists []. rewrite app_nil_r. split; [reflexivity | constructor]. }
  destruct op as [pg|pg|pg|pg]; unfold step.
  - rewrite handleSubmit_outcome. destruct (insert_refused env pg w); cbn.
    + repeat split; try apply documents_evolve_refl. apply Hnil.
    + repeat split; [|apply Hnil].
      exists (documents (db w)), [submitted_row env pg w]. split; [reflexivity|].
      split; [apply Forall2_same, row_evolves_refl|].
      constructor; [left; reflexivity | constructor].
  - destruct (DocumentReviewPage.document pg) as [doc|] eqn:Hd.
    + rewrite (handleApprove_outcome env pg w doc Hd).
      destruct (write_error env); cbn.
      * repeat split; try apply documents_evolve_refl. apply Hnil.
      * repeat split; [|apply Hnil].
        eexists; exists []. rewrite app_nil_r. split; [reflexivity|].
        split; [|constructor]. apply Forall2_map_right. intro r.
        apply approve_row_evolves.
    + unfold DocumentReviewPage.handleApprove. rewrite Hd. cbn.
      repeat split; try apply documents_evolve_refl. apply Hnil.
  - destruct (DocumentReviewPage.document pg) as [doc|] eqn:Hd;
      [destruct (truthy (trim (DocumentReviewPage.rejectNotes pg))) eqn:Ht|].
    + rewrite (handleReject_outcome env pg w doc Hd Ht).
      destruct (write_error env); cbn.
      * repeat split; try apply documents_evolve_refl. apply Hnil.
      * repeat split; [|apply Hnil].
        eexists; exists []. rewrite app_nil_r. split; [reflexivity|].
        split; [|constructor]. apply Forall2_map_right. intro r.
        apply reject_row_evolves.
    + unfold DocumentReviewPage.handleReject. rewrite Hd, Ht. cbn.
      repeat split; try apply documents_evolve_refl. apply Hnil.
    + unfold DocumentReviewPage.handleReject. rewrite Hd.
      destruct (truthy (trim (DocumentReviewPage.rejectNotes pg))); cbn;
        repeat split; try apply documents_evolve_refl; apply Hnil.
  - destruct (truthy (trim (NewLegalHoldPage.title pg))) eqn:Ht.
    + rewrite (hold_handleSubmit_outcome env pg w Ht).
      destruct (hold_refused env w); cbn.
      * repeat split; try apply documents_evolve_refl. apply Hnil.
      * repeat split; try apply documents_evolve_refl.
        eexists. split; [reflexivity|].
        constructor; [now apply holdData_form | constructor].
    + rewrite (hold_handleSubmit_blank env pg w Ht). cbn.
      repeat split; try apply documents_evolve_refl. apply Hnil.
Qed.

Lemma run_tables (ops : list (Env * Op)) (w : World) :
  employees (db (run ops w)) = employees (db w)
  /\ retention_policies (db (run ops w)) = retention_policies (db w)
  /\ documents_evolve (documents (db w)) (documents (db (run ops w)))
  /\ exists added,
       legal_holds (db (run ops w)) = legal_holds (db w) ++ added
       /\ Forall form_hold added.
Proof.
  unfold run. revert w. induction ops as [|[env op] ops IH]; intro w; simpl.
  - repeat split; try apply documents_evolve_refl.
    exists []. rewrite app_nil_r. split; [reflexivity | constructor].
  - destruct (step_tables env op w) as [He [Hp [Hd [a1 [Hh Hf]]]]].
    destruct (IH (step env op w)) as [He' [Hp' [Hd' [a2 [Hh' Hf']]]]].
    split; [congruence|]. split; [congruence|]. split.
    + exact (documents_evolve_trans _ _ _ Hd Hd').
    + exists (a1 ++ a2). split.
      * rewrite Hh', Hh, app_assoc. reflexivity.
      * apply Forall_app. now split.
Qed.

(** No sequence of operations removes or moves a document, or changes what
    was submitted: every document that was there is still at its place
    with the same id, employee, source, file, dates, priority, version,
    original document and creation time; new documents come after them.
    The employees and the retention policies are never written. *)
Theorem submissions_are_kept :
  forall (ops : list (Env * Op)) (w : World),
    employees (db (run ops w)) = employees (db w)
    /\ retention_policies (db (run ops w)) = retention_policies (db w)
    /\ exists kept added,
         documents (db (run ops w)) = kept ++ added
         /\ Forall2 same_submission (documents (db w)) kept.
Proof.
  intros ops w. destruct (run_tables ops w) as [He [Hp [[kept [added [E [F _]]]] _]]].
  split; [exact He|]. split; [exact Hp|]. exists kept, added. split; [exact E|].
  clear E. induction F as [|a b l1 l2 [Hab _] _ IH]; constructor; assumption.
Qed.

(** The only statuses the operations write are received, approved and
    rejected: after any sequence of operations a document that was there
    has the status it had, or approved, or rejected, and a new document has
    one of the three. No operation puts a document in_review, on_hold or
    expired. *)
Theorem statuses_written :
  forall (ops : list (Env * Op)) (w : World),
    exists kept added,
      documents (db (run ops w)) = kept ++ added
      /\ Forall2 status_kept_or_reviewed (documents (db w)) kept
      /\ Forall written_status added.
Proof.
  intros ops w. destruct (run_tables ops w) as [_ [_ [[kept [added [E [F W]]]] _]]].
  exists kept, added. split; [exact E|]. split; [|exact W].
  clear E. induction F as [|a b l1 l2 [_ Hab] _ IH]; constructor; assumption.
Qed.

(** No operation releases or edits a legal hold: after any sequence of
    operations the holds that were there are unchanged and in place, and
    every new hold is active, not released, has a title, and is scoped by at
    most one of department and category. *)
Theorem holds_are_never_released :
  forall (ops : list (Env * Op)) (w : World),
    exists added,
      legal_holds (db (run ops w)) = legal_holds (db w) ++ added
      /\ Forall form_hold added.
Proof. intros ops w. exact (proj2 (proj2 (proj2 (run_tables ops w)))). Qed.

(* ===================================================================== *)
(** ** Rejected documents carry their reason *)
(* ===================================================================== *)

Lemma rejected_has_reasonb_ok (r : Document.t) :
  rejected_has_reasonb r = true -> rejected_has_reason r.
Proof.
  unfold rejected_has_reasonb, rejected_has_reason. intros Hb Hs.
  rewrite Hs in Hb. rewrite (proj2 (opt_str_eqb_eq _ _) eq_refl) in Hb. simpl in Hb.
  destruct (Document.notes r) as [n|]; [|discriminate Hb].
  exists n. split; [reflexivity|]. now apply not_blank_truthy.
Qed.

Lemma approve_row_reason (env : Env) (pg : DocumentReviewPage.Page) (doc r : Document.t) :
  rejected_has_reason (update_row env (DocumentReviewPage.approvePayload env pg doc)
                                  (Document.id doc) r)
  \/ update_row env (DocumentReviewPage.approvePayload env pg doc) (Document.id doc) r = r.
Proof.
  unfold update_row. destruct (str_eqb (Document.id r) (Document.id doc));
    [left | right; reflexivity].
  unfold rejected_has_reason. cbn. intro Hs. vm_compute in Hs. discriminate Hs.
Qed.

Lemma reject_row_reason (env : Env) (pg : DocumentReviewPage.Page) (doc r : Document.t) :
  truthy (trim (DocumentReviewPage.rejectNotes pg)) = true ->
  rejected_has_reason (update_row env (DocumentReviewPage.rejectPayload env pg doc)
                                  (Document.id doc) r)
  \/ update_row env (DocumentReviewPage.rejectPayload env pg doc) (Document.id doc) r = r.
Proof.
  intro Ht. unfold update_row. destruct (str_eqb (Document.id r) (Document.id doc));
    [left | right; reflexivity].
  unfold rejected_has_reason. cbn. intros _.
  exists (DocumentReviewPage.rejectNotes pg). split; [reflexivity|].
  now apply not_blank_truthy.
Qed.

Lemma step_reason (env : Env) (op : Op) (w : World) :
  Forall rejected_has_reason (documents (db w)) ->
  Forall rejected_has_reason (documents (db (step env op w))).
Proof.
  intro H. destruct op as [pg|pg|pg|pg]; unfold step.
  - rewrite handleSubmit_outcome. destruct (insert_refused env pg w); cbn; [exact H|].
    apply Forall_snoc; [exact H|].
    unfold rejected_has_reason. cbn. intro Hs. vm_compute in Hs. discriminate Hs.
  - destruct (DocumentReviewPage.document pg) as [doc|] eqn:Hd.
    + rewrite (handleApprove_outcome env pg w doc Hd).
      destruct (write_error env); cbn; [exact H|].
      apply Forall_map_or; [intro; apply approve_row_reason | exact H].
    + unfold DocumentReviewPage.handleApprove. rewrite Hd. exact H.
  - destruct (DocumentReviewPage.document pg) as [doc|] eqn:Hd;
      [destruct (truthy (trim (DocumentReviewPage.rejectNotes pg))) eqn:Ht|].
    + rewrite (handleReject_outcome env pg w doc Hd Ht).
      destruct (write_error env); cbn; [exact H|].
      apply Forall_map_or; [intro; now apply reject_row_reason | exact H].
    + unfold DocumentReviewPage.handleReject. rewrite Hd, Ht. exact H.
    + unfold DocumentReviewPage.handleReject. rewrite Hd.
      destruct (truthy (trim (DocumentReviewPage.rejectNotes pg))); exact H.
  - destruct (truthy (trim (NewLegalHoldPage.title pg))) eqn:Ht.
    + rewrite (hold_handleSubmit_outcome env pg w Ht).
      destruct (hold_refused env w); exact H.
    + rewrite (hold_handleSubmit_blank env pg w Ht). exact H.
Qed.

(** Over every sequence of operations, starting from a database in which
    every rejected document has notes that are not blank: every rejected
    document of the database reached has notes that are not blank, so the
    employee's submission page shows the rejection card with the Resubmit
    button for it. *)
Theorem rejected_documents_have_reason :
  forall (ops : list (Env * Op)) (w : World),
    Forall rejected_has_reason (documents (db w)) ->
    Forall rejected_has_reason (documents (db (run ops w)))
    /\ forall r, In r (documents (db (run ops w))) ->
                 Document.status r = Some (lit "rejected") ->
                 SubmissionDetailPage.resubmitVisible r = true.
Proof.
  intros ops w H.
  assert (Hinv : Forall rejected_has_reason (documents (db (run ops w)))).
  { unfold run. revert w H. induction ops as [|[env op] ops IH]; intros w H; simpl.
    - exact H.
    - apply IH. now apply step_reason. }
  split; [exact Hinv|]. intros r Hin Hs.
  rewrite Forall_forall in Hinv. destruct (Hinv r Hin Hs) as [n [Hn Hb]].
  unfold SubmissionDetailPage.resubmitVisible. rewrite Hs, Hn.
  rewrite (proj2 (opt_str_eqb_eq _ _) eq_refl). simpl.
  destruct n as [|c n]; [|reflexivity]. exfalso. apply Hb. constructor.
Qed.

(* ===================================================================== *)
(** ** The dashboard and the review queue *)
(* ===================================================================== *)

Lemma has_status_eq (s : string) (d : Document.t) :
  HRDashboardPage.has_status s d = true <-> Document.status d = Some (lit s).
Proof. unfold HRDashboardPage.has_status. apply opt_str_eqb_eq. Qed.

(** The five statuses of the cards exclude one another. *)
Lemma card_of_document (d : Document.t) :
  ((if HRDashboardPage.has_status "received" d || HRDashboardPage.has_status "in_review" d
    then 1 else 0)
   + (if HRDashboardPage.has_status "approved" d then 1 else 0)
   + (if HRDashboardPage.has_status "rejected" d then 1 else 0)
   + (if HRDashboardPage.has_status "on_hold" d then 1 else 0)
   + (if uncounted_status d then 1 else 0) = 1)%nat.
Proof.
  unfold uncounted_status.
  destruct (HRDashboardPage.has_status "received" d) eqn:E1;
    [apply has_status_eq in E1; unfold HRDashboardPage.has_status; rewrite E1;
     vm_compute; reflexivity|].
  destruct (HRDashboardPage.has_status "in_review" d) eqn:E2;
    [apply has_status_eq in E2; unfold HRDashboardPage.has_status; rewrite E2;
     vm_compute; reflexivity|].
  destruct (HRDashboardPage.has_status "approved" d) eqn:E3;
    [apply has_status_eq in E3; unfold HRDashboardPage.has_status; rewrite E3;
     vm_compute; reflexivity|].
  destruct (HRDashboardPage.has_status "rejected" d) eqn:E4;
    [apply has_status_eq in E4; unfold HRDashboardPage.has_status; rewrite E4;
     vm_compute; reflexivity|].
  destruct (HRDashboardPage.has_status "on_hold" d); reflexivity.
Qed.

Lemma length_filter_cons {A : Type} (f : A -> bool) (x : A) (l : list A) :
  List.length (filter f (x :: l))
  = ((if f x then 1 else 0) + List.length (filter f l))%nat.
Proof. simpl. now destruct (f x). Qed.

(** The four counters of the dashboard count no document twice: the total
    is their sum plus the number of documents whose status is none of
    received, in_review, approved, rejected and on_hold (expired documents,
    for one). *)
Theorem dashboard_counts_partition :
  forall (allDocs : list Document.t),
    let s := HRDashboardPage.statsOf allDocs in
    (HRDashboardPage.total s
     = HRDashboardPage.needsReview s + HRDashboardPage.approved s
       + HRDashboardPage.rejected s + HRDashboardPage.onHold s
       + List.length (filter uncounted_status allDocs))%nat.
Proof.
  intro allDocs. cbn [HRDashboardPage.statsOf HRDashboardPage.total
                       HRDashboardPage.needsReview HRDashboardPage.approved
                       HRDashboardPage.rejected HRDashboardPage.onHold].
  induction allDocs as [|d l IH]; [reflexivity|].
  rewrite !length_filter_cons. cbn [List.length].
  pose proof (card_of_document d) as Hd. lia.
Qed.

Lemma includes_comma (s : jsstring) :
  str_includes s [comma] = existsb (fun c => N.eqb c comma) s.
Proof.
  induction s as [|c s IH]; [reflexivity|].
  cbn [str_includes startsWith existsb]. rewrite IH.
  destruct s; now rewrite andb_true_r.
Qed.

(** A string without a comma is its own only piece. *)
Lemma split_comma_single (s : jsstring) :
  str_includes s [comma] = false -> split_comma s = [s].
Proof.
  rewrite includes_comma. induction s as [|c s IH]; intro H; [reflexivity|].
  cbn [existsb] in H. apply orb_false_iff in H as [Hc Hs].
  cbn [split_comma]. rewrite Hc, (IH Hs). reflexivity.
Qed.

Lemma array_includes_In (arr : list jsstring) (v : option jsstring) :
  array_includes arr v = true <-> exists s, v = Some s /\ In s arr.
Proof.
  unfold array_includes. rewrite existsb_exists. split.
  - intros [x [Hin Hx]]. apply opt_str_eqb_eq in Hx. exists x. now split.
  - intros [s [-> Hin]]. exists s. split; [exact Hin|]. now apply opt_str_eqb_eq.
Qed.

Lemma str_eqb_all (s : jsstring) :
  negb (str_eqb s (lit "all")) = false <-> s = lit "all".
Proof. rewrite negb_false_iff. apply str_eqb_eq. Qed.

Lemma filter_twice {A : Type} (f g : A -> bool) (l : list A) :
  filter f (filter g l) = filter (fun x => g x && f x) l.
Proof.
  induction l as [|x l IH]; [reflexivity|]. simpl.
  destruct (g x); simpl; [destruct (f x)|]; now rewrite IH.
Qed.

Lemma filter_when {A : Type} (c : bool) (f : A -> bool) (l : list A) :
  (if c then filter f l else l) = filter (fun x => negb c || f x) l.
Proof.
  destruct c; simpl; [reflexivity|].
  induction l as [|x l IH]; [reflexivity|]. simpl. now rewrite <- IH.
Qed.

Lemma opt_str_eqb_sym (a b : option jsstring) : opt_str_eqb a b = opt_str_eqb b a.
Proof.
  destruct (opt_str_eqb a b) eqn:E1; destruct (opt_str_eqb b a) eqn:E2; try reflexivity.
  - apply opt_str_eqb_eq in E1. subst.
    rewrite (proj2 (opt_str_eqb_eq b b) eq_refl) in E2. discriminate.
  - apply opt_str_eqb_eq in E2. subst.
    rewrite (proj2 (opt_str_eqb_eq a a) eq_refl) in E1. discriminate.
Qed.

Lemma queue_filter_passes (toLowerCase : jsstring -> jsstring)
  (pg : ReviewQueuePage.Page) (r : ReviewQueuePage.Row) :
  queue_filter toLowerCase pg r = true <-> passes_queue_filters toLowerCase pg r.
Proof.
  unfold queue_filter, passes_queue_filters.
  rewrite !andb_true_iff, !orb_true_iff, !str_eqb_eq, array_includes_In,
    opt_str_eqb_eq, negb_true_iff.
  assert (Hq : truthy (ReviewQueuePage.searchQuery pg) = false
               <-> ReviewQueuePage.searchQuery pg = []).
  { destruct (ReviewQueuePage.searchQuery pg); simpl; split; intro H;
      try reflexivity; discriminate. }
  rewrite Hq. tauto.
Qed.

Section ReviewQueue.

Variable toLowerCase : jsstring -> jsstring.
Variable localeCompare : jsstring -> jsstring -> Z.
Variable array_sort : (ReviewQueuePage.Row -> ReviewQueuePage.Row -> Z)
                      -> list ReviewQueuePage.Row -> list ReviewQueuePage.Row.

(** What ECMAScript promises of [sort] for any comparator: the same
    elements. *)
Hypothesis array_sort_permutes : forall cmp l, Permutation (array_sort cmp l) l.

Lemma queue_filtered (pg : ReviewQueuePage.Page) :
  Permutation
    (ReviewQueuePage.filterAndSortDocuments toLowerCase localeCompare array_sort pg)
    (filter (queue_filter toLowerCase pg) (ReviewQueuePage.documents pg)).
Proof.
  unfold ReviewQueuePage.filterAndSortDocuments. cbv zeta.
  eapply Permutation_trans; [apply array_sort_permutes|].
  match goal with |- Permutation ?a ?b => replace a with b; [apply Permutation_refl|] end.
  symmetry. rewrite (filter_when (truthy (ReviewQueuePage.searchQuery pg))).
  rewrite (filter_when (negb (str_eqb (ReviewQueuePage.typeFilter pg) (lit "all")))).
  replace (if negb (str_eqb (ReviewQueuePage.statusFilter pg) (lit "all"))
           then if str_includes (ReviewQueuePage.statusFilter pg) [comma]
                then filter (fun doc => array_includes
                                          (split_comma (ReviewQueuePage.statusFilter pg))
                                          (Document.status (ReviewQueuePage.document doc)))
                            (ReviewQueuePage.documents pg)
                else filter (fun doc => opt_str_eqb
                                          (Document.status (ReviewQueuePage.document doc))
                                          (Some (ReviewQueuePage.statusFilter pg)))
                            (ReviewQueuePage.documents pg)
           else ReviewQueuePage.documents pg)
    with (filter (fun doc => str_eqb (ReviewQueuePage.statusFilter pg) (lit "all")
                             || array_includes
                                  (split_comma (ReviewQueuePage.statusFilter pg))
                                  (Document.status (ReviewQueuePage.document doc)))
                 (ReviewQueuePage.documents pg)).
  - rewrite !filter_twice. apply filter_ext. intro r. unfold queue_filter.
    rewrite negb_involutive, andb_assoc. reflexivity.
  - destruct (str_eqb (ReviewQueuePage.statusFilter pg) (lit "all")); cbn [negb orb].
    + induction (ReviewQueuePage.documents pg) as [|x l IH]; [reflexivity|].
      simpl. now rewrite IH.
    + destruct (str_includes (ReviewQueuePage.statusFilter pg) [comma]) eqn:Ec;
        [reflexivity|].
      apply filter_ext. intro r. rewrite (split_comma_single _ Ec).
      unfold array_includes. cbn [existsb]. rewrite orb_false_r. apply opt_str_eqb_sym.
Qed.

(** The rows the review queue shows are the rows of the page that pass its
    three filters, each as often as it is on the page: the status filter is
    a comma-separated list of statuses (one status is a list of one), [all]
    is no filter, and a row without a status passes only [all]. *)
Theorem queue_shows_filtered :
  forall (pg : ReviewQueuePage.Page),
    Permutation
      (ReviewQueuePage.filterAndSortDocuments toLowerCase localeCompare array_sort pg)
      (filter (queue_filter toLowerCase pg) (ReviewQueuePage.documents pg))
    /\ (forall r, In r (ReviewQueuePage.filterAndSortDocuments
                          toLowerCase localeCompare array_sort pg)
                  <-> In r (ReviewQueuePage.documents pg)
                      /\ passes_queue_filters toLowerCase pg r).
Proof.
  intro pg. split; [apply queue_filtered|].
  intro r. rewrite <- queue_filter_passes, <- filter_In. split; intro H.
  - exact (Permutation_in r (queue_filtered pg) H).
  - exact (Permutation_in r (Permutation_sym (queue_filtered pg)) H).
Qed.

(** Each card of the dashboard counts what its link shows: the review
    queue, opened by the address behind the Needs Review card
    ([status=received,in_review]) or behind the Approved, Rejected and On
    Hold cards, lists as many documents as the card counts over the same
    documents. *)
Theorem dashboard_cards_match_queue :
  forall (rows : list ReviewQueuePage.Row),
    let s := HRDashboardPage.statsOf (List.map ReviewQueuePage.document rows) in
    let shown (status : string) :=
      List.length (ReviewQueuePage.filterAndSortDocuments toLowerCase localeCompare
                     array_sort (ReviewQueuePage.opened rows (Some (lit status)))) in
    shown "received,in_review"%string = HRDashboardPage.needsReview s
    /\ shown "approved"%string = HRDashboardPage.approved s
    /\ shown "rejected"%string = HRDashboardPage.rejected s
    /\ shown "on_hold"%string = HRDashboardPage.onHold s.
Proof.
  intros rows s shown. subst s shown.
  assert (H : forall (status : string) (f : Document.t -> bool),
             (forall r, queue_filter toLowerCase
                          (ReviewQueuePage.opened rows (Some (lit status))) r
                        = f (ReviewQueuePage.document r)) ->
             List.length (ReviewQueuePage.filterAndSortDocuments toLowerCase
                            localeCompare array_sort
                            (ReviewQueuePage.opened rows (Some (lit status))))
             = List.length (filter f (List.map ReviewQueuePage.document rows))).
  { intros status f Hf.
    rewrite (Permutation_length (queue_filtered _)).
    change (ReviewQueuePage.documents (ReviewQueuePage.opened rows (Some (lit status))))
      with rows.
    rewrite (filter_ext _ _ Hf).
    clear. induction rows as [|r l IH]; [reflexivity|]. simpl.
    destruct (f (ReviewQueuePage.document r)); simpl; now rewrite IH. }
  assert (Hopen : forall (status : string) (pieces : list jsstring)
                         (r : ReviewQueuePage.Row),
             truthy (lit status) = true ->
             str_eqb (lit status) (lit "all") = false ->
             split_comma (lit status) = pieces ->
             queue_filter toLowerCase
               (ReviewQueuePage.opened rows (Some (lit status))) r
             = array_includes pieces (Document.status (ReviewQueuePage.document r))).
  { intros status pieces r Ht Ha Hs. unfold queue_filter, ReviewQueuePage.opened.
    cbn [ReviewQueuePage.statusFilter ReviewQueuePage.typeFilter
           ReviewQueuePage.searchQuery ReviewQueuePage.documents].
    unfold str_or. rewrite Ht, Ha, Hs, str_eqb_refl. cbn [truthy negb orb].
    now rewrite !andb_true_r. }
  cbn [HRDashboardPage.statsOf HRDashboardPage.needsReview HRDashboardPage.approved
         HRDashboardPage.rejected HRDashboardPage.onHold].
  split; [|split; [|split]]; apply H; intro r;
    (erewrite Hopen; [| reflexivity | reflexivity | vm_compute; reflexivity]);
    unfold array_includes, HRDashboardPage.has_status; cbn [existsb];
    rewrite orb_false_r;
    rewrite !(opt_str_eqb_sym (Some _) (Document.status (ReviewQueuePage.document r)));
    reflexivity.
Qed.

End ReviewQueue.

(* ===================================================================== *)
(** ** Instances *)
(* ===================================================================== *)

Lemma insert_by_permutes {A : Type} (cmp : A -> A -> Z) (x : A) (l : list A) :
  Permutation (insert_by cmp x l) (x :: l).
Proof.
  induction l as [|y l IH]; simpl; [apply Permutation_refl|].
  destruct (cmp x y <=? 0); [apply Permutation_refl|].
  eapply Permutation_trans; [apply perm_skip, IH | apply perm_swap].
Qed.

Lemma insertion_sort_permutes {A : Type} (cmp : A -> A -> Z) (l : list A) :
  Permutation (insertion_sort cmp l) l.
Proof.
  induction l as [|x l IH]; simpl; [apply Permutation_refl|].
  eapply Permutation_trans; [apply insert_by_permutes | now apply perm_skip].
Qed.

Lemma add_then_remove_restores_witness :
  accepted sample_pdf = true
  /\ exists pg1 w1 revoked,
       UploadPage.handleFiles sample_object_url [sample_pdf] sample_upload_page sample_world
       = (Return pg1, w1)
       /\ UploadWizard.removeFile 1 pg1 = Return (revoked, sample_upload_page).
Proof.
  split; [reflexivity|].
  exact (add_then_remove_restores sample_object_url sample_pdf sample_upload_page
           sample_world eq_refl).
Defined.

Lemma submit_needs_employee_witness :
  exists e,
    filter (fun r => str_eqb (Employee.email r) (lit "john.doe@company.com"))
           (employees (db sample_world)) = [e]
    /\ Employee.id e = sample_uuid "e1".
Proof.
  destruct (submit_needs_employee sample_env sample_upload_page sample_world)
    as [_ [e [He _]]].
  - vm_compute. reflexivity.
  - vm_compute. discriminate.
  - exists e. split; [exact He|].
    vm_compute in He. injection He as <-. reflexivity.
Defined.

Lemma submitted_document_in_history_witness :
  ~ In (submitted_row sample_env sample_upload_page sample_world)
       (HistoryPage.matchingRows
          (db (snd (UploadPage.handleSubmit sample_env sample_upload_page sample_world)))).
Proof.
  refine (proj2 (submitted_document_in_history sample_env sample_upload_page
                   sample_world _) sample_employee eq_refl eq_refl _ _).
  - vm_compute. reflexivity.
  - vm_compute. discriminate.
  - vm_compute. discriminate.
Defined.

Lemma not_blank_padded : ~ blank padded_reason.
Proof. apply not_blank_truthy. vm_compute. reflexivity. Qed.

Lemma reject_overwrites_any_status_witness :
  List.map Document.status (documents (db approved_world))
    = [Some (lit "approved"); Some (lit "rejected")]
  /\ exists r',
       nth_error (documents (db (snd (DocumentReviewPage.handleReject sample_env
                                        stale_reject_page approved_world)))) 0
       = Some r'
       /\ Document.status r' = Some (lit "rejected")
       /\ Document.notes r' = Some padded_reason.
Proof.
  split; [vm_compute; reflexivity|].
  destruct (proj2 (reject_overwrites_any_status sample_env stale_reject_page
                     approved_world sample_approved_row eq_refl not_blank_padded eq_refl)
                  0%nat sample_approved_row eq_refl)
    as [r' [Hn [_ [_ Hw]]]].
  exists r'. split; [exact Hn|].
  destruct (Hw eq_refl) as [Hs [Hnotes _]]. now split.
Defined.

Lemma failed_review_changes_nothing_witness :
  db (snd (DocumentReviewPage.handleApprove failing_env sample_review_page sample_world))
  = db sample_world
  /\ db (snd (DocumentReviewPage.handleReject failing_env stale_reject_page approved_world))
     = db approved_world.
Proof.
  split.
  - exact (proj1 (proj1 (failed_review_changes_nothing failing_env sample_review_page
                           sample_world sample_document_row eq_refl eq_refl))).
  - exact (proj1 (proj2 (failed_review_changes_nothing failing_env stale_reject_page
                           approved_world sample_approved_row eq_refl eq_refl)
                        not_blank_padded)).
Defined.

Lemma approve_of_missing_document_witness :
  let w' := snd (DocumentReviewPage.handleApprove sample_env sample_review_page
                   review_world) in
  documents (db w') = documents (db review_world)
  /\ List.map ActivityLog.event_type (activity_logs (db w')) = [lit "approved"].
Proof.
  destruct (approve_of_missing_document sample_env sample_review_page review_world
              sample_document_row eq_refl) as [Hd [_ Hl]].
  - intros r [<-|[<-|[]]]; vm_compute; discriminate.
  - reflexivity.
  - split; [exact Hd|]. cbv zeta. rewrite (Hl eq_refl). vm_compute. reflexivity.
Defined.

Lemma approve_stores_selected_type_witness :
  uuid_in spelled_d7 = Some (sample_uuid "d7")
  /\ List.map Document.type
       (documents (db (snd (DocumentReviewPage.session
          [ (sample_env, DocumentReviewPage.selectDocumentType (lit "Benefits"));
            (sample_env, DocumentReviewPage.clickApproveDocument);
            (sample_env2, DocumentReviewPage.confirmApproval) ]
          (fst (DocumentReviewPage.mount sample_env spelled_d7 review_world))
          (snd (DocumentReviewPage.mount sample_env spelled_d7 review_world))))))
     = [Some (lit "Benefits"); Some (lit "I-9")]
  /\ forall r',
       In r' (documents (db (snd (DocumentReviewPage.session
          [ (sample_env, DocumentReviewPage.clickApproveDocument);
            (sample_env2, DocumentReviewPage.confirmApproval) ]
          (fst (DocumentReviewPage.mount sample_env spelled_d7 review_world))
          (snd (DocumentReviewPage.mount sample_env spelled_d7 review_world)))))) ->
       Document.id r' = sample_uuid "d7" ->
       Document.type r' = Some (lit "W-4").
Proof.
  split; [vm_compute; reflexivity|].
  split; [vm_compute; reflexivity|].
  intros r' Hin Hid.
  refine (proj2 (proj1 (approve_stores_selected_type sample_env sample_env sample_env
                          sample_env2 spelled_d7 (sample_uuid "d7") review_world
                          on_hold_row (lit "on_hold") (lit "x")
                          _ eq_refl eq_refl eq_refl _ _ eq_refl) r' Hin Hid)).
  - vm_compute. reflexivity.
  - vm_compute. discriminate.
  - vm_compute. discriminate.
Defined.

Lemma double_click_submits_twice_witness :
  UploadPage.step sample_upload_page = 3
  /\ List.map Document.id
       (documents (db (snd (UploadWizard.session sample_object_url
          [ (sample_env, UploadWizard.clickSubmit); (sample_env2, UploadWizard.clickSubmit);
            (sample_env, UploadWizard.answer 0); (sample_env2, UploadWizard.answer 1);
            (sample_env, UploadWizard.answer 0); (sample_env2, UploadWizard.answer 1);
            (sample_env, UploadWizard.answer 0); (sample_env2, UploadWizard.answer 0) ]
          (UploadWizard.mkVisit sample_upload_page []) sample_world))))
     = [sample_uuid "d1"; sample_uuid "d2"; sample_uuid "d3"].
Proof.
  split; [reflexivity|].
  rewrite (proj1 (double_click_submits_twice sample_object_url sample_env sample_env2
                    sample_upload_page sample_world eq_refl eq_refl eq_refl
                    ltac:(vm_compute; discriminate))).
  vm_compute. reflexivity.
Defined.

Lemma uninterrupted_submit_witness :
  UploadPage.step sample_upload_page = 3
  /\ exists pg',
       UploadPage.handleSubmit sample_env sample_upload_page sample_world
       = (Return pg',
          snd (UploadWizard.session sample_object_url
                 [ (sample_env, UploadWizard.clickSubmit);
                   (sample_env, UploadWizard.answer 0);
                   (sample_env, UploadWizard.answer 0);
                   (sample_env, UploadWizard.answer 0) ]
                 (UploadWizard.mkVisit sample_upload_page []) sample_world))
       /\ fst (UploadWizard.session sample_object_url
                 [ (sample_env, UploadWizard.clickSubmit);
                   (sample_env, UploadWizard.answer 0);
                   (sample_env, UploadWizard.answer 0);
                   (sample_env, UploadWizard.answer 0) ]
                 (UploadWizard.mkVisit sample_upload_page []) sample_world)
          = UploadWizard.mkVisit pg' [].
Proof.
  split; [reflexivity|].
  exact (uninterrupted_submit sample_object_url sample_env sample_upload_page
           sample_world eq_refl).
Defined.

Lemma mount_loads_the_row_witness :
  uuid_in spelled_d7 = Some (sample_uuid "d7")
  /\ DocumentReviewPage.document
       (fst (DocumentReviewPage.mount sample_env spelled_d7 review_world))
     = Some on_hold_row.
Proof.
  split; [vm_compute; reflexivity|].
  apply (proj1 (proj2 (proj2 (proj2 (proj2
           (mount_loads_the_row sample_env spelled_d7 review_world)))))
           (sample_uuid "d7") eq_refl).
  - vm_compute. reflexivity.
  - vm_compute. repeat constructor; simpl; intuition discriminate.
  - split; [now left | reflexivity].
Defined.

Lemma rejected_documents_have_reason_witness :
  Forall rejected_has_reason (documents (db review_world))
  /\ Forall rejected_has_reason (documents (db (run sample_ops review_world))).
Proof.
  assert (H0 : Forall rejected_has_reason (documents (db review_world))).
  { apply Forall_forall. intros r Hr. apply rejected_has_reasonb_ok.
    destruct Hr as [<-|[<-|[]]]; vm_compute; reflexivity. }
  split; [exact H0|].
  exact (proj1 (rejected_documents_have_reason sample_ops review_world H0)).
Defined.

Lemma queue_shows_filtered_witness :
  List.map (fun r => Document.id (ReviewQueuePage.document r))
    (ReviewQueuePage.filterAndSortDocuments ascii_lower code_unit_compare
       (@insertion_sort ReviewQueuePage.Row)
       (ReviewQueuePage.opened sample_rows (Some (lit "received,in_review"))))
  = [sample_uuid "d1"]
  /\ forall r,
       In r (ReviewQueuePage.filterAndSortDocuments ascii_lower code_unit_compare
               (@insertion_sort ReviewQueuePage.Row)
               (ReviewQueuePage.opened sample_rows (Some (lit "received,in_review"))))
       -> In r sample_rows.
Proof.
  split; [vm_compute; reflexivity|].
  intros r Hr.
  exact (proj1 (proj1 (proj2 (queue_shows_filtered ascii_lower code_unit_compare
                                (@insertion_sort ReviewQueuePage.Row)
                                (@insertion_sort_permutes ReviewQueuePage.Row)
                                (ReviewQueuePage.opened sample_rows
                                   (Some (lit "received,in_review")))) r) Hr)).
Defined.

Lemma dashboard_cards_match_queue_witness :
  List.length
    (ReviewQueuePage.filterAndSortDocuments ascii_lower code_unit_compare
       (@insertion_sort ReviewQueuePage.Row)
       (ReviewQueuePage.opened sample_rows (Some (lit "received,in_review"))))
  = HRDashboardPage.needsReview
      (HRDashboardPage.statsOf (List.map ReviewQueuePage.document sample_rows)).
Proof.
  exact (proj1 (dashboard_cards_match_queue ascii_lower code_unit_compare
                  (@insertion_sort ReviewQueuePage.Row)
                  (@insertion_sort_permutes ReviewQueuePage.Row) sample_rows)).
Defined.
